(** * Zentry: the cryptographic envelope, the two-level unlock protocol and
    the commands

    A shallow embedding of [crypto.py], [vault.py] and the commands of
    [cli.py].

    - Python [bytes] are lists of bytes, Python [str] are strings.
    - The dictionaries that the vault keeps on disk ([real.zvlt],
      [decoy.zvlt], [meta.json]) are JSON documents; a JSON object is a
      finite map from strings to JSON values, and [store["blob"] = blob]
      is a map insertion.  The body of a vault is whatever JSON value its
      blob decrypts to: the unlock functions return it unchecked.
    - Python exceptions are values of [exn]; a computation that may raise
      returns a [result].
    - [os.urandom] reads an entropy tape at a cursor and advances the
      cursor; files are a finite map from file names to documents.  Code
      that draws randomness or touches files lives in the monad [M].
    - The libraries the program calls (PBKDF2-HMAC-SHA256 and AES-GCM of
      [cryptography], [base64], [json], the UTF-8 codec) are the fields of
      the class [Library], with the laws the proofs rely on.
    - The commands run in the monad [C] over a session: the vault, the
      lines that will be typed, the screen, and the files outside the
      vault, which are reached through the operations of the class
      [Platform]. *)

From Stdlib Require Import Strings.Byte Strings.String Strings.Ascii NArith ZArith.
From stdpp Require Import base option gmap strings list fin_maps countable.

Set Warnings "-register-all".
Open Scope string_scope.

(** ** Python values *)

Definition bytes : Type := list byte.

#[global] Instance byte_eq_decision : EqDecision byte := byte_eq_dec.

(** A JSON document, as [json.loads] returns it.  A float is given by its
    [repr], the text that [json.dumps] writes for it. *)
Inductive json : Type :=
| JNull
| JBool (b : bool)
| JInt (z : Z)
| JFloat (repr : string)
| JStr (s : string)
| JList (l : list json)
| JDict (d : gmap string json).

(** One entry of a vault body: [{"name":..., "type":..., "data":...}]. *)
Definition item (name type data : string) : json :=
  JDict (<["name" := JStr name]> (<["type" := JStr type]> (<["data" := JStr data]> ∅))).

(** The exceptions that can travel through the program. *)
Inductive exn : Type :=
| ValueError (msg : string)
| KeyError (key : string)
| TypeError
| AttributeError
| InvalidTag
| BinasciiError
| UnicodeError
| JSONDecodeError
| FileNotFoundError
| FileExistsError
| EOFError.

#[global] Instance exn_eq_decision : EqDecision exn.
Proof. solve_decision. Defined.

Inductive result (A : Type) : Type :=
| Ok (a : A)
| Raise (e : exn).
Arguments Ok {A} a.
Arguments Raise {A} e.

#[global] Instance result_ret : MRet result := @Ok.
#[global] Instance result_bind : MBind result :=
  λ A B f m, match m with Ok a => f a | Raise e => Raise e end.

(** [try: c  except Exception as e: raise h(e)]. *)
Definition try_except {A} (c : result A) (h : exn → exn) : result A :=
  match c with Ok a => Ok a | Raise e => Raise (h e) end.

(** A library call that fails raises the exception [e]. *)
Definition or_raise {A} (e : exn) (o : option A) : result A :=
  match o with Some a => Ok a | None => Raise e end.

(** Python truthiness of a JSON value ([if v:]). *)
Definition truthy (v : json) : bool :=
  match v with
  | JNull => false
  | JBool b => b
  | JInt z => negb (Z.eqb z 0)
  | JFloat r => negb (String.eqb r "0.0" || String.eqb r "-0.0")
  | JStr s => negb (String.eqb s EmptyString)
  | JList l => match l with [] => false | _ => true end
  | JDict d => negb (bool_decide (d = ∅))
  end.

(** Truthiness of an [Optional[str]] argument: [None] and the empty string
    are false. *)
Definition truthy_opt (p : option string) : bool :=
  match p with
  | None => false
  | Some s => negb (String.eqb s EmptyString)
  end.

(** [j[k]] with a string key. *)
Definition getitem (j : json) (k : string) : result json :=
  match j with
  | JDict d => match d !! k with Some v => Ok v | None => Raise (KeyError k) end
  | _ => Raise TypeError
  end.

(** [j.get(k, default)]. *)
Definition dict_get (j : json) (k : string) (dflt : json) : result json :=
  match j with
  | JDict d => Ok (default dflt (d !! k))
  | _ => Raise AttributeError
  end.

(** [j[k] = v] with a string key. *)
Definition setitem (j : json) (k : string) (v : json) : result json :=
  match j with
  | JDict d => Ok (JDict (<[k := v]> d))
  | _ => Raise TypeError
  end.

(** [s.encode('ascii')] and [b.decode('ascii')]. *)
Definition is_ascii_byte (b : byte) : bool := N.ltb (Byte.to_N b) 128.

Definition str_encode_ascii (s : string) : result bytes :=
  let b := list_byte_of_string s in
  if forallb is_ascii_byte b then Ok b else Raise UnicodeError.

Definition bytes_decode_ascii (b : bytes) : result string :=
  if forallb is_ascii_byte b then Ok (string_of_list_byte b) else Raise UnicodeError.

(** ** The world: entropy and files *)

Record world : Type := World {
  entropy : nat → byte;
  cursor : nat;
  files : gmap string json
}.

Definition M (A : Type) : Type := world → result A * world.

#[global] Instance M_ret : MRet M := λ A a w, (Ok a, w).
#[global] Instance M_bind : MBind M :=
  λ A B f m w,
    match m w with
    | (Ok a, w') => f a w'
    | (Raise e, w') => (Raise e, w')
    end.

Definition lift {A} (r : result A) : M A := λ w, (r, w).

(** The [n] bytes of the tape that start at position [p]. *)
Definition window (e : nat → byte) (p n : nat) : bytes := e <$> seq p n.

(** [os.urandom(n)]. *)
Definition os_urandom (n : nat) : M bytes :=
  λ w, (Ok (window (entropy w) (cursor w) n),
        World (entropy w) (cursor w + n) (files w)).

(** [path.read_text()] followed by [json.loads]. *)
Definition read_json (path : string) : M json :=
  λ w, match files w !! path with
       | Some j => (Ok j, w)
       | None => (Raise FileNotFoundError, w)
       end.

(** [path.write_text(json.dumps(j, indent=2))]. *)
Definition write_json (path : string) (j : json) : M unit :=
  λ w, (Ok (), World (entropy w) (cursor w) (<[path := j]> (files w))).

(** ** The libraries the program calls *)

Class Library : Type := {
  (** [PBKDF2HMAC(SHA256, length, salt, iterations).derive(password)] *)
  PBKDF2HMAC_derive : bytes → bytes → N → nat → bytes;
  (** [aes.encrypt(nonce, data, aad)] and [aes.decrypt(nonce, data, aad)] for
      [aes = AESGCM(key)] and a nonce of 8 to 128 bytes; [decrypt] fails
      with [InvalidTag] *)
  AESGCM_encrypt : bytes → bytes → bytes → bytes → bytes;
  AESGCM_decrypt : bytes → bytes → bytes → bytes → option bytes;
  (** [base64.urlsafe_b64encode] and [base64.urlsafe_b64decode]; decoding
      fails with [binascii.Error] *)
  urlsafe_b64encode : bytes → bytes;
  urlsafe_b64decode : bytes → option bytes;
  (** [s.encode('utf-8')] and [b.decode('utf-8')]; decoding fails with
      [UnicodeDecodeError].  A [string] stands for a [str] that has a UTF-8
      encoding: a [str] with a lone surrogate, on which [encode] raises
      [UnicodeEncodeError], is not a value of this development, and what
      is proved of a password is proved of the passwords that encode *)
  str_encode_utf8 : string → bytes;
  bytes_decode_utf8 : bytes → option string;
  (** [json.dumps] and [json.loads]; parsing fails with [JSONDecodeError] *)
  json_dumps : json → string;
  json_loads : string → option json;

  derive_length : ∀ pw salt it n, length (PBKDF2HMAC_derive pw salt it n) = n;
  decrypt_encrypt : ∀ k n p a,
    length k ∈ [16; 24; 32] → length n = 12 →
    AESGCM_decrypt k n (AESGCM_encrypt k n p a) a = Some p;
  b64decode_b64encode : ∀ b, urlsafe_b64decode (urlsafe_b64encode b) = Some b;
  b64encode_ascii : ∀ b, forallb is_ascii_byte (urlsafe_b64encode b) = true;
  utf8_decode_encode : ∀ s, bytes_decode_utf8 (str_encode_utf8 s) = Some s;
  json_loads_dumps : ∀ j, json_loads (json_dumps j) = Some j
}.

(** ** crypto.py *)

Section Crypto.
Context {L : Library}.

Definition KDF_ITERATIONS : N := 200000.
Definition SALT_SIZE : nat := 16.
Definition NONCE_SIZE : nat := 12.
Definition CEK_SIZE : nat := 32.

Definition AAD_HEADER : bytes := list_byte_of_string "zentry-v1".

Definition _b64encode (b : bytes) : result string :=
  bytes_decode_ascii (urlsafe_b64encode b).

(** A value read from a JSON document is a [str] only if it is a [JStr]:
    anything else has no [encode] method. *)
Definition _b64decode (s : json) : result bytes :=
  match s with
  | JStr s => b ← str_encode_ascii s; or_raise BinasciiError (urlsafe_b64decode b)
  | _ => Raise AttributeError
  end.

Definition derive_key (password : string) (salt : bytes) : bytes :=
  PBKDF2HMAC_derive (str_encode_utf8 password) salt KDF_ITERATIONS 32.

(** The constructor [AESGCM(key)] accepts keys of 128, 192 or 256 bits. *)
Definition AESGCM (key : bytes) : result bytes :=
  if bool_decide (length key ∈ [16; 24; 32]) then Ok key
  else Raise (ValueError "AESGCM key must be 128, 192, or 256 bits.").

Definition aesgcm_encrypt (key plaintext aad : bytes) : M (bytes * bytes) :=
  aes ← lift (AESGCM key);
  nonce ← os_urandom NONCE_SIZE;
  let ct := AESGCM_encrypt aes nonce plaintext aad in
  mret (nonce, ct).

(** [aes.encrypt] and [aes.decrypt] refuse a nonce that is shorter than 8
    or longer than 128 bytes. *)
Definition check_nonce (nonce : bytes) : result unit :=
  if bool_decide (length nonce < 8 ∨ 128 < length nonce)
  then Raise (ValueError "Nonce must be between 8 and 128 bytes")
  else Ok ().

Definition aesgcm_decrypt (key nonce ciphertext aad : bytes) : result bytes :=
  aes ← AESGCM key;
  check_nonce nonce;;
  or_raise InvalidTag (AESGCM_decrypt aes nonce ciphertext aad).

Definition create_cek : M bytes := os_urandom CEK_SIZE.

Definition wrap_cek_with_password (cek : bytes) (password : string) : M json :=
  salt ← os_urandom SALT_SIZE;
  let kek := derive_key password salt in
  '(nonce, ct) ← aesgcm_encrypt kek cek AAD_HEADER;
  s ← lift (_b64encode salt);
  n ← lift (_b64encode nonce);
  c ← lift (_b64encode ct);
  mret (JDict (<["salt" := JStr s]> (<["nonce" := JStr n]> (<["ct" := JStr c]> ∅)))).

Definition unwrap_cek_with_password (wrapped : json) (password : string) : result bytes :=
  salt ← getitem wrapped "salt" ≫= _b64decode;
  nonce ← getitem wrapped "nonce" ≫= _b64decode;
  ct ← getitem wrapped "ct" ≫= _b64decode;
  let kek := derive_key password salt in
  aesgcm_decrypt kek nonce ct AAD_HEADER.

Definition encrypt_payload_with_cek (cek payload : bytes) : M json :=
  '(nonce, ct) ← aesgcm_encrypt cek payload AAD_HEADER;
  n ← lift (_b64encode nonce);
  c ← lift (_b64encode ct);
  mret (JDict (<["nonce" := JStr n]> (<["ct" := JStr c]> ∅))).

Definition decrypt_payload_with_cek (cek : bytes) (enc : json) : result bytes :=
  nonce ← getitem enc "nonce" ≫= _b64decode;
  ct ← getitem enc "ct" ≫= _b64decode;
  aesgcm_decrypt cek nonce ct AAD_HEADER.

Definition create_vault_blob (cek items_json_bytes : bytes) : M json :=
  enc ← encrypt_payload_with_cek cek items_json_bytes;
  aad ← lift (_b64encode AAD_HEADER);
  file_ct ← lift (getitem enc "ct");
  file_nonce ← lift (getitem enc "nonce");
  mret (JDict (<["version" := JInt 1]> (<["aad" := JStr aad]>
         (<["file_ct" := file_ct]> (<["file_nonce" := file_nonce]> ∅))))).

Definition decrypt_vault_blob (cek : bytes) (blob : json) : result bytes :=
  file_nonce ← getitem blob "file_nonce";
  file_ct ← getitem blob "file_ct";
  decrypt_payload_with_cek cek
    (JDict (<["nonce" := file_nonce]> (<["ct" := file_ct]> ∅))).

End Crypto.

(** ** vault.py *)

Section Vault.
Context {L : Library}.

Definition META_FILENAME : string := "meta.json".
Definition REAL_FILENAME : string := "real.zvlt".
Definition DECOY_FILENAME : string := "decoy.zvlt".

Definition _encode_bytes (b : bytes) : result string :=
  bytes_decode_ascii (urlsafe_b64encode b).

Definition _read_json (path : string) : M json := read_json path.

(** The string behind an optional password that has been tested truthy. *)
Definition as_str (p : option string) : string := default EmptyString p.

(** The text of [decoy_welcome.txt]. *)
Definition decoy_welcome : bytes :=
  (list_byte_of_string "Welcome to the decoy vault. Nothing secret here." ++ [x0a])%list.

Definition init_new (l1_password : string) (l2_password : option string)
    (decoy_password : string) : M unit :=
  let meta :=
    JDict (<["version" := JInt 1]>
          (<["real" := JDict (<["file" := JStr REAL_FILENAME]>
                             (<["two_level" := JBool (truthy_opt l2_password)]> ∅))]>
          (<["decoy" := JDict (<["file" := JStr DECOY_FILENAME]> ∅)]> ∅))) in
  write_json META_FILENAME meta;;
  cek ← create_cek;
  let body := str_encode_utf8 (json_dumps (JList [])) in
  blob ← create_vault_blob cek body;
  wrapped_l1 ← wrap_cek_with_password cek l1_password;
  wrapped_l2 ← (if truthy_opt l2_password
                then wrap_cek_with_password cek (as_str l2_password)
                else mret JNull);
  let real_store :=
    JDict (<["version" := JInt 1]>
          (<["policy" := JDict (<["requires_l2" := JBool (truthy_opt l2_password)]> ∅)]>
          (<["wrapped_l1" := wrapped_l1]>
          (<["wrapped_l2" := wrapped_l2]>
          (<["blob" := blob]> ∅))))) in
  write_json REAL_FILENAME real_store;;
  decoy_cek ← create_cek;
  welcome ← lift (_encode_bytes decoy_welcome);
  let decoy_items := JList [item "decoy_welcome.txt" "file" welcome] in
  let decoy_body := str_encode_utf8 (json_dumps decoy_items) in
  decoy_blob ← create_vault_blob decoy_cek decoy_body;
  wrapped_decoy ← wrap_cek_with_password decoy_cek decoy_password;
  let decoy_store :=
    JDict (<["version" := JInt 1]>
          (<["wrapped" := wrapped_decoy]>
          (<["blob" := decoy_blob]> ∅))) in
  write_json DECOY_FILENAME decoy_store.

Definition unlock_real (l1_password : string) (l2_password : option string)
    : M json :=
  store ← _read_json REAL_FILENAME;
  policy ← lift (dict_get store "policy" (JDict ∅));
  requires_l2 ← lift (dict_get policy "requires_l2" (JBool false));
  cek ← lift (try_except
                (wrapped ← getitem store "wrapped_l1";
                 unwrap_cek_with_password wrapped l1_password)
                (λ _, ValueError "unable to unlock vault"));
  (if truthy requires_l2 then
     if negb (truthy_opt l2_password) then
       lift (Raise (ValueError "two-level authentication required"))
     else
       cek2 ← lift (try_except
                      (wrapped ← getitem store "wrapped_l2";
                       unwrap_cek_with_password wrapped (as_str l2_password))
                      (λ _, ValueError "unable to unlock vault"));
       if bool_decide (cek ≠ cek2) then
         lift (Raise (ValueError "unable to unlock vault"))
       else mret ()
   else mret ());;
  body_bytes ← lift (blob ← getitem store "blob"; decrypt_vault_blob cek blob);
  items ← lift (text ← or_raise UnicodeError (bytes_decode_utf8 body_bytes);
                or_raise JSONDecodeError (json_loads text));
  mret items.

Definition save_real_items (l1_password : string) (l2_password : option string)
    (items : json) : M unit :=
  store ← _read_json REAL_FILENAME;
  policy ← lift (dict_get store "policy" (JDict ∅));
  requires_l2 ← lift (dict_get policy "requires_l2" (JBool false));
  cek ← lift (wrapped ← getitem store "wrapped_l1";
              unwrap_cek_with_password wrapped l1_password);
  (if truthy requires_l2 then
     if negb (truthy_opt l2_password) then
       lift (Raise (ValueError "two-level authentication required"))
     else
       cek2 ← lift (wrapped ← getitem store "wrapped_l2";
                    unwrap_cek_with_password wrapped (as_str l2_password));
       if bool_decide (cek ≠ cek2) then
         lift (Raise (ValueError "unable to unlock vault"))
       else mret ()
   else mret ());;
  let body_bytes := str_encode_utf8 (json_dumps items) in
  blob ← create_vault_blob cek body_bytes;
  store' ← lift (setitem store "blob" blob);
  write_json REAL_FILENAME store'.

Definition unlock_decoy (decoy_password : string) : M json :=
  store ← _read_json DECOY_FILENAME;
  decoy_cek ← lift (try_except
                      (wrapped ← getitem store "wrapped";
                       unwrap_cek_with_password wrapped decoy_password)
                      (λ _, ValueError "unable to unlock decoy"));
  body_bytes ← lift (blob ← getitem store "blob"; decrypt_vault_blob decoy_cek blob);
  items ← lift (text ← or_raise UnicodeError (bytes_decode_utf8 body_bytes);
                or_raise JSONDecodeError (json_loads text));
  mret items.

Definition save_decoy_items (decoy_password : string) (items : json) : M unit :=
  store ← _read_json DECOY_FILENAME;
  decoy_cek ← lift (wrapped ← getitem store "wrapped";
                    unwrap_cek_with_password wrapped decoy_password);
  let body_bytes := str_encode_utf8 (json_dumps items) in
  blob ← create_vault_blob decoy_cek body_bytes;
  store' ← lift (setitem store "blob" blob);
  write_json DECOY_FILENAME store'.

End Vault.

(** ** A small executable library

    An implementation of [Library] that runs inside Rocq.  It shows that
    the laws of the class can be met together, and the concrete runs of the
    vault below are computed with it.  The "cipher" prefixes the plaintext
    with key, nonce and associated data and checks that prefix on
    decryption; the "base64" writes each byte as two letters. *)

Module Model.

Definition derive (pw salt : bytes) (it : N) (n : nat) : bytes :=
  take n (pw ++ salt ++ replicate n x00)%list.

Definition header (k n a : bytes) : bytes := (k ++ n ++ a)%list.

Definition encrypt (k n p a : bytes) : bytes := (header k n a ++ p)%list.

Definition decrypt (k n c a : bytes) : option bytes :=
  let h := header k n a in
  if bool_decide (take (length h) c = h) then Some (drop (length h) c) else None.

Definition letter (n : N) : byte := default x00 (Byte.of_N (65 + n)).

Definition unletter (c : byte) : option N :=
  let n := Byte.to_N c in
  if (N.leb 65 n && N.ltb n 81)%bool then Some (n - 65)%N else None.

Definition encode_byte (b : byte) : bytes :=
  [letter (Byte.to_N b / 16); letter (Byte.to_N b mod 16)].

Definition decode_byte (hi lo : byte) : option byte :=
  h ← unletter hi; l ← unletter lo; Byte.of_N (16 * h + l).

Definition b64encode (b : bytes) : bytes := b ≫= encode_byte.

Fixpoint b64decode (b : bytes) : option bytes :=
  match b with
  | [] => Some []
  | [_] => None
  | hi :: lo :: rest =>
      x ← decode_byte hi lo; l ← b64decode rest; Some (x :: l)
  end.

Fixpoint digits (p : positive) : string :=
  match p with
  | xH => EmptyString
  | xO p => String "0" (digits p)
  | xI p => String "1" (digits p)
  end.

Fixpoint undigits (s : string) : option positive :=
  match s with
  | EmptyString => Some xH
  | String c s =>
      if Ascii.eqb c "0" then xO <$> undigits s
      else if Ascii.eqb c "1" then xI <$> undigits s
      else None
  end.

(** The "JSON text" of a document is the binary numeral of its code as a
    tree with labelled leaves. *)
Definition leaf : Type := bool + Z + string.

Fixpoint json_to_tree (j : json) : gen_tree leaf :=
  match j with
  | JNull => GenNode 0 []
  | JBool b => GenLeaf (inl (inl b))
  | JInt z => GenLeaf (inl (inr z))
  | JFloat r => GenNode 1 [GenLeaf (inr r)]
  | JStr s => GenLeaf (inr s)
  | JList l => GenNode 2 (json_to_tree <$> l)
  | JDict d =>
      GenNode 3 (map_fold (λ k v acc, GenNode 4 [GenLeaf (inr k); json_to_tree v] :: acc) [] d)
  end.

Fixpoint tree_to_json (t : gen_tree leaf) : option json :=
  match t with
  | GenLeaf (inl (inl b)) => Some (JBool b)
  | GenLeaf (inl (inr z)) => Some (JInt z)
  | GenLeaf (inr s) => Some (JStr s)
  | GenNode 0 _ => Some JNull
  | GenNode 1 [GenLeaf (inr r)] => Some (JFloat r)
  | GenNode 2 ts => JList <$> mapM tree_to_json ts
  | GenNode 3 ts =>
      (λ l, JDict (list_to_map l)) <$>
        mapM (λ t, match t with
                   | GenNode 4 [GenLeaf (inr k); v] => pair k <$> tree_to_json v
                   | _ => None
                   end) ts
  | _ => None
  end.

Fixpoint json_size (j : json) : nat :=
  match j with
  | JList l => S (foldr (λ x acc, json_size x + acc) 0 l)
  | JDict d => S (map_fold (λ _ v acc, json_size v + acc) 0 d)
  | _ => 1
  end.

Definition dumps (j : json) : string := digits (encode (json_to_tree j)).

Definition loads (s : string) : option json :=
  p ← undigits s; t ← decode (A:=gen_tree leaf) p; tree_to_json t.

Lemma derive_len pw salt it n : length (derive pw salt it n) = n.
Proof.
  unfold derive. rewrite length_take, !length_app, length_replicate. lia.
Qed.

Lemma dec_enc k n p a : decrypt k n (encrypt k n p a) a = Some p.
Proof.
  unfold encrypt, decrypt. cbn zeta.
  rewrite take_app_length, drop_app_length.
  by rewrite bool_decide_eq_true_2.
Qed.

Lemma decode_encode_byte b :
  decode_byte (letter (Byte.to_N b / 16)) (letter (Byte.to_N b mod 16)) = Some b.
Proof. destruct b; vm_compute; reflexivity. Qed.

Lemma b64_dec_enc b : b64decode (b64encode b) = Some b.
Proof.
  induction b as [|x b IH]; [done|].
  change (b64encode (x :: b)) with
    (letter (Byte.to_N x / 16) :: letter (Byte.to_N x mod 16) :: b64encode b).
  cbn [b64decode]. by rewrite decode_encode_byte, IH.
Qed.

Lemma encode_byte_ascii b : forallb is_ascii_byte (encode_byte b) = true.
Proof. destruct b; vm_compute; reflexivity. Qed.

Lemma b64_enc_ascii b : forallb is_ascii_byte (b64encode b) = true.
Proof.
  induction b as [|x b IH]; [done|].
  change (b64encode (x :: b)) with (encode_byte x ++ b64encode b)%list.
  by rewrite forallb_app, encode_byte_ascii, IH.
Qed.

Lemma undigits_digits p : undigits (digits p) = Some p.
Proof. induction p as [p IH|p IH|]; cbn; by rewrite ?IH. Qed.

Lemma json_size_elem l x : x ∈ l → json_size x < json_size (JList l).
Proof.
  intros H. change (json_size (JList l)) with (S (foldr (λ x acc, json_size x + acc) 0 l)).
  induction l as [|y l IH].
  - by apply elem_of_nil in H.
  - cbn [foldr]. apply elem_of_cons in H as [->|H]; [lia|].
    specialize (IH H). lia.
Qed.

Lemma json_size_entry d k v : (k, v) ∈ map_to_list d → json_size v < json_size (JDict d).
Proof.
  intros H.
  change (json_size (JDict d)) with (S (map_fold (λ _ v acc, json_size v + acc) 0 d)).
  rewrite map_fold_foldr. revert H.
  induction (map_to_list d) as [|[k' v'] l IH]; intros H.
  - by apply elem_of_nil in H.
  - cbn [foldr uncurry]. apply elem_of_cons in H as [[= -> ->]|H]; [lia|].
    specialize (IH H). lia.
Qed.

Lemma tree_to_json_to_tree j : tree_to_json (json_to_tree j) = Some j.
Proof.
  remember (json_size j) as n eqn:Hn. revert j Hn.
  induction (lt_wf n) as [n _ IH]. intros j ->.
  destruct j as [|b|z|r|s|l|d]; try done.
  - cbn [json_to_tree tree_to_json].
    rewrite mapM_fmap_Forall_Some; [done|].
    apply list.Forall_forall. intros x Hx. eapply IH; [|reflexivity].
    by apply json_size_elem.
  - cbn [json_to_tree tree_to_json]. rewrite map_fold_foldr.
    assert (mapM (λ t, match t with
                       | GenNode 4 [GenLeaf (inr k); v] => pair k <$> tree_to_json v
                       | _ => None
                       end)
              (foldr (uncurry (λ k v acc, GenNode 4 [GenLeaf (inr k); json_to_tree v] :: acc))
                 [] (map_to_list d))
            = Some (map_to_list d)) as ->.
    { assert (Forall (λ kv, tree_to_json (json_to_tree kv.2) = Some kv.2) (map_to_list d))
        as Hall.
      { apply list.Forall_forall. intros [k v] Hkv. eapply IH; [|reflexivity].
        by eapply json_size_entry. }
      induction Hall as [|[k v] l Hv _ IHl]; [done|].
      cbn [foldr uncurry mapM]. cbn in Hv. cbn. rewrite Hv. cbn. by rewrite IHl. }
    cbn. by rewrite list_to_map_to_list.
Qed.

Lemma loads_dumps j : loads (dumps j) = Some j.
Proof.
  unfold loads, dumps. rewrite undigits_digits. cbn. rewrite decode_encode. cbn.
  apply tree_to_json_to_tree.
Qed.

#[export] Instance library : Library := {|
  PBKDF2HMAC_derive := derive;
  AESGCM_encrypt := encrypt;
  AESGCM_decrypt := decrypt;
  urlsafe_b64encode := b64encode;
  urlsafe_b64decode := b64decode;
  str_encode_utf8 := list_byte_of_string;
  bytes_decode_utf8 := λ b, Some (string_of_list_byte b);
  json_dumps := dumps;
  json_loads := loads;
  derive_length := derive_len;
  decrypt_encrypt := λ k n p a _ _, dec_enc k n p a;
  b64decode_b64encode := b64_dec_enc;
  b64encode_ascii := b64_enc_ascii;
  utf8_decode_encode := λ s, f_equal Some (string_of_list_byte_of_string s);
  json_loads_dumps := loads_dumps
|}.

(** A tape whose byte at position [i] is [i mod 256], and an empty directory. *)
Definition tape (i : nat) : byte := default x00 (Byte.of_N (N.of_nat i mod 256)).

Definition fresh_world : world := World tape 0 ∅.

End Model.

(** ** Running the monad *)

(** The world after [n] more bytes of entropy have been consumed. *)
Definition advance (w : world) (n : nat) : world :=
  World (entropy w) (cursor w + n) (files w).

(** The world after the document [j] has been written to [path]. *)
Definition with_file (w : world) (path : string) (j : json) : world :=
  World (entropy w) (cursor w) (<[path := j]> (files w)).

Lemma bind_Ok {A B} (m : M A) (f : A → M B) w a w' :
  m w = (Ok a, w') → (m ≫= f) w = f a w'.
Proof. intros Hm. unfold mbind, M_bind. by rewrite Hm. Qed.

Lemma bind_Raise {A B} (m : M A) (f : A → M B) w e w' :
  m w = (Raise e, w') → (m ≫= f) w = (Raise e, w').
Proof. intros Hm. unfold mbind, M_bind. by rewrite Hm. Qed.

Lemma result_bind_Ok {A B} (a : A) (f : A → result B) : (Ok a ≫= f) = f a.
Proof. done. Qed.

Lemma result_bind_Raise {A B} (e : exn) (f : A → result B) : (Raise e ≫= f) = Raise e.
Proof. done. Qed.

(** Pushes known results through the binds of a pure computation. *)
Ltac binds := repeat first [ rewrite result_bind_Ok | rewrite result_bind_Raise ].

Lemma try_except_Ok {A} (a : A) h : try_except (Ok a) h = Ok a.
Proof. done. Qed.

Lemma try_except_Raise {A} e h : try_except (A:=A) (Raise e) h = Raise (h e).
Proof. done. Qed.

Lemma lift_run {A} (r : result A) w : lift r w = (r, w).
Proof. done. Qed.

Lemma os_urandom_run n w :
  os_urandom n w = (Ok (window (entropy w) (cursor w) n), advance w n).
Proof. done. Qed.

Lemma read_json_run path w j :
  files w !! path = Some j → _read_json path w = (Ok j, w).
Proof. intros Hf. unfold _read_json, read_json. by rewrite Hf. Qed.

Lemma write_json_run path j w : write_json path j w = (Ok (), with_file w path j).
Proof. done. Qed.

Lemma window_length e p n : length (window e p n) = n.
Proof. unfold window. by rewrite length_fmap, length_seq. Qed.

Lemma advance_advance w n m : advance (advance w n) m = advance w (n + m).
Proof. unfold advance; cbn. f_equal. lia. Qed.

(** Resolves lookups in a map built by insertions under distinct keys. *)
Ltac lookups :=
  repeat first [ rewrite lookup_insert_eq | rewrite lookup_insert_ne by done
               | rewrite lookup_empty ].

(** Steps through a monadic computation whose next action is known. *)
Ltac step :=
  first
    [ erewrite bind_Ok by (first [apply lift_run | apply os_urandom_run
                                 | apply write_json_run | eassumption])
    | erewrite bind_Raise by (first [apply lift_run | eassumption]) ];
  cbv beta.

(** ** Facts about crypto.py *)

Section Envelope.
Context {L : Library}.

(** The text that [_b64encode] produces for [b]. *)
Definition b64text (b : bytes) : string := string_of_list_byte (urlsafe_b64encode b).

(** The record that [wrap_cek_with_password] builds. *)
Definition wrapped_of (salt nonce ct : bytes) : json :=
  JDict (<["salt" := JStr (b64text salt)]>
        (<["nonce" := JStr (b64text nonce)]>
        (<["ct" := JStr (b64text ct)]> ∅))).

(** The blob that [create_vault_blob] builds. *)
Definition blob_of (nonce ct : bytes) : json :=
  JDict (<["version" := JInt 1]>
        (<["aad" := JStr (b64text AAD_HEADER)]>
        (<["file_ct" := JStr (b64text ct)]>
        (<["file_nonce" := JStr (b64text nonce)]> ∅)))).

Lemma b64encode_run b : _b64encode b = Ok (b64text b).
Proof. unfold _b64encode, bytes_decode_ascii. by rewrite b64encode_ascii. Qed.

Lemma b64decode_run b : _b64decode (JStr (b64text b)) = Ok b.
Proof.
  unfold _b64decode, str_encode_ascii, b64text.
  rewrite list_byte_of_string_of_list_byte, b64encode_ascii. binds.
  by rewrite b64decode_b64encode.
Qed.


Lemma AESGCM_inv k aes : AESGCM k = Ok aes → aes = k ∧ length k ∈ [16; 24; 32].
Proof. unfold AESGCM. case_bool_decide; naive_solver. Qed.

Lemma AESGCM_accepts k : length k = 32 → AESGCM k = Ok k.
Proof. intros Hk. unfold AESGCM. by rewrite Hk. Qed.

Lemma derive_key_length pw salt : length (derive_key pw salt) = 32.
Proof. apply derive_length. Qed.

Lemma aesgcm_encrypt_eq k p a w :
  aesgcm_encrypt k p a w =
    match AESGCM k with
    | Raise e => (Raise e, w)
    | Ok aes =>
        let nonce := window (entropy w) (cursor w) NONCE_SIZE in
        (Ok (nonce, AESGCM_encrypt aes nonce p a), advance w NONCE_SIZE)
    end.
Proof.
  unfold aesgcm_encrypt, mbind, M_bind, lift.
  by destruct (AESGCM k).
Qed.

Lemma check_nonce_drawn n : length n = NONCE_SIZE → check_nonce n = Ok ().
Proof.
  intros Hn. unfold check_nonce. rewrite Hn.
  rewrite bool_decide_eq_false_2; [done|]. unfold NONCE_SIZE. lia.
Qed.

Lemma aesgcm_decrypt_encrypt k n p a :
  length k ∈ [16; 24; 32] → length n = 12 →
  aesgcm_decrypt k n (AESGCM_encrypt k n p a) a = Ok p.
Proof.
  intros Hk Hn. unfold aesgcm_decrypt, AESGCM.
  rewrite bool_decide_eq_true_2 by done. binds.
  rewrite check_nonce_drawn by done. binds.
  by rewrite decrypt_encrypt.
Qed.

Lemma create_vault_blob_eq cek body w :
  create_vault_blob cek body w =
    match aesgcm_encrypt cek body AAD_HEADER w with
    | (Ok (nonce, ct), w') => (Ok (blob_of nonce ct), w')
    | (Raise e, w') => (Raise e, w')
    end.
Proof.
  unfold create_vault_blob, encrypt_payload_with_cek, mbind, M_bind.
  destruct (aesgcm_encrypt cek body AAD_HEADER w) as [[[nonce ct]|e] w']; [|done].
  rewrite !b64encode_run. unfold lift, mret, M_ret, getitem. cbv beta iota.
  by lookups.
Qed.

Lemma wrap_cek_with_password_eq cek password w :
  wrap_cek_with_password cek password w =
    let salt := window (entropy w) (cursor w) SALT_SIZE in
    match aesgcm_encrypt (derive_key password salt) cek AAD_HEADER (advance w SALT_SIZE) with
    | (Ok (nonce, ct), w') => (Ok (wrapped_of salt nonce ct), w')
    | (Raise e, w') => (Raise e, w')
    end.
Proof.
  unfold wrap_cek_with_password, mbind, M_bind. rewrite os_urandom_run.
  cbn zeta.
  destruct (aesgcm_encrypt _ cek AAD_HEADER _) as [[[nonce ct]|e] w']; [|done].
  by rewrite !b64encode_run.
Qed.

Lemma unwrap_wrapped_of salt nonce ct password :
  unwrap_cek_with_password (wrapped_of salt nonce ct) password =
    aesgcm_decrypt (derive_key password salt) nonce ct AAD_HEADER.
Proof.
  unfold unwrap_cek_with_password, wrapped_of, getitem.
  lookups. binds. by rewrite !b64decode_run.
Qed.

(** Opening a blob reads its [file_nonce] and [file_ct] fields and nothing
    else, and authenticates under the fixed tag [AAD_HEADER]. *)
Lemma decrypt_vault_blob_eq cek blob :
  decrypt_vault_blob cek blob =
    (file_nonce ← getitem blob "file_nonce";
     file_ct ← getitem blob "file_ct";
     nonce ← _b64decode file_nonce;
     ct ← _b64decode file_ct;
     aesgcm_decrypt cek nonce ct AAD_HEADER).
Proof.
  unfold decrypt_vault_blob, decrypt_payload_with_cek.
  destruct (getitem blob "file_nonce") as [fn|]; [|done].
  destruct (getitem blob "file_ct") as [fc|]; [|done].
  binds. unfold getitem. lookups. by binds.
Qed.

Lemma decrypt_blob_of cek nonce ct :
  decrypt_vault_blob cek (blob_of nonce ct) = aesgcm_decrypt cek nonce ct AAD_HEADER.
Proof.
  rewrite decrypt_vault_blob_eq. unfold blob_of, getitem.
  lookups. binds. by rewrite !b64decode_run.
Qed.

(** Wrapping never fails, whatever the key it wraps: the key-encryption key
    is 32 bytes long.  It draws a salt, then a nonce. *)
Lemma wrap_run cek password w :
  let salt := window (entropy w) (cursor w) SALT_SIZE in
  let nonce := window (entropy w) (cursor w + SALT_SIZE) NONCE_SIZE in
  let ct := AESGCM_encrypt (derive_key password salt) nonce cek AAD_HEADER in
  wrap_cek_with_password cek password w =
    (Ok (wrapped_of salt nonce ct), advance w (SALT_SIZE + NONCE_SIZE)) ∧
  unwrap_cek_with_password (wrapped_of salt nonce ct) password = Ok cek.
Proof.
  cbn zeta. split.
  - rewrite wrap_cek_with_password_eq. cbn zeta. rewrite aesgcm_encrypt_eq.
    rewrite AESGCM_accepts by apply derive_key_length.
    cbn zeta. by rewrite advance_advance.
  - rewrite unwrap_wrapped_of.
    apply aesgcm_decrypt_encrypt; [|apply window_length].
    rewrite derive_key_length. set_solver.
Qed.

(** Sealing under a 32-byte key never fails; it draws a nonce. *)
Lemma seal_run cek body w :
  length cek = CEK_SIZE →
  let nonce := window (entropy w) (cursor w) NONCE_SIZE in
  let ct := AESGCM_encrypt cek nonce body AAD_HEADER in
  create_vault_blob cek body w = (Ok (blob_of nonce ct), advance w NONCE_SIZE) ∧
  decrypt_vault_blob cek (blob_of nonce ct) = Ok body.
Proof.
  intros Hk. cbn zeta. split.
  - by rewrite create_vault_blob_eq, aesgcm_encrypt_eq, AESGCM_accepts.
  - rewrite decrypt_blob_of.
    apply aesgcm_decrypt_encrypt; [|apply window_length].
    rewrite Hk. set_solver.
Qed.

(** Whenever sealing succeeds, it has drawn the next 12 bytes of the tape as
    nonce, and the blob it returns opens to the payload. *)
Lemma seal_inv cek body w blob w' :
  create_vault_blob cek body w = (Ok blob, w') →
  let nonce := window (entropy w) (cursor w) NONCE_SIZE in
  blob = blob_of nonce (AESGCM_encrypt cek nonce body AAD_HEADER) ∧
  w' = advance w NONCE_SIZE ∧
  decrypt_vault_blob cek blob = Ok body.
Proof.
  rewrite create_vault_blob_eq, aesgcm_encrypt_eq.
  destruct (AESGCM cek) as [aes|e] eqn:Hk; [|done]. cbn zeta.
  apply AESGCM_inv in Hk as [-> Hk].
  intros [= <- <-]. repeat split.
  rewrite decrypt_blob_of.
  apply aesgcm_decrypt_encrypt; [done|apply window_length].
Qed.

End Envelope.

(** ** Facts about vault.py *)

Section VaultFacts.
Context {L : Library}.

(** What [unlock_real] and [save_real_items] read from the policy of a
    record: the truth value of [store.get("policy", {}).get("requires_l2", False)]. *)
Definition requires_l2_of (store : json) : result bool :=
  policy ← dict_get store "policy" (JDict ∅);
  requires_l2 ← dict_get policy "requires_l2" (JBool false);
  Ok (truthy requires_l2).

(** [unwrap_cek_with_password(store[field], password)]. *)
Definition unwrap_field (store : json) (field password : string) : result bytes :=
  wrapped ← getitem store field;
  unwrap_cek_with_password wrapped password.


Definition AuthenticationFailed : exn := ValueError "unable to unlock vault".
Definition DecoyAuthenticationFailed : exn := ValueError "unable to unlock decoy".
Definition SecondFactorRequired : exn := ValueError "two-level authentication required".

(** The error kinds that the vault raises on purpose. *)
Definition is_opaque (e : exn) : bool :=
  bool_decide (e ∈ [AuthenticationFailed; DecoyAuthenticationFailed; SecondFactorRequired]).

Lemma requires_l2_of_inv store b :
  requires_l2_of store = Ok b →
  ∃ policy requires_l2,
    dict_get store "policy" (JDict ∅) = Ok policy ∧
    dict_get policy "requires_l2" (JBool false) = Ok requires_l2 ∧
    truthy requires_l2 = b.
Proof.
  unfold requires_l2_of.
  destruct (dict_get store "policy" (JDict ∅)) as [policy|] eqn:Hp; [|done].
  binds.
  destruct (dict_get policy "requires_l2" (JBool false)) as [r|] eqn:Hr; [|done].
  binds. intros [= <-]. eauto.
Qed.

(** [try: c except Exception: raise ValueError("unable to unlock vault")]
    when [quiet], plain [c] otherwise. *)
Definition guarded (quiet : bool) {A} (c : result A) : result A :=
  if quiet then try_except c (λ _, AuthenticationFailed) else c.

(** The path on which [unlock_real] ([quiet]) and [save_real_items] (not
    [quiet]) recover the content key of a record. *)
Definition recover_cek (quiet : bool) (store : json) (l1_password : string)
    (l2_password : option string) : result bytes :=
  policy ← dict_get store "policy" (JDict ∅);
  requires_l2 ← dict_get policy "requires_l2" (JBool false);
  cek ← guarded quiet (unwrap_field store "wrapped_l1" l1_password);
  (if truthy requires_l2 then
     if negb (truthy_opt l2_password) then Raise SecondFactorRequired
     else
       cek2 ← guarded quiet (unwrap_field store "wrapped_l2" (as_str l2_password));
       if bool_decide (cek ≠ cek2) then Raise AuthenticationFailed else Ok ()
   else Ok ());;
  Ok cek.

(** Opening the blob of a record with a content key. *)
Definition open_items (cek : bytes) (store : json) : result (json) :=
  body_bytes ← (blob ← getitem store "blob"; decrypt_vault_blob cek blob);
  text ← or_raise UnicodeError (bytes_decode_utf8 body_bytes);
  or_raise JSONDecodeError (json_loads text).

(** The blob that sealing [body] under [cek] produces when the cursor of the
    tape [e] is at [p]. *)
Definition blob_at (e : nat → byte) (p : nat) (cek body : bytes) : json :=
  let nonce := window e p NONCE_SIZE in
  blob_of nonce (AESGCM_encrypt cek nonce body AAD_HEADER).

(** The record that wrapping [cek] under [password] produces when the cursor
    of the tape [e] is at [p]. *)
Definition wrapped_at (e : nat → byte) (p : nat) (cek : bytes) (password : string) : json :=
  let salt := window e p SALT_SIZE in
  let nonce := window e (p + SALT_SIZE) NONCE_SIZE in
  wrapped_of salt nonce (AESGCM_encrypt (derive_key password salt) nonce cek AAD_HEADER).

Lemma lift_bind {A B} (r : result A) (f : A → M B) w :
  (lift r ≫= f) w = match r with Ok a => f a w | Raise e => (Raise e, w) end.
Proof. by destruct r. Qed.

(** [unlock_real] reads the record, recovers the key quietly and opens the
    blob; it leaves the world as it found it. *)
Lemma unlock_real_eq l1 l2 w store :
  files w !! REAL_FILENAME = Some store →
  unlock_real l1 l2 w = (recover_cek true store l1 l2 ≫= λ cek, open_items cek store, w).
Proof.
  intros Hfile. unfold unlock_real, recover_cek, open_items, guarded, unwrap_field.
  rewrite (bind_Ok _ _ _ _ _ (read_json_run _ _ _ Hfile)); cbv beta.
  rewrite lift_bind. destruct (dict_get store "policy" _) as [policy|]; [binds|done].
  rewrite lift_bind. destruct (dict_get policy "requires_l2" _) as [r|]; [binds|done].
  rewrite lift_bind. destruct (try_except _ _) as [cek|]; [binds|done].
  destruct (truthy r).
  - destruct (negb (truthy_opt l2)); [done|].
    unfold mbind at 1, M_bind. rewrite lift_bind.
    destruct (try_except _ _) as [cek2|]; [binds|done].
    case_bool_decide; [done|]. cbn [mret M_ret]. binds.
    rewrite lift_bind. destruct (_ ≫= _) as [body|]; [binds|done].
    rewrite lift_bind. by destruct (_ ≫= _).
  - unfold mbind at 1, M_bind. cbn [mret M_ret]. binds.
    rewrite lift_bind. destruct (_ ≫= _) as [body|]; [binds|done].
    rewrite lift_bind. by destruct (_ ≫= _).
Qed.

(** [save_real_items] reads the record, recovers the key, seals the items
    under the next nonce of the tape and writes the record back with the
    new blob. *)
Lemma save_real_items_eq l1 l2 items w store :
  files w !! REAL_FILENAME = Some store →
  save_real_items l1 l2 items w =
    match recover_cek false store l1 l2 with
    | Raise e => (Raise e, w)
    | Ok cek =>
        match AESGCM cek, setitem store "blob" (blob_at (entropy w) (cursor w) cek (str_encode_utf8 (json_dumps items))) with
        | Raise e, _ => (Raise e, w)
        | Ok _, Raise e => (Raise e, advance w NONCE_SIZE)
        | Ok _, Ok store' => (Ok (), with_file (advance w NONCE_SIZE) REAL_FILENAME store')
        end
    end.
Proof.
  intros Hfile. unfold save_real_items, recover_cek, guarded, unwrap_field.
  rewrite (bind_Ok _ _ _ _ _ (read_json_run _ _ _ Hfile)); cbv beta.
  rewrite lift_bind. destruct (dict_get store "policy" _) as [policy|]; [binds|done].
  rewrite lift_bind. destruct (dict_get policy "requires_l2" _) as [r|]; [binds|done].
  rewrite lift_bind. destruct (_ ≫= _) as [cek|]; [binds|done].
  assert (∀ w0, (create_vault_blob cek (str_encode_utf8 (json_dumps items))
                 ≫= λ blob, lift (setitem store "blob" blob)
                 ≫= λ store', write_json REAL_FILENAME store') w0 =
                match AESGCM cek, setitem store "blob"
                        (blob_at (entropy w0) (cursor w0) cek (str_encode_utf8 (json_dumps items))) with
                | Raise e, _ => (Raise e, w0)
                | Ok _, Raise e => (Raise e, advance w0 NONCE_SIZE)
                | Ok _, Ok store' =>
                    (Ok (), with_file (advance w0 NONCE_SIZE) REAL_FILENAME store')
                end) as Htail.
  { intros w0. unfold mbind at 1, M_bind.
    rewrite create_vault_blob_eq, aesgcm_encrypt_eq.
    destruct (AESGCM cek) as [aes|] eqn:Hk; [|done].
    apply AESGCM_inv in Hk as [-> _]. unfold blob_at. cbv beta iota zeta.
    rewrite lift_bind. by destruct (setitem _ _ _). }
  destruct (truthy r).
  - destruct (negb (truthy_opt l2)); [done|].
    unfold mbind at 1, M_bind. rewrite lift_bind.
    destruct (_ ≫= _) as [cek2|]; [binds|done].
    case_bool_decide; [done|]. cbn [mret M_ret]. binds. apply Htail.
  - unfold mbind at 1, M_bind. cbn [mret M_ret]. binds. apply Htail.
Qed.

Lemma unlock_decoy_eq password w store :
  files w !! DECOY_FILENAME = Some store →
  unlock_decoy password w =
    (try_except (unwrap_field store "wrapped" password) (λ _, DecoyAuthenticationFailed)
       ≫= λ cek, open_items cek store, w).
Proof.
  intros Hfile. unfold unlock_decoy, open_items, unwrap_field.
  rewrite (bind_Ok _ _ _ _ _ (read_json_run _ _ _ Hfile)); cbv beta.
  rewrite lift_bind. destruct (try_except _ _) as [cek|]; [binds|done].
  rewrite lift_bind. destruct (_ ≫= _) as [body|]; [binds|done].
  rewrite lift_bind. by destruct (_ ≫= _).
Qed.

Lemma save_decoy_items_eq password items w store :
  files w !! DECOY_FILENAME = Some store →
  save_decoy_items password items w =
    match unwrap_field store "wrapped" password with
    | Raise e => (Raise e, w)
    | Ok cek =>
        match AESGCM cek, setitem store "blob" (blob_at (entropy w) (cursor w) cek (str_encode_utf8 (json_dumps items))) with
        | Raise e, _ => (Raise e, w)
        | Ok _, Raise e => (Raise e, advance w NONCE_SIZE)
        | Ok _, Ok store' => (Ok (), with_file (advance w NONCE_SIZE) DECOY_FILENAME store')
        end
    end.
Proof.
  intros Hfile. unfold save_decoy_items, unwrap_field.
  rewrite (bind_Ok _ _ _ _ _ (read_json_run _ _ _ Hfile)); cbv beta.
  rewrite lift_bind. destruct (_ ≫= _) as [cek|]; [|done].
  unfold mbind at 1, M_bind.
  rewrite create_vault_blob_eq, aesgcm_encrypt_eq.
  destruct (AESGCM cek) as [aes|] eqn:Hk; [|done].
  apply AESGCM_inv in Hk as [-> _]. unfold blob_at. cbv beta iota zeta.
  rewrite lift_bind. by destruct (setitem _ _ _).
Qed.

Lemma create_cek_run w :
  create_cek w = (Ok (window (entropy w) (cursor w) CEK_SIZE), advance w CEK_SIZE).
Proof. done. Qed.

Lemma seal_at cek body w :
  length cek = CEK_SIZE →
  create_vault_blob cek body w =
    (Ok (blob_at (entropy w) (cursor w) cek body), advance w NONCE_SIZE).
Proof. intros Hk. by destruct (seal_run cek body w Hk). Qed.

Lemma open_blob_at cek body e p :
  length cek = CEK_SIZE → decrypt_vault_blob cek (blob_at e p cek body) = Ok body.
Proof. intros Hk. by destruct (seal_run cek body (World e p ∅) Hk). Qed.

Lemma wrap_at cek password w :
  wrap_cek_with_password cek password w =
    (Ok (wrapped_at (entropy w) (cursor w) cek password),
     advance w (SALT_SIZE + NONCE_SIZE)).
Proof. by destruct (wrap_run cek password w). Qed.

Lemma unwrap_wrapped_at cek password e p :
  unwrap_cek_with_password (wrapped_at e p cek password) password = Ok cek.
Proof. by destruct (wrap_run cek password (World e p ∅)). Qed.

(** *** What [init_new] leaves behind *)

(** The body of an empty vault and the body of the decoy vault. *)
Definition empty_body : bytes := str_encode_utf8 (json_dumps (JList [])).

Definition decoy_items : json :=
  JList [item "decoy_welcome.txt" "file" (b64text decoy_welcome)].

Definition decoy_body : bytes := str_encode_utf8 (json_dumps decoy_items).

Definition meta_of (l2 : option string) : json :=
  JDict (<["version" := JInt 1]>
        (<["real" := JDict (<["file" := JStr REAL_FILENAME]>
                           (<["two_level" := JBool (truthy_opt l2)]> ∅))]>
        (<["decoy" := JDict (<["file" := JStr DECOY_FILENAME]> ∅)]> ∅))).

Definition real_fields (l2 : option string) (wrapped_l1 wrapped_l2 blob : json)
    : gmap string json :=
  <["version" := JInt 1]>
  (<["policy" := JDict (<["requires_l2" := JBool (truthy_opt l2)]> ∅)]>
  (<["wrapped_l1" := wrapped_l1]>
  (<["wrapped_l2" := wrapped_l2]>
  (<["blob" := blob]> ∅)))).

Definition decoy_fields (wrapped blob : json) : gmap string json :=
  <["version" := JInt 1]> (<["wrapped" := wrapped]> (<["blob" := blob]> ∅)).

(** Entropy consumed by [init_new] before the decoy key is drawn: the
    real key, the nonce of the first blob, one or two wraps. *)
Definition real_draws (l2 : option string) : nat :=
  CEK_SIZE + NONCE_SIZE + (SALT_SIZE + NONCE_SIZE)
  + (if truthy_opt l2 then SALT_SIZE + NONCE_SIZE else 0).

(** The real key and the decoy key that [init_new] draws in [w]. *)
Definition real_cek (w : world) : bytes := window (entropy w) (cursor w) CEK_SIZE.

Definition decoy_cek (l2 : option string) (w : world) : bytes :=
  window (entropy w) (cursor w + real_draws l2) CEK_SIZE.

(** The real record that [init_new] writes. *)
Definition real_store_of (l1 : string) (l2 : option string) (w : world) : json :=
  let e := entropy w in
  let p := cursor w in
  JDict (real_fields l2
           (wrapped_at e (p + (CEK_SIZE + NONCE_SIZE)) (real_cek w) l1)
           (if truthy_opt l2
            then wrapped_at e (p + (CEK_SIZE + NONCE_SIZE + (SALT_SIZE + NONCE_SIZE)))
                   (real_cek w) (as_str l2)
            else JNull)
           (blob_at e (p + CEK_SIZE) (real_cek w) empty_body)).

(** The decoy record that [init_new] writes. *)
Definition decoy_store_of (l2 : option string) (decoy : string) (w : world) : json :=
  let e := entropy w in
  let p := cursor w + real_draws l2 in
  JDict (decoy_fields
           (wrapped_at e (p + (CEK_SIZE + NONCE_SIZE)) (decoy_cek l2 w) decoy)
           (blob_at e (p + CEK_SIZE) (decoy_cek l2 w) decoy_body)).

(** The world that [init_new] leaves. *)
Definition initialized (l1 : string) (l2 : option string) (decoy : string)
    (w : world) : world :=
  World (entropy w)
        (cursor w + (real_draws l2 + (CEK_SIZE + NONCE_SIZE + (SALT_SIZE + NONCE_SIZE))))
        (<[DECOY_FILENAME := decoy_store_of l2 decoy w]>
         (<[REAL_FILENAME := real_store_of l1 l2 w]>
          (<[META_FILENAME := meta_of l2]> (files w)))).

(** Brings sums of draw sizes to a common form. *)
Ltac draws :=
  unfold CEK_SIZE, NONCE_SIZE, SALT_SIZE;
  rewrite <- ?Nat.add_assoc; cbn [Nat.add].

(** [init_new] always succeeds. *)
Lemma init_new_run l1 l2 decoy w :
  init_new l1 l2 decoy w = (Ok (), initialized l1 l2 decoy w).
Proof.
  unfold init_new, initialized, real_store_of, decoy_store_of, decoy_cek, real_cek,
    real_draws, real_fields, decoy_fields, meta_of, empty_body, decoy_body, decoy_items,
    _encode_bytes.
  fold (_b64encode decoy_welcome). rewrite b64encode_run.
  destruct (truthy_opt l2); step;
    (erewrite bind_Ok by apply create_cek_run); cbv beta;
    (erewrite bind_Ok by (apply seal_at, window_length)); cbv beta;
    (erewrite bind_Ok by apply wrap_at); cbv beta;
    [erewrite bind_Ok by apply wrap_at; cbv beta | step];
    step;
    (erewrite bind_Ok by apply create_cek_run); cbv beta;
    step;
    (erewrite bind_Ok by (apply seal_at, window_length)); cbv beta;
    (erewrite bind_Ok by apply wrap_at); cbv beta;
    rewrite write_json_run; unfold with_file, advance; cbn [entropy cursor files];
    by draws.
Qed.

(** *** Which exceptions the lower layers raise *)

Lemma bind_Raise_inv {A B} (r : result A) (f : A → result B) e :
  r ≫= f = Raise e → r = Raise e ∨ ∃ a, r = Ok a ∧ f a = Raise e.
Proof. destruct r; intros Hr; [right; eauto | left; by injection Hr as ->]. Qed.

(** Takes apart a failing chain of binds. *)
Ltac raised H :=
  repeat match type of H with
         | _ ≫= _ = Raise _ =>
             apply bind_Raise_inv in H as [H|(? & _ & H)]
         end.

Lemma getitem_raises j k e : getitem j k = Raise e → is_opaque e = false.
Proof. destruct j; cbn; try by intros [= <-]. by destruct (_ !! _); intros [= <-]. Qed.

Lemma dict_get_raises j k d e : dict_get j k d = Raise e → is_opaque e = false.
Proof. destruct j; cbn; by intros [= <-]. Qed.

Lemma setitem_raises j k v e : setitem j k v = Raise e → is_opaque e = false.
Proof. destruct j; cbn; by intros [= <-]. Qed.

Lemma or_raise_raises {A} e0 (o : option A) e :
  is_opaque e0 = false → or_raise e0 o = Raise e → is_opaque e = false.
Proof. destruct o; cbn; [done|]. by intros ? [= <-]. Qed.

Lemma b64decode_raises s e : _b64decode s = Raise e → is_opaque e = false.
Proof.
  destruct s; cbn; try by intros [= <-].
  unfold str_encode_ascii. destruct (forallb _ _); binds; [|by intros [= <-]].
  by apply or_raise_raises.
Qed.

Lemma AESGCM_raises k e : AESGCM k = Raise e → is_opaque e = false.
Proof. unfold AESGCM. case_bool_decide; by intros [= <-]. Qed.

Lemma check_nonce_raises n e : check_nonce n = Raise e → is_opaque e = false.
Proof. unfold check_nonce. case_bool_decide; by intros [= <-]. Qed.

Lemma aesgcm_decrypt_raises k n c a e :
  aesgcm_decrypt k n c a = Raise e → is_opaque e = false.
Proof.
  unfold aesgcm_decrypt. intros He. raised He.
  - eauto using AESGCM_raises.
  - eauto using check_nonce_raises.
  - eapply or_raise_raises; [|exact He]; done.
Qed.

(** Every failure of [unwrap_cek_with_password] is a library or lookup
    exception, none of the vault's own error kinds. *)
Lemma unwrap_raises wrapped password e :
  unwrap_cek_with_password wrapped password = Raise e → is_opaque e = false.
Proof.
  unfold unwrap_cek_with_password. intros He. raised He;
    eauto using getitem_raises, b64decode_raises, aesgcm_decrypt_raises.
Qed.

Lemma unwrap_field_raises store field password e :
  unwrap_field store field password = Raise e → is_opaque e = false.
Proof.
  unfold unwrap_field. intros He. raised He; eauto using getitem_raises, unwrap_raises.
Qed.

Lemma decrypt_vault_blob_raises cek blob e :
  decrypt_vault_blob cek blob = Raise e → is_opaque e = false.
Proof.
  rewrite decrypt_vault_blob_eq. intros He. raised He;
    eauto using getitem_raises, b64decode_raises, aesgcm_decrypt_raises.
Qed.

Lemma open_items_raises cek store e :
  open_items cek store = Raise e → is_opaque e = false.
Proof.
  unfold open_items. intros He. raised He;
    eauto using getitem_raises, decrypt_vault_blob_raises;
    (eapply or_raise_raises; [|exact He]; done).
Qed.

(** *** The key-recovery path *)

Lemma as_str_Some p : as_str (Some p) = p.
Proof. done. Qed.

Lemma truthy_opt_Some p : p ≠ EmptyString → truthy_opt (Some p) = true.
Proof. intros Hp. cbn. by apply negb_true_iff, String.eqb_neq. Qed.

(** Rewrites the policy lookups of [recover_cek] with what [Hreq] says. *)
Ltac policy Hreq :=
  let Hp := fresh "Hpolicy" in
  let Hr := fresh "Hrequires" in
  let Ht := fresh "Htruthy" in
  destruct (requires_l2_of_inv _ _ Hreq) as (? & ? & Hp & Hr & Ht);
  unfold recover_cek; rewrite Hp; binds; rewrite Hr; binds.

Lemma recover_cek_l1_fails store b l1 l2 e :
  requires_l2_of store = Ok b →
  unwrap_field store "wrapped_l1" l1 = Raise e →
  recover_cek true store l1 l2 = Raise AuthenticationFailed ∧
  recover_cek false store l1 l2 = Raise e.
Proof.
  intros Hreq He. split; policy Hreq; unfold guarded; by rewrite He.
Qed.

Lemma recover_cek_second_factor quiet store l1 l2 cek :
  requires_l2_of store = Ok true →
  unwrap_field store "wrapped_l1" l1 = Ok cek →
  truthy_opt l2 = false →
  recover_cek quiet store l1 l2 = Raise SecondFactorRequired.
Proof.
  intros Hreq Hcek Hl2. policy Hreq.
  assert (guarded quiet (unwrap_field store "wrapped_l1" l1) = Ok cek) as ->.
  { unfold guarded. rewrite Hcek. by destruct quiet. }
  binds. by rewrite Htruthy, Hl2.
Qed.

Lemma recover_cek_mismatch quiet store l1 l2 cek_a cek_b :
  requires_l2_of store = Ok true →
  l2 ≠ EmptyString →
  unwrap_field store "wrapped_l1" l1 = Ok cek_a →
  unwrap_field store "wrapped_l2" l2 = Ok cek_b →
  cek_a ≠ cek_b →
  recover_cek quiet store l1 (Some l2) = Raise AuthenticationFailed.
Proof.
  intros Hreq Hl2 Ha Hb Hne. policy Hreq.
  assert (guarded quiet (unwrap_field store "wrapped_l1" l1) = Ok cek_a) as ->.
  { unfold guarded. rewrite Ha. by destruct quiet. }
  binds. rewrite Htruthy, truthy_opt_Some, as_str_Some by done. cbn [negb].
  assert (guarded quiet (unwrap_field store "wrapped_l2" l2) = Ok cek_b) as ->.
  { unfold guarded. rewrite Hb. by destruct quiet. }
  binds. by rewrite bool_decide_eq_true_2.
Qed.

Lemma recover_cek_match quiet store l1 l2 cek :
  requires_l2_of store = Ok true →
  l2 ≠ EmptyString →
  unwrap_field store "wrapped_l1" l1 = Ok cek →
  unwrap_field store "wrapped_l2" l2 = Ok cek →
  recover_cek quiet store l1 (Some l2) = Ok cek.
Proof.
  intros Hreq Hl2 Ha Hb. policy Hreq.
  unfold guarded. rewrite Ha. destruct quiet; rewrite ?try_except_Ok; binds;
    rewrite Htruthy, truthy_opt_Some, as_str_Some by done; cbn [negb];
    rewrite Hb, ?try_except_Ok; binds; by rewrite bool_decide_eq_false_2 by naive_solver.
Qed.

(** Without the policy flag the L2 argument is not looked at. *)
Lemma recover_cek_single quiet store l1 l2 :
  requires_l2_of store = Ok false →
  recover_cek quiet store l1 l2 = guarded quiet (unwrap_field store "wrapped_l1" l1).
Proof.
  intros Hreq. policy Hreq.
  destruct (guarded quiet (unwrap_field store "wrapped_l1" l1)) as [cek|]; [binds|done].
  by rewrite Htruthy.
Qed.

End VaultFacts.

(** ** What the initialised vault answers *)

(** The world [w'] is a later point of the run that was at [w]: the tape is
    the same and the cursor has not moved back. *)
Definition later (w w' : world) : Prop :=
  entropy w' = entropy w ∧ (cursor w ≤ cursor w')%nat.


(** The L2 record of a real record is present: the key is there and its value
    is not [null]. *)
Definition wrapped_l2_present (store : json) : bool :=
  match getitem store "wrapped_l2" with
  | Ok JNull => false
  | Ok _ => true
  | Raise _ => false
  end.

(** The invariant of the persisted real record. *)
Definition record_invariant (store : json) : Prop :=
  requires_l2_of store = Ok (wrapped_l2_present store).



Section InitFacts.
Context {L : Library}.

Lemma real_store_lookup l1 l2 decoy w :
  files (initialized l1 l2 decoy w) !! REAL_FILENAME = Some (real_store_of l1 l2 w).
Proof.
  unfold initialized. cbn [files]. rewrite lookup_insert_ne by done.
  apply lookup_insert_eq.
Qed.

Lemma decoy_store_lookup l1 l2 decoy w :
  files (initialized l1 l2 decoy w) !! DECOY_FILENAME = Some (decoy_store_of l2 decoy w).
Proof. unfold initialized. cbn [files]. apply lookup_insert_eq. Qed.

Lemma real_store_requires_l2 l1 l2 w :
  requires_l2_of (real_store_of l1 l2 w) = Ok (truthy_opt l2).
Proof.
  unfold requires_l2_of, real_store_of, real_fields, dict_get. cbn zeta.
  lookups. cbn [default]. binds. lookups. by cbn [default].
Qed.

Lemma real_store_unwrap_l1 l1 l2 w :
  unwrap_field (real_store_of l1 l2 w) "wrapped_l1" l1 = Ok (real_cek w).
Proof.
  unfold unwrap_field, real_store_of, real_fields, getitem. cbn zeta.
  lookups. binds. apply unwrap_wrapped_at.
Qed.

Lemma real_store_unwrap_l2 l1 l2 w :
  truthy_opt l2 = true →
  unwrap_field (real_store_of l1 l2 w) "wrapped_l2" (as_str l2) = Ok (real_cek w).
Proof.
  intros Hl2. unfold unwrap_field, real_store_of, real_fields, getitem. cbn zeta.
  lookups. binds. rewrite Hl2. apply unwrap_wrapped_at.
Qed.

Lemma decoy_store_unwrap l2 decoy w :
  unwrap_field (decoy_store_of l2 decoy w) "wrapped" decoy = Ok (decoy_cek l2 w).
Proof.
  unfold unwrap_field, decoy_store_of, decoy_fields, getitem. cbn zeta.
  lookups. binds. apply unwrap_wrapped_at.
Qed.



Lemma open_body cek e p (l : json) :
  length cek = CEK_SIZE →
  (body_bytes ← decrypt_vault_blob cek (blob_at e p cek (str_encode_utf8 (json_dumps l)));
   text ← or_raise UnicodeError (bytes_decode_utf8 body_bytes);
   or_raise JSONDecodeError (json_loads text)) = Ok l.
Proof.
  intros Hk. rewrite open_blob_at by done. binds.
  rewrite utf8_decode_encode. cbn [or_raise]. binds.
  by rewrite json_loads_dumps.
Qed.

Lemma real_store_open l1 l2 w :
  open_items (real_cek w) (real_store_of l1 l2 w) = Ok (JList []).
Proof.
  unfold open_items, real_store_of, real_fields, getitem. cbn zeta.
  lookups. binds. apply open_body, window_length.
Qed.

Lemma decoy_store_open l2 decoy w :
  open_items (decoy_cek l2 w) (decoy_store_of l2 decoy w) = Ok decoy_items.
Proof.
  unfold open_items, decoy_store_of, decoy_fields, getitem. cbn zeta.
  lookups. binds. apply open_body, window_length.
Qed.

(** Failures that [save_real_items], [save_decoy_items] and the blob
    opening of the unlock functions let through as they are. *)
Lemma save_real_items_unwrap_error w store b l1 l2 items e :
  files w !! REAL_FILENAME = Some store →
  requires_l2_of store = Ok b →
  unwrap_field store "wrapped_l1" l1 = Raise e →
  save_real_items l1 l2 items w = (Raise e, w) ∧ is_opaque e = false.
Proof.
  intros Hfile Hreq He. split; [|by eapply unwrap_field_raises].
  rewrite (save_real_items_eq _ _ _ _ _ Hfile).
  by destruct (recover_cek_l1_fails store b l1 l2 e Hreq He) as [_ ->].
Qed.

Lemma save_decoy_items_unwrap_error w store password items e :
  files w !! DECOY_FILENAME = Some store →
  unwrap_field store "wrapped" password = Raise e →
  save_decoy_items password items w = (Raise e, w) ∧ is_opaque e = false.
Proof.
  intros Hfile He. split; [|by eapply unwrap_field_raises].
  by rewrite (save_decoy_items_eq _ _ _ _ Hfile), He.
Qed.

Lemma unlock_real_open_error w store l1 l2 cek e :
  files w !! REAL_FILENAME = Some store →
  recover_cek true store l1 l2 = Ok cek →
  open_items cek store = Raise e →
  unlock_real l1 l2 w = (Raise e, w) ∧ is_opaque e = false.
Proof.
  intros Hfile Hcek He. split; [|by eapply open_items_raises].
  rewrite (unlock_real_eq _ _ _ _ Hfile), Hcek. binds. by rewrite He.
Qed.

Lemma unlock_decoy_open_error w store password cek e :
  files w !! DECOY_FILENAME = Some store →
  unwrap_field store "wrapped" password = Ok cek →
  open_items cek store = Raise e →
  unlock_decoy password w = (Raise e, w) ∧ is_opaque e = false.
Proof.
  intros Hfile Hcek He. split; [|by eapply open_items_raises].
  rewrite (unlock_decoy_eq _ _ _ Hfile), Hcek, try_except_Ok. binds. by rewrite He.
Qed.

(** *** No call moves the cursor back *)

Lemma read_json_missing path w :
  files w !! path = None → _read_json path w = (Raise FileNotFoundError, w).
Proof. intros Hf. unfold _read_json, read_json. by rewrite Hf. Qed.

Lemma later_refl w : later w w.
Proof. by split. Qed.

Lemma later_advance w n : later w (advance w n).
Proof. split; cbn; [done|lia]. Qed.

Lemma later_with_file w n path j : later w (with_file (advance w n) path j).
Proof. split; cbn; [done|lia]. Qed.

Lemma init_new_later l1 l2 decoy w r w' :
  init_new l1 l2 decoy w = (r, w') → later w w'.
Proof. rewrite init_new_run. intros [= _ <-]. split; cbn; [done|lia]. Qed.

Lemma unlock_real_later l1 l2 w r w' :
  unlock_real l1 l2 w = (r, w') → later w w'.
Proof.
  destruct (files w !! REAL_FILENAME) as [store|] eqn:Hfile.
  - rewrite (unlock_real_eq _ _ _ _ Hfile). intros [= _ <-]. apply later_refl.
  - unfold unlock_real. rewrite (bind_Raise _ _ _ _ _ (read_json_missing _ _ Hfile)).
    intros [= _ <-]. apply later_refl.
Qed.

Lemma unlock_decoy_later password w r w' :
  unlock_decoy password w = (r, w') → later w w'.
Proof.
  destruct (files w !! DECOY_FILENAME) as [store|] eqn:Hfile.
  - rewrite (unlock_decoy_eq _ _ _ Hfile). intros [= _ <-]. apply later_refl.
  - unfold unlock_decoy. rewrite (bind_Raise _ _ _ _ _ (read_json_missing _ _ Hfile)).
    intros [= _ <-]. apply later_refl.
Qed.

Lemma save_real_items_later l1 l2 items w r w' :
  save_real_items l1 l2 items w = (r, w') → later w w'.
Proof.
  destruct (files w !! REAL_FILENAME) as [store|] eqn:Hfile.
  - rewrite (save_real_items_eq _ _ _ _ _ Hfile).
    destruct (recover_cek _ _ _ _); [|intros [= _ <-]; apply later_refl].
    destruct (AESGCM _); [|intros [= _ <-]; apply later_refl].
    destruct (setitem _ _ _); intros [= _ <-];
      [apply later_with_file|apply later_advance].
  - unfold save_real_items. rewrite (bind_Raise _ _ _ _ _ (read_json_missing _ _ Hfile)).
    intros [= _ <-]. apply later_refl.
Qed.

Lemma save_decoy_items_later password items w r w' :
  save_decoy_items password items w = (r, w') → later w w'.
Proof.
  destruct (files w !! DECOY_FILENAME) as [store|] eqn:Hfile.
  - rewrite (save_decoy_items_eq _ _ _ _ Hfile).
    destruct (unwrap_field _ _ _); [|intros [= _ <-]; apply later_refl].
    destruct (AESGCM _); [|intros [= _ <-]; apply later_refl].
    destruct (setitem _ _ _); intros [= _ <-];
      [apply later_with_file|apply later_advance].
  - unfold save_decoy_items. rewrite (bind_Raise _ _ _ _ _ (read_json_missing _ _ Hfile)).
    intros [= _ <-]. apply later_refl.
Qed.

End InitFacts.

(** ** Concrete vaults, run with the executable library *)

Module Scenario.
Import Model.

(** A vault initialised with L1 ["alpha"], no L2 and decoy ["beta"]. *)
Definition single : world := initialized "alpha" None "beta" fresh_world.

Definition single_store : json := real_store_of "alpha" None fresh_world.

(** A vault initialised with L1 ["a1"], L2 ["a2"] and decoy ["beta"]. *)
Definition two_level : world := initialized "a1" (Some "a2") "beta" fresh_world.

Definition two_level_store : json := real_store_of "a1" (Some "a2") fresh_world.

(** The content key of both vaults: the first 32 bytes of the tape. *)
Definition cek : bytes := real_cek fresh_world.

(** Some other 32-byte key, wrapped under the L2 password ["a2"]. *)
Definition other_cek : bytes := window tape 200 CEK_SIZE.

Definition substituted_l2 : json := wrapped_at tape 300 other_cek "a2".

(** The real record of [two_level] with its L2 record substituted. *)
Definition substituted_store : json :=
  match two_level_store with
  | JDict d => JDict (<["wrapped_l2" := substituted_l2]> d)
  | j => j
  end.

Definition substituted : world := with_file two_level REAL_FILENAME substituted_store.

(** A blob sealed by [create_vault_blob] whose [aad] field was overwritten. *)
Definition sealed_payload : bytes := list_byte_of_string "[]".

Definition sealed_blob : json := blob_at tape 0 other_cek sealed_payload.

Definition foreign_blob : json :=
  match sealed_blob with
  | JDict d => JDict (<["aad" := JStr "some-other-protocol"]> d)
  | j => j
  end.

(** [single] after a note has been saved with the L1 password. *)
Definition note : json := JList [item "note.txt" "note" "aGVsbG8="].

Definition saved : world := (save_real_items "alpha" None note single).2.

(** [single] with the blob of its real record replaced by a blob sealed
    under another key. *)
Definition tampered_store : json :=
  match single_store with
  | JDict d => JDict (<["blob" := sealed_blob]> d)
  | j => j
  end.

Definition tampered : world := with_file single REAL_FILENAME tampered_store.

(** The two-level scenario: no L2 gives "second factor required", a wrong
    L2 gives "unable to unlock", the right one opens the empty vault, and
    what was saved is what the next unlock returns. *)
Example two_level_scenario :
  (unlock_real "a1" None two_level).1 = Raise SecondFactorRequired ∧
  (unlock_real "a1" (Some "wrong") two_level).1 = Raise AuthenticationFailed ∧
  (unlock_real "a1" (Some "a2") two_level).1 = Ok (JList []) ∧
  (unlock_real "a1" (Some "a2") (save_real_items "a1" (Some "a2") note two_level).2).1
    = Ok note.
Proof. repeat split; vm_compute; reflexivity. Qed.

(** [init_new] consumes 144 bytes of entropy without L2 and 172 with. *)
Example entropy_consumed : cursor single = 144 ∧ cursor two_level = 172.
Proof. split; vm_compute; reflexivity. Qed.



End Scenario.

(** ** The properties of the specification *)

(** C1. On a real record whose policy requires L2, if the L1 password unwraps
    [wrapped_l1] to one key and the L2 password unwraps [wrapped_l2] to a
    different key, [unlock_real] fails with the opaque "unable to unlock
    vault" error, the one a wrong password gets.  The blob is not opened:
    the outcome is the same whatever blob the record carries. *)
Theorem unlock_real_key_mismatch {L : Library} w store l1 l2 cek_a cek_b :
  files w !! REAL_FILENAME = Some store →
  requires_l2_of store = Ok true →
  l2 ≠ EmptyString →
  unwrap_field store "wrapped_l1" l1 = Ok cek_a →
  unwrap_field store "wrapped_l2" l2 = Ok cek_b →
  cek_a ≠ cek_b →
  unlock_real l1 (Some l2) w = (Raise AuthenticationFailed, w) ∧
  ∀ blob, ∃ store',
    setitem store "blob" blob = Ok store' ∧
    let w' := with_file w REAL_FILENAME store' in
    unlock_real l1 (Some l2) w' = (Raise AuthenticationFailed, w').
Proof.
  intros Hfile Hreq Hl2 Ha Hb Hne. split.
  - rewrite (unlock_real_eq _ _ _ _ Hfile).
    by rewrite (recover_cek_mismatch true store l1 l2 cek_a cek_b).
  - intros blob.
    destruct store as [| | | | | |d]; try done.
    exists (JDict (<["blob" := blob]> d)). split; [done|]. cbn zeta.
    erewrite unlock_real_eq; last by apply lookup_insert_eq.
    rewrite (recover_cek_mismatch true _ l1 l2 cek_a cek_b); try done;
      unfold requires_l2_of, unwrap_field, getitem, dict_get in *;
      by rewrite lookup_insert_ne.
Qed.

Lemma unlock_real_key_mismatch_witness :
  unlock_real (L:=Model.library) "a1" (Some "a2") Scenario.substituted
  = (Raise AuthenticationFailed, Scenario.substituted).
Proof.
  refine (proj1 (unlock_real_key_mismatch Scenario.substituted
                   Scenario.substituted_store "a1" "a2"
                   Scenario.cek Scenario.other_cek _ _ _ _ _ _)).
  - vm_compute. reflexivity.
  - vm_compute. reflexivity.
  - discriminate.
  - vm_compute. reflexivity.
  - vm_compute. reflexivity.
  - vm_compute. discriminate.
Defined.

(** C5. On a real record whose policy requires L2: when the L1 password does
    not unwrap [wrapped_l1], [unlock_real] fails with the opaque
    [AuthenticationFailed], whatever the L2 argument is (absent included, so
    L1 is tried before L2 is asked for); when L1 unwraps and no L2
    password is supplied, it fails with [SecondFactorRequired], a different
    error. *)
Theorem unlock_real_l1_before_l2 {L : Library} w store l1 :
  files w !! REAL_FILENAME = Some store →
  requires_l2_of store = Ok true →
  (∀ e l2, unwrap_field store "wrapped_l1" l1 = Raise e →
     unlock_real l1 l2 w = (Raise AuthenticationFailed, w)) ∧
  (∀ cek l2, unwrap_field store "wrapped_l1" l1 = Ok cek →
     truthy_opt l2 = false →
     unlock_real l1 l2 w = (Raise SecondFactorRequired, w)) ∧
  AuthenticationFailed ≠ SecondFactorRequired.
Proof.
  intros Hfile Hreq. repeat split.
  - intros e l2 He. rewrite (unlock_real_eq _ _ _ _ Hfile).
    by destruct (recover_cek_l1_fails store true l1 l2 e Hreq He) as [-> _].
  - intros cek l2 Hcek Hl2. rewrite (unlock_real_eq _ _ _ _ Hfile).
    by rewrite (recover_cek_second_factor true store l1 l2 cek).
  - discriminate.
Qed.

Lemma unlock_real_l1_before_l2_witness :
  unlock_real (L:=Model.library) "wrong" None Scenario.two_level
    = (Raise AuthenticationFailed, Scenario.two_level) ∧
  unlock_real (L:=Model.library) "a1" None Scenario.two_level
    = (Raise SecondFactorRequired, Scenario.two_level).
Proof.
  assert (files Scenario.two_level !! REAL_FILENAME = Some Scenario.two_level_store)
    as Hfile by (vm_compute; reflexivity).
  assert (requires_l2_of Scenario.two_level_store = Ok true)
    as Hreq by (vm_compute; reflexivity).
  split.
  - refine (proj1 (unlock_real_l1_before_l2 _ _ "wrong" Hfile Hreq) InvalidTag None _).
    vm_compute. reflexivity.
  - refine (proj1 (proj2 (unlock_real_l1_before_l2 _ _ "a1" Hfile Hreq))
              Scenario.cek None _ _).
    + vm_compute. reflexivity.
    + reflexivity.
Defined.

(** C10. On a real record whose policy does not require L2, [unlock_real] and
    [save_real_items] do not look at the L2 argument: the outcome is the
    same for any two L2 arguments, it is never [SecondFactorRequired], and
    with an L1 password that unwraps [wrapped_l1] the call goes on to the
    blob with that key. *)
Theorem l2_ignored_without_policy {L : Library} w store l1 :
  files w !! REAL_FILENAME = Some store →
  requires_l2_of store = Ok false →
  (∀ l2 l2', unlock_real l1 l2 w = unlock_real l1 l2' w) ∧
  (∀ l2 l2' items, save_real_items l1 l2 items w = save_real_items l1 l2' items w) ∧
  (∀ l2, (unlock_real l1 l2 w).1 ≠ Raise SecondFactorRequired) ∧
  (∀ l2 items, (save_real_items l1 l2 items w).1 ≠ Raise SecondFactorRequired) ∧
  (∀ cek l2, unwrap_field store "wrapped_l1" l1 = Ok cek →
     unlock_real l1 l2 w = (open_items cek store, w)).
Proof.
  intros Hfile Hreq.
  assert (∀ l2, unlock_real l1 l2 w =
                (guarded true (unwrap_field store "wrapped_l1" l1)
                   ≫= λ cek, open_items cek store, w)) as Hunlock.
  { intros l2. rewrite (unlock_real_eq _ _ _ _ Hfile).
    by rewrite (recover_cek_single true store l1 l2 Hreq). }
  assert (∀ l2 items, save_real_items l1 l2 items w =
                      save_real_items l1 None items w) as Hsave.
  { intros l2 items. rewrite !(save_real_items_eq _ _ _ _ _ Hfile).
    by rewrite !(recover_cek_single false store l1 _ Hreq). }
  repeat split.
  - intros l2 l2'. by rewrite !Hunlock.
  - intros l2 l2' items. by rewrite (Hsave l2), (Hsave l2').
  - intros l2. rewrite Hunlock. cbn [fst guarded].
    destruct (unwrap_field store "wrapped_l1" l1) as [cek|e]; [|done].
    rewrite try_except_Ok. binds. intros He.
    by apply open_items_raises in He.
  - intros l2 items. rewrite (save_real_items_eq _ _ _ _ _ Hfile).
    rewrite (recover_cek_single false store l1 _ Hreq). cbn [guarded].
    destruct (unwrap_field store "wrapped_l1" l1) as [cek|e] eqn:Hcek.
    + destruct (AESGCM cek) as [aes|e] eqn:Hk.
      * destruct (setitem store "blob" _) as [store'|e] eqn:Hset; [done|].
        cbn [fst]. intros [= ->]. by apply setitem_raises in Hset.
      * cbn [fst]. intros [= ->]. by apply AESGCM_raises in Hk.
    + cbn [fst]. intros [= ->]. by apply unwrap_field_raises in Hcek.
  - intros cek l2 Hcek. rewrite Hunlock. cbn [guarded].
    by rewrite Hcek, try_except_Ok.
Qed.

Lemma l2_ignored_without_policy_witness :
  unlock_real (L:=Model.library) "alpha" (Some "garbage") Scenario.single
    = unlock_real (L:=Model.library) "alpha" None Scenario.single ∧
  unlock_real (L:=Model.library) "alpha" (Some "garbage") Scenario.single
    = (Ok (JList []), Scenario.single).
Proof.
  assert (files Scenario.single !! REAL_FILENAME = Some Scenario.single_store)
    as Hfile by (vm_compute; reflexivity).
  assert (requires_l2_of Scenario.single_store = Ok false)
    as Hreq by (vm_compute; reflexivity).
  pose proof (l2_ignored_without_policy (L:=Model.library) _ _ "alpha" Hfile Hreq)
    as (Hu & _ & _ & _ & Ho).
  split.
  - apply Hu.
  - rewrite (Ho Scenario.cek (Some "garbage"));
      vm_compute; reflexivity.
Defined.

(** C6. Round trip.  A key wrapped under a password unwraps, under the same
    password, to the same key; a blob sealed under a key opens, under the
    same key, to the sealed payload; and the whole pipeline on a freshly
    generated key, [open(unwrap(wrap(generateCEK(), P), P), seal(cek, B))],
    succeeds and returns [B]. *)
Theorem round_trip {L : Library} (P : string) (B : bytes) (w : world) :
  (∀ cek, ∃ wrapped w',
     wrap_cek_with_password cek P w = (Ok wrapped, w') ∧
     unwrap_cek_with_password wrapped P = Ok cek) ∧
  (∀ cek blob w',
     create_vault_blob cek B w = (Ok blob, w') →
     decrypt_vault_blob cek blob = Ok B) ∧
  (∃ cek w1 wrapped w2 blob w3,
     create_cek w = (Ok cek, w1) ∧
     wrap_cek_with_password cek P w1 = (Ok wrapped, w2) ∧
     create_vault_blob cek B w2 = (Ok blob, w3) ∧
     unwrap_cek_with_password wrapped P = Ok cek ∧
     decrypt_vault_blob cek blob = Ok B ∧
     (unwrap_cek_with_password wrapped P ≫= λ cek', decrypt_vault_blob cek' blob) = Ok B).
Proof.
  repeat split.
  - intros cek. destruct (wrap_run cek P w) as [Hwrap Hunwrap]. eauto.
  - intros cek blob w' Hseal. by destruct (seal_inv _ _ _ _ _ Hseal) as (_ & _ & ?).
  - set (cek := window (entropy w) (cursor w) CEK_SIZE).
    assert (length cek = CEK_SIZE) as Hk by apply window_length.
    destruct (wrap_run cek P (advance w CEK_SIZE)) as [Hwrap Hunwrap].
    destruct (seal_run cek B (advance (advance w CEK_SIZE) (SALT_SIZE + NONCE_SIZE)) Hk)
      as [Hseal Hopen].
    eexists cek, _, _, _, _, _.
    split; [apply create_cek_run|]. split; [exact Hwrap|]. split; [exact Hseal|].
    split; [exact Hunwrap|]. split; [exact Hopen|].
    by rewrite Hunwrap.
Qed.

Lemma round_trip_witness :
  decrypt_vault_blob (L:=Model.library) Scenario.other_cek Scenario.sealed_blob
  = Ok Scenario.sealed_payload.
Proof.
  refine (proj1 (proj2 (round_trip "alpha" Scenario.sealed_payload Model.fresh_world))
            Scenario.other_cek Scenario.sealed_blob (advance Model.fresh_world NONCE_SIZE) _).
  vm_compute. reflexivity.
Defined.

(** C3, as the specification states it, fails: a blob whose stored [aad]
    field is not the protocol tag is decrypted all the same, and returns
    its payload. *)
Lemma stored_aad_not_verified :
  getitem Scenario.foreign_blob "aad" = Ok (JStr "some-other-protocol") ∧
  JStr "some-other-protocol" ≠ JStr (b64text (L:=Model.library) AAD_HEADER) ∧
  decrypt_vault_blob (L:=Model.library) Scenario.other_cek Scenario.foreign_blob
  = Ok Scenario.sealed_payload.
Proof.
  split; [vm_compute; reflexivity|]. split; [vm_compute; discriminate|].
  vm_compute. reflexivity.
Qed.

(** C3, amended.  Opening a blob does not read the stored [aad] field: it
    decodes [file_nonce] and [file_ct] and decrypts with the fixed 9-byte
    protocol tag as associated data.  Hence the outcome is the same
    whatever the [aad] field holds, or without one, and a blob sealed by
    [create_vault_blob] still opens to its payload after its [aad] field has
    been overwritten. *)
Theorem decrypt_vault_blob_ignores_aad {L : Library} cek (d : gmap string json) v :
  decrypt_vault_blob cek (JDict d) =
    (file_nonce ← getitem (JDict d) "file_nonce";
     file_ct ← getitem (JDict d) "file_ct";
     nonce ← _b64decode file_nonce;
     ct ← _b64decode file_ct;
     aesgcm_decrypt cek nonce ct AAD_HEADER) ∧
  length AAD_HEADER = 9 ∧
  decrypt_vault_blob cek (JDict (<["aad" := v]> d)) = decrypt_vault_blob cek (JDict d) ∧
  decrypt_vault_blob cek (JDict (delete "aad" d)) = decrypt_vault_blob cek (JDict d) ∧
  (∀ body w w',
     create_vault_blob cek body w = (Ok (JDict d), w') →
     decrypt_vault_blob cek (JDict (<["aad" := v]> d)) = Ok body).
Proof.
  assert (decrypt_vault_blob cek (JDict (<["aad" := v]> d)) = decrypt_vault_blob cek (JDict d))
    as Hset.
  { rewrite !decrypt_vault_blob_eq. unfold getitem. by rewrite !lookup_insert_ne. }
  split; [apply decrypt_vault_blob_eq|]. split; [done|]. split; [exact Hset|]. split.
  - rewrite !decrypt_vault_blob_eq. unfold getitem. by rewrite !lookup_delete_ne.
  - intros body w w' Hseal. rewrite Hset.
    by destruct (seal_inv _ _ _ _ _ Hseal) as (_ & _ & ?).
Qed.

Lemma decrypt_vault_blob_ignores_aad_witness :
  decrypt_vault_blob (L:=Model.library) Scenario.other_cek Scenario.foreign_blob
  = Ok Scenario.sealed_payload.
Proof.
  destruct Scenario.sealed_blob as [| | | | | |d] eqn:Hblob; try (vm_compute in Hblob; discriminate).
  assert (Scenario.foreign_blob = JDict (<["aad" := JStr "some-other-protocol"]> d)) as ->.
  { unfold Scenario.foreign_blob. by rewrite Hblob. }
  refine (proj2 (proj2 (proj2 (proj2
            (decrypt_vault_blob_ignores_aad Scenario.other_cek d _))))
            Scenario.sealed_payload Model.fresh_world (advance Model.fresh_world NONCE_SIZE) _).
  rewrite <- Hblob. vm_compute. reflexivity.
Defined.





(** C8. The persisted real record has [wrapped_l2] present (not null) if and
    only if its policy has [requires_l2] true.  [init_new] always succeeds
    and writes a real record with this property; [save_real_items], whatever
    its outcome, leaves a real record with this property if it found one. *)
Theorem record_invariant_kept {L : Library} :
  (∀ l1 l2 decoy w, ∃ w' store,
     init_new l1 l2 decoy w = (Ok (), w') ∧
     files w' !! REAL_FILENAME = Some store ∧
     record_invariant store) ∧
  (∀ l1 l2 items w store r w',
     files w !! REAL_FILENAME = Some store →
     record_invariant store →
     save_real_items l1 l2 items w = (r, w') →
     ∃ store', files w' !! REAL_FILENAME = Some store' ∧ record_invariant store').
Proof.
  split.
  - intros l1 l2 decoy w.
    exists (initialized l1 l2 decoy w), (real_store_of l1 l2 w).
    split; [apply init_new_run|]. split.
    + unfold initialized. cbn [files]. rewrite lookup_insert_ne by done.
      apply lookup_insert_eq.
    + unfold record_invariant, requires_l2_of, wrapped_l2_present, real_store_of,
        real_fields, dict_get, getitem. cbn zeta. lookups. cbn [default]. binds. lookups.
      cbn [default]. binds. cbn [truthy]. by destruct (truthy_opt l2).
  - intros l1 l2 items w store r w' Hfile Hinv.
    rewrite (save_real_items_eq _ _ _ _ _ Hfile).
    destruct (recover_cek false store l1 l2) as [cek|]; [|intros [= _ <-]; eauto].
    destruct (AESGCM cek) as [aes|]; [|intros [= _ <-]; eauto].
    destruct store as [| | | | | |d]; try (intros [= _ <-]; cbn [advance files]; by eauto).
    cbn [setitem]. intros [= _ <-]. eexists. split.
    + cbn [with_file files]. apply lookup_insert_eq.
    + unfold record_invariant, requires_l2_of, wrapped_l2_present, dict_get, getitem in *.
      by rewrite !lookup_insert_ne.
Qed.

Lemma record_invariant_kept_witness :
  ∃ store', files Scenario.saved !! REAL_FILENAME = Some store' ∧ record_invariant store'.
Proof.
  refine (proj2 (record_invariant_kept (L:=Model.library)) "alpha" None Scenario.note
            Scenario.single Scenario.single_store (Ok ()) Scenario.saved _ _ _).
  - vm_compute. reflexivity.
  - vm_compute. reflexivity.
  - vm_compute. reflexivity.
Defined.



(** C2 does not hold of the code.  With the executable library, on the vault
    initialised with L1 ["alpha"] and decoy ["beta"]: [save_real_items] and
    [save_decoy_items] called with a wrong password raise the library's
    [InvalidTag], and [unlock_real] with the right password on a record whose
    blob was replaced raises [InvalidTag] too; [InvalidTag] is none of the
    opaque kinds.  [unlock_real] with the same wrong password does raise the
    opaque [AuthenticationFailed]. *)
Theorem library_exception_crosses_boundary :
  save_real_items (L:=Model.library) "wrong" None (JList []) Scenario.single
    = (Raise InvalidTag, Scenario.single) ∧
  save_decoy_items (L:=Model.library) "wrong" (JList []) Scenario.single
    = (Raise InvalidTag, Scenario.single) ∧
  unlock_real (L:=Model.library) "alpha" None Scenario.tampered
    = (Raise InvalidTag, Scenario.tampered) ∧
  is_opaque InvalidTag = false ∧
  unlock_real (L:=Model.library) "wrong" None Scenario.single
    = (Raise AuthenticationFailed, Scenario.single).
Proof.
  split; [vm_compute; reflexivity|]. split; [vm_compute; reflexivity|].
  split; [vm_compute; reflexivity|]. split; vm_compute; reflexivity.
Qed.

(** ** Further facts about vault.py *)

Section MoreVaultFacts.
Context {L : Library}.

Lemma bind_Ok_inv {A B} (r : result A) (f : A → result B) b :
  r ≫= f = Ok b → ∃ a, r = Ok a ∧ f a = Ok b.
Proof. destruct r; intros Hr; [eauto|done]. Qed.

(** Takes apart a succeeding chain of binds. *)
Ltac succeeded H :=
  repeat match type of H with
         | _ ≫= _ = Ok _ =>
             let a := fresh "a" in
             let Ha := fresh "Ha" in
             apply bind_Ok_inv in H as (a & Ha & H)
         end.

Lemma guarded_Ok quiet {A} (r : result A) a : guarded quiet r = Ok a ↔ r = Ok a.
Proof. unfold guarded. destruct quiet, r; naive_solver. Qed.

(** The quiet and the plain key recovery succeed together, with the same key. *)
Lemma recover_cek_quiet store l1 l2 cek :
  recover_cek true store l1 l2 = Ok cek ↔ recover_cek false store l1 l2 = Ok cek.
Proof.
  unfold recover_cek.
  destruct (dict_get store "policy" _) as [policy|]; [binds|done].
  destruct (dict_get policy "requires_l2" _) as [r|]; [binds|done].
  unfold guarded.
  destruct (unwrap_field store "wrapped_l1" l1) as [k|]; [|done].
  rewrite try_except_Ok. binds.
  destruct (truthy r); [|done].
  destruct (negb (truthy_opt l2)); [done|].
  destruct (unwrap_field store "wrapped_l2" (as_str l2)) as [k2|]; [|done].
  by rewrite try_except_Ok.
Qed.

Lemma recover_cek_dict quiet store l1 l2 cek :
  recover_cek quiet store l1 l2 = Ok cek → ∃ d, store = JDict d.
Proof. unfold recover_cek. destruct store; try done. eauto. Qed.

(** The key recovery does not look at the blob. *)
Lemma recover_cek_blob quiet d blob l1 l2 :
  recover_cek quiet (JDict (<["blob" := blob]> d)) l1 l2 = recover_cek quiet (JDict d) l1 l2.
Proof.
  unfold recover_cek, unwrap_field, dict_get, getitem. by rewrite !lookup_insert_ne.
Qed.

Lemma unwrap_field_blob d blob field password :
  field ≠ "blob" →
  unwrap_field (JDict (<["blob" := blob]> d)) field password
  = unwrap_field (JDict d) field password.
Proof. intros Hf. unfold unwrap_field, getitem. by rewrite lookup_insert_ne. Qed.

Lemma open_blob_valid cek body e p :
  length cek ∈ [16; 24; 32] → decrypt_vault_blob cek (blob_at e p cek body) = Ok body.
Proof.
  intros Hk. unfold blob_at. cbn zeta. rewrite decrypt_blob_of.
  apply aesgcm_decrypt_encrypt; [done|apply window_length].
Qed.

(** A record whose blob was sealed from [items] under a valid key opens to
    [items]. *)
Lemma open_items_sealed cek aes d e p items :
  AESGCM cek = Ok aes →
  open_items cek (JDict (<["blob" := blob_at e p cek (str_encode_utf8 (json_dumps items))]> d))
  = Ok items.
Proof.
  intros Hk. apply AESGCM_inv in Hk as [_ Hk].
  unfold open_items, getitem. rewrite lookup_insert_eq. binds.
  rewrite open_blob_valid by done. binds.
  rewrite utf8_decode_encode. cbn [or_raise]. binds.
  by rewrite json_loads_dumps.
Qed.

(** Whoever opened a blob held a key that the cipher accepts. *)
Lemma open_items_key cek store items :
  open_items cek store = Ok items → ∃ aes, AESGCM cek = Ok aes.
Proof.
  unfold open_items.
  destruct (getitem store "blob") as [blob|]; [binds|done].
  destruct (decrypt_vault_blob cek blob) as [body|] eqn:Hd; [intros _|done].
  rewrite decrypt_vault_blob_eq in Hd. revert Hd.
  destruct (getitem blob "file_nonce") as [fn|]; [binds|done].
  destruct (getitem blob "file_ct") as [fc|]; [binds|done].
  destruct (_b64decode fn) as [n|]; [binds|done].
  destruct (_b64decode fc) as [c|]; [binds|done].
  unfold aesgcm_decrypt.
  destruct (AESGCM cek) as [aes|]; [eauto|done].
Qed.

(** What a successful [save_real_items] has done. *)
Lemma save_real_items_Ok l1 l2 items w store w' :
  files w !! REAL_FILENAME = Some store →
  save_real_items l1 l2 items w = (Ok (), w') →
  ∃ d cek aes,
    store = JDict d ∧
    recover_cek false store l1 l2 = Ok cek ∧
    AESGCM cek = Ok aes ∧
    w' = with_file (advance w NONCE_SIZE) REAL_FILENAME
           (JDict (<["blob" := blob_at (entropy w) (cursor w) cek
                                 (str_encode_utf8 (json_dumps items))]> d)).
Proof.
  intros Hfile. rewrite (save_real_items_eq _ _ _ _ _ Hfile).
  destruct (recover_cek false store l1 l2) as [cek|] eqn:Hcek; [|done].
  destruct (AESGCM cek) as [aes|] eqn:Hk; [|done].
  destruct (recover_cek_dict _ _ _ _ _ Hcek) as [d ->].
  cbn [setitem]. intros [= <-]. by exists d, cek, aes.
Qed.

Lemma save_decoy_items_Ok password items w store w' :
  files w !! DECOY_FILENAME = Some store →
  save_decoy_items password items w = (Ok (), w') →
  ∃ d cek aes,
    store = JDict d ∧
    unwrap_field store "wrapped" password = Ok cek ∧
    AESGCM cek = Ok aes ∧
    w' = with_file (advance w NONCE_SIZE) DECOY_FILENAME
           (JDict (<["blob" := blob_at (entropy w) (cursor w) cek
                                 (str_encode_utf8 (json_dumps items))]> d)).
Proof.
  intros Hfile. rewrite (save_decoy_items_eq _ _ _ _ Hfile).
  destruct (unwrap_field store "wrapped" password) as [cek|] eqn:Hcek; [|done].
  destruct (AESGCM cek) as [aes|] eqn:Hk; [|done].
  destruct store as [| | | | | |d]; try done.
  cbn [setitem]. intros [= <-]. by exists d, cek, aes.
Qed.

Lemma save_then_unlock_real l1 l2 items w store w' :
  files w !! REAL_FILENAME = Some store →
  save_real_items l1 l2 items w = (Ok (), w') →
  unlock_real l1 l2 w' = (Ok items, w').
Proof.
  intros Hfile Hsave.
  destruct (save_real_items_Ok _ _ _ _ _ _ Hfile Hsave) as (d & cek & aes & -> & Hcek & Hk & ->).
  erewrite unlock_real_eq; last by apply lookup_insert_eq.
  rewrite recover_cek_blob. apply recover_cek_quiet in Hcek. rewrite Hcek. binds.
  by erewrite open_items_sealed.
Qed.

Lemma save_then_unlock_decoy password items w store w' :
  files w !! DECOY_FILENAME = Some store →
  save_decoy_items password items w = (Ok (), w') →
  unlock_decoy password w' = (Ok items, w').
Proof.
  intros Hfile Hsave.
  destruct (save_decoy_items_Ok _ _ _ _ _ Hfile Hsave) as (d & cek & aes & -> & Hcek & Hk & ->).
  erewrite unlock_decoy_eq; last by apply lookup_insert_eq.
  rewrite unwrap_field_blob by done. rewrite Hcek, try_except_Ok. binds.
  by erewrite open_items_sealed.
Qed.

(** What a successful [unlock_real] has found. *)
Lemma unlock_real_Ok l1 l2 w items w' :
  unlock_real l1 l2 w = (Ok items, w') →
  w' = w ∧ ∃ d cek,
    files w !! REAL_FILENAME = Some (JDict d) ∧
    recover_cek true (JDict d) l1 l2 = Ok cek ∧
    open_items cek (JDict d) = Ok items.
Proof.
  destruct (files w !! REAL_FILENAME) as [store|] eqn:Hfile.
  - rewrite (unlock_real_eq _ _ _ _ Hfile). intros [= Hr <-]. split; [done|].
    succeeded Hr. destruct (recover_cek_dict _ _ _ _ _ Ha) as [d ->]. eauto.
  - unfold unlock_real. by rewrite (bind_Raise _ _ _ _ _ (read_json_missing _ _ Hfile)).
Qed.

Lemma unlock_decoy_Ok password w items w' :
  unlock_decoy password w = (Ok items, w') →
  w' = w ∧ ∃ d cek,
    files w !! DECOY_FILENAME = Some (JDict d) ∧
    unwrap_field (JDict d) "wrapped" password = Ok cek ∧
    open_items cek (JDict d) = Ok items.
Proof.
  destruct (files w !! DECOY_FILENAME) as [store|] eqn:Hfile.
  - rewrite (unlock_decoy_eq _ _ _ Hfile). intros [= Hr <-]. split; [done|].
    succeeded Hr.
    destruct (unwrap_field store "wrapped" password) as [cek|] eqn:Hcek; [|done].
    rewrite try_except_Ok in Ha. injection Ha as <-.
    destruct store as [| | | | | |d]; try done. eauto.
  - unfold unlock_decoy. by rewrite (bind_Raise _ _ _ _ _ (read_json_missing _ _ Hfile)).
Qed.

Lemma unlock_then_save_real l1 l2 old items w w1 :
  unlock_real l1 l2 w = (Ok old, w1) →
  ∃ w', save_real_items l1 l2 items w = (Ok (), w').
Proof.
  intros Hu. destruct (unlock_real_Ok _ _ _ _ _ Hu) as (_ & d & cek & Hfile & Hcek & Ho).
  rewrite (save_real_items_eq _ _ _ _ _ Hfile).
  apply recover_cek_quiet in Hcek. rewrite Hcek.
  destruct (open_items_key _ _ _ Ho) as [aes ->]. cbn [setitem]. eauto.
Qed.

Lemma unlock_then_save_decoy password old items w w1 :
  unlock_decoy password w = (Ok old, w1) →
  ∃ w', save_decoy_items password items w = (Ok (), w').
Proof.
  intros Hu. destruct (unlock_decoy_Ok _ _ _ _ Hu) as (_ & d & cek & Hfile & Hcek & Ho).
  rewrite (save_decoy_items_eq _ _ _ _ Hfile), Hcek.
  destruct (open_items_key _ _ _ Ho) as [aes ->]. cbn [setitem]. eauto.
Qed.

Lemma unlock_real_readonly l1 l2 w r w' : unlock_real l1 l2 w = (r, w') → w' = w.
Proof.
  destruct (files w !! REAL_FILENAME) as [store|] eqn:Hfile.
  - rewrite (unlock_real_eq _ _ _ _ Hfile). by intros [= _ <-].
  - unfold unlock_real. rewrite (bind_Raise _ _ _ _ _ (read_json_missing _ _ Hfile)).
    by intros [= _ <-].
Qed.

Lemma unlock_decoy_readonly password w r w' : unlock_decoy password w = (r, w') → w' = w.
Proof.
  destruct (files w !! DECOY_FILENAME) as [store|] eqn:Hfile.
  - rewrite (unlock_decoy_eq _ _ _ Hfile). by intros [= _ <-].
  - unfold unlock_decoy. rewrite (bind_Raise _ _ _ _ _ (read_json_missing _ _ Hfile)).
    by intros [= _ <-].
Qed.

Lemma save_real_items_failed l1 l2 items w e w' :
  save_real_items l1 l2 items w = (Raise e, w') → w' = w.
Proof.
  destruct (files w !! REAL_FILENAME) as [store|] eqn:Hfile.
  - rewrite (save_real_items_eq _ _ _ _ _ Hfile).
    destruct (recover_cek false store l1 l2) as [cek|] eqn:Hcek; [|by intros [= _ <-]].
    destruct (AESGCM cek) as [aes|]; [|by intros [= _ <-]].
    by destruct (recover_cek_dict _ _ _ _ _ Hcek) as [d ->].
  - unfold save_real_items. rewrite (bind_Raise _ _ _ _ _ (read_json_missing _ _ Hfile)).
    by intros [= _ <-].
Qed.

Lemma save_decoy_items_failed password items w e w' :
  save_decoy_items password items w = (Raise e, w') → w' = w.
Proof.
  destruct (files w !! DECOY_FILENAME) as [store|] eqn:Hfile.
  - rewrite (save_decoy_items_eq _ _ _ _ Hfile).
    destruct (unwrap_field store "wrapped" password) as [cek|] eqn:Hcek; [|by intros [= _ <-]].
    destruct (AESGCM cek) as [aes|]; [|by intros [= _ <-]].
    by destruct store.
  - unfold save_decoy_items. rewrite (bind_Raise _ _ _ _ _ (read_json_missing _ _ Hfile)).
    by intros [= _ <-].
Qed.

End MoreVaultFacts.

Section Isolation.
Context {L : Library}.

(** [save_real_items] writes no file but [real.zvlt], [save_decoy_items] no
    file but [decoy.zvlt], whatever the outcome. *)
Lemma save_real_items_other_files l1 l2 items w r w' path :
  save_real_items l1 l2 items w = (r, w') →
  path ≠ REAL_FILENAME → files w' !! path = files w !! path.
Proof.
  intros Hsave Hpath. destruct r as [[]|e].
  - destruct (files w !! REAL_FILENAME) as [store|] eqn:Hfile.
    + destruct (save_real_items_Ok _ _ _ _ _ _ Hfile Hsave) as (d & k & aes & _ & _ & _ & ->).
      cbn [with_file files advance]. by rewrite lookup_insert_ne.
    + unfold save_real_items in Hsave.
      by rewrite (bind_Raise _ _ _ _ _ (read_json_missing _ _ Hfile)) in Hsave.
  - by rewrite (save_real_items_failed _ _ _ _ _ _ Hsave).
Qed.

Lemma save_decoy_items_other_files password items w r w' path :
  save_decoy_items password items w = (r, w') →
  path ≠ DECOY_FILENAME → files w' !! path = files w !! path.
Proof.
  intros Hsave Hpath. destruct r as [[]|e].
  - destruct (files w !! DECOY_FILENAME) as [store|] eqn:Hfile.
    + destruct (save_decoy_items_Ok _ _ _ _ _ Hfile Hsave) as (d & k & aes & _ & _ & _ & ->).
      cbn [with_file files advance]. by rewrite lookup_insert_ne.
    + unfold save_decoy_items in Hsave.
      by rewrite (bind_Raise _ _ _ _ _ (read_json_missing _ _ Hfile)) in Hsave.
  - by rewrite (save_decoy_items_failed _ _ _ _ _ Hsave).
Qed.

(** The answer of an unlock depends on its own file only. *)
Lemma unlock_real_same_file l1 l2 w1 w2 :
  files w1 !! REAL_FILENAME = files w2 !! REAL_FILENAME →
  (unlock_real l1 l2 w1).1 = (unlock_real l1 l2 w2).1.
Proof.
  intros Hf. destruct (files w2 !! REAL_FILENAME) as [store|] eqn:Hfile.
  - by rewrite (unlock_real_eq _ _ _ _ Hf), (unlock_real_eq _ _ _ _ Hfile).
  - unfold unlock_real.
    by rewrite (bind_Raise _ _ _ _ _ (read_json_missing _ _ Hf)),
      (bind_Raise _ _ _ _ _ (read_json_missing _ _ Hfile)).
Qed.

Lemma unlock_decoy_same_file password w1 w2 :
  files w1 !! DECOY_FILENAME = files w2 !! DECOY_FILENAME →
  (unlock_decoy password w1).1 = (unlock_decoy password w2).1.
Proof.
  intros Hf. destruct (files w2 !! DECOY_FILENAME) as [store|] eqn:Hfile.
  - by rewrite (unlock_decoy_eq _ _ _ Hf), (unlock_decoy_eq _ _ _ Hfile).
  - unfold unlock_decoy.
    by rewrite (bind_Raise _ _ _ _ _ (read_json_missing _ _ Hf)),
      (bind_Raise _ _ _ _ _ (read_json_missing _ _ Hfile)).
Qed.

End Isolation.

(** More concrete vaults. *)
Module Runs.
Import Model.

(** The decoy record of [Scenario.single]. *)
Definition single_decoy_store : json := decoy_store_of None "beta" fresh_world.

(** [Scenario.single] after a note has been saved to the decoy vault. *)
Definition decoy_saved : world :=
  (save_decoy_items "beta" Scenario.note Scenario.single).2.

(** [Scenario.single] with [wrapped_l1] removed from the real record. *)
Definition no_l1_store : json :=
  match Scenario.single_store with
  | JDict d => JDict (delete "wrapped_l1" d)
  | j => j
  end.

Definition no_l1 : world := with_file Scenario.single REAL_FILENAME no_l1_store.

(** [Scenario.single] with the blob removed from the real record. *)
Definition no_blob_store : json :=
  match Scenario.single_store with
  | JDict d => JDict (delete "blob" d)
  | j => j
  end.

Definition no_blob : world := with_file Scenario.single REAL_FILENAME no_blob_store.

(** [Scenario.single] with the policy removed from the real record, and with
    a policy that is a string. *)
Definition no_policy_store : json :=
  match Scenario.single_store with
  | JDict d => JDict (delete "policy" d)
  | j => j
  end.

Definition no_policy : world := with_file Scenario.single REAL_FILENAME no_policy_store.

Definition bad_policy_store : json :=
  match Scenario.single_store with
  | JDict d => JDict (<["policy" := JStr "strict"]> d)
  | j => j
  end.

Definition bad_policy : world := with_file Scenario.single REAL_FILENAME bad_policy_store.

(** A key of five bytes. *)
Definition short_key : bytes := window tape 0 5.

End Runs.

(** ** Further properties of vault.py *)

(** X1. What [save_real_items] has saved is what the next [unlock_real] with
    the same passwords returns, and what [save_decoy_items] has saved is what
    the next [unlock_decoy] with the same password returns. *)
Theorem saved_items_are_unlocked {L : Library} w items :
  (∀ store l1 l2 w',
     files w !! REAL_FILENAME = Some store →
     save_real_items l1 l2 items w = (Ok (), w') →
     unlock_real l1 l2 w' = (Ok items, w')) ∧
  (∀ store password w',
     files w !! DECOY_FILENAME = Some store →
     save_decoy_items password items w = (Ok (), w') →
     unlock_decoy password w' = (Ok items, w')).
Proof.
  split.
  - intros store l1 l2 w'. apply save_then_unlock_real.
  - intros store password w'. apply save_then_unlock_decoy.
Qed.

Lemma saved_items_are_unlocked_witness :
  unlock_real (L:=Model.library) "alpha" None Scenario.saved
    = (Ok Scenario.note, Scenario.saved) ∧
  unlock_decoy (L:=Model.library) "beta" Runs.decoy_saved
    = (Ok Scenario.note, Runs.decoy_saved).
Proof.
  destruct (saved_items_are_unlocked (L:=Model.library) Scenario.single Scenario.note)
    as [Hreal Hdecoy].
  split.
  - apply (Hreal Scenario.single_store); vm_compute; reflexivity.
  - apply (Hdecoy Runs.single_decoy_store); vm_compute; reflexivity.
Defined.

(** X2. Whoever has unlocked a vault can save to it: after a successful
    [unlock_real], [save_real_items] with the same passwords succeeds
    whatever the new body is, and likewise for the decoy vault. *)
Theorem unlock_enables_save {L : Library} w items :
  (∀ l1 l2 old w1,
     unlock_real l1 l2 w = (Ok old, w1) →
     ∃ w', save_real_items l1 l2 items w = (Ok (), w')) ∧
  (∀ password old w1,
     unlock_decoy password w = (Ok old, w1) →
     ∃ w', save_decoy_items password items w = (Ok (), w')).
Proof.
  split.
  - intros l1 l2 old w1. apply unlock_then_save_real.
  - intros password old w1. apply unlock_then_save_decoy.
Qed.

Lemma unlock_enables_save_witness :
  (∃ w', save_real_items (L:=Model.library) "a1" (Some "a2") Scenario.note Scenario.two_level
         = (Ok (), w')) ∧
  (∃ w', save_decoy_items (L:=Model.library) "beta" Scenario.note Scenario.two_level
         = (Ok (), w')).
Proof.
  destruct (unlock_enables_save (L:=Model.library) Scenario.two_level Scenario.note)
    as [Hreal Hdecoy].
  split.
  - apply (Hreal "a1" (Some "a2") (JList []) Scenario.two_level). vm_compute. reflexivity.
  - apply (Hdecoy "beta" (decoy_items (L:=Model.library)) Scenario.two_level).
    vm_compute. reflexivity.
Defined.

(** X3. A save that fails has changed nothing: no file is written and no
    entropy is consumed. *)
Theorem failed_save_changes_nothing {L : Library} w items :
  (∀ l1 l2 e w', save_real_items l1 l2 items w = (Raise e, w') → w' = w) ∧
  (∀ password e w', save_decoy_items password items w = (Raise e, w') → w' = w).
Proof.
  split.
  - intros l1 l2 e w'. apply save_real_items_failed.
  - intros password e w'. apply save_decoy_items_failed.
Qed.

Lemma failed_save_changes_nothing_witness :
  (save_real_items (L:=Model.library) "wrong" None Scenario.note Scenario.single).2
    = Scenario.single ∧
  (save_decoy_items (L:=Model.library) "wrong" Scenario.note Scenario.single).2
    = Scenario.single.
Proof.
  destruct (failed_save_changes_nothing (L:=Model.library) Scenario.single Scenario.note)
    as [Hreal Hdecoy].
  split.
  - apply (Hreal "wrong" None InvalidTag). vm_compute. reflexivity.
  - apply (Hdecoy "wrong" InvalidTag). vm_compute. reflexivity.
Defined.

(** X4. Unlocking only reads: whatever the outcome, [unlock_real] and
    [unlock_decoy] leave the files and the entropy source as they were. *)
Theorem unlock_is_read_only {L : Library} w :
  (∀ l1 l2 r w', unlock_real l1 l2 w = (r, w') → w' = w) ∧
  (∀ password r w', unlock_decoy password w = (r, w') → w' = w).
Proof.
  split.
  - intros l1 l2 r w'. apply unlock_real_readonly.
  - intros password r w'. apply unlock_decoy_readonly.
Qed.

Lemma unlock_is_read_only_witness :
  (unlock_real (L:=Model.library) "a1" (Some "a2") Scenario.two_level).2 = Scenario.two_level ∧
  (unlock_decoy (L:=Model.library) "wrong" Scenario.two_level).2 = Scenario.two_level.
Proof.
  destruct (unlock_is_read_only (L:=Model.library) Scenario.two_level) as [Hreal Hdecoy].
  split.
  - apply (Hreal "a1" (Some "a2") (Ok (JList []))). vm_compute. reflexivity.
  - apply (Hdecoy "wrong" (Raise DecoyAuthenticationFailed)). vm_compute. reflexivity.
Defined.

Section InitialisedFacts.
Context {L : Library}.

Lemma unlock_real_missing l1 l2 w :
  files w !! REAL_FILENAME = None → unlock_real l1 l2 w = (Raise FileNotFoundError, w).
Proof.
  intros Hf. unfold unlock_real.
  by rewrite (bind_Raise _ _ _ _ _ (read_json_missing _ _ Hf)).
Qed.

Lemma save_real_items_missing l1 l2 items w :
  files w !! REAL_FILENAME = None →
  save_real_items l1 l2 items w = (Raise FileNotFoundError, w).
Proof.
  intros Hf. unfold save_real_items.
  by rewrite (bind_Raise _ _ _ _ _ (read_json_missing _ _ Hf)).
Qed.

Lemma unlock_decoy_missing password w :
  files w !! DECOY_FILENAME = None → unlock_decoy password w = (Raise FileNotFoundError, w).
Proof.
  intros Hf. unfold unlock_decoy.
  by rewrite (bind_Raise _ _ _ _ _ (read_json_missing _ _ Hf)).
Qed.

Lemma save_decoy_items_missing password items w :
  files w !! DECOY_FILENAME = None →
  save_decoy_items password items w = (Raise FileNotFoundError, w).
Proof.
  intros Hf. unfold save_decoy_items.
  by rewrite (bind_Raise _ _ _ _ _ (read_json_missing _ _ Hf)).
Qed.

(** With a readable policy, the quiet key recovery fails in two ways only. *)
Lemma recover_cek_quiet_raises store b l1 l2 e :
  requires_l2_of store = Ok b →
  recover_cek true store l1 l2 = Raise e →
  e = AuthenticationFailed ∨ e = SecondFactorRequired.
Proof.
  intros Hreq.
  destruct (requires_l2_of_inv _ _ Hreq) as (p & r & Hp & Hr & _).
  unfold recover_cek, guarded. rewrite Hp. binds. rewrite Hr. binds.
  destruct (unwrap_field store "wrapped_l1" l1) as [k|e1];
    [rewrite try_except_Ok; binds|intros [= <-]; by left].
  destruct (truthy _); [|done].
  destruct (negb (truthy_opt l2)); [intros [= <-]; by right|].
  destruct (unwrap_field store "wrapped_l2" (as_str l2)) as [k2|e2];
    [rewrite try_except_Ok; binds|intros [= <-]; by left].
  case_bool_decide; [intros [= <-]; by left|done].
Qed.

(** After [init_new] without L2 the L1 password opens the empty vault,
    whatever is supplied as L2. *)
Lemma unlock_real_initialized_single l1 l2 decoy w l2' :
  truthy_opt l2 = false →
  let w' := initialized l1 l2 decoy w in
  unlock_real l1 l2' w' = (Ok (JList []), w').
Proof.
  intros Hl2. cbn zeta.
  pose proof (real_store_requires_l2 l1 l2 w) as Hreq. rewrite Hl2 in Hreq.
  rewrite (unlock_real_eq _ _ _ _ (real_store_lookup l1 l2 decoy w)).
  rewrite (recover_cek_single true _ _ _ Hreq). cbn [guarded].
  rewrite real_store_unwrap_l1, try_except_Ok. binds. by rewrite real_store_open.
Qed.

(** After [init_new] with L2 both passwords together open the empty vault. *)
Lemma unlock_real_initialized_two l1 l2 decoy w :
  l2 ≠ EmptyString →
  let w' := initialized l1 (Some l2) decoy w in
  unlock_real l1 (Some l2) w' = (Ok (JList []), w').
Proof.
  intros Hl2. cbn zeta.
  pose proof (real_store_requires_l2 l1 (Some l2) w) as Hreq.
  rewrite truthy_opt_Some in Hreq by done.
  rewrite (unlock_real_eq _ _ _ _ (real_store_lookup l1 (Some l2) decoy w)).
  rewrite (recover_cek_match true _ l1 l2 (real_cek w)); try done.
  - binds. by rewrite real_store_open.
  - apply real_store_unwrap_l1.
  - rewrite <- (as_str_Some l2) at 2. apply real_store_unwrap_l2. by apply truthy_opt_Some.
Qed.

Lemma unlock_decoy_initialized l1 l2 decoy w :
  let w' := initialized l1 l2 decoy w in
  unlock_decoy decoy w' = (Ok decoy_items, w').
Proof.
  cbn zeta. rewrite (unlock_decoy_eq _ _ _ (decoy_store_lookup l1 l2 decoy w)).
  rewrite decoy_store_unwrap, try_except_Ok. binds. by rewrite decoy_store_open.
Qed.

End InitialisedFacts.

(** X5. In a directory that has no [real.zvlt], [unlock_real] and
    [save_real_items] raise [FileNotFoundError] and touch nothing; the same
    holds of [unlock_decoy] and [save_decoy_items] without [decoy.zvlt].
    [FileNotFoundError] is none of the opaque kinds. *)
Theorem uninitialised_directory {L : Library} w :
  (files w !! REAL_FILENAME = None →
   ∀ l1 l2 items,
     unlock_real l1 l2 w = (Raise FileNotFoundError, w) ∧
     save_real_items l1 l2 items w = (Raise FileNotFoundError, w)) ∧
  (files w !! DECOY_FILENAME = None →
   ∀ password items,
     unlock_decoy password w = (Raise FileNotFoundError, w) ∧
     save_decoy_items password items w = (Raise FileNotFoundError, w)) ∧
  is_opaque FileNotFoundError = false.
Proof.
  split; [|split; [|done]].
  - intros Hf l1 l2 items.
    by rewrite unlock_real_missing, save_real_items_missing.
  - intros Hf password items.
    by rewrite unlock_decoy_missing, save_decoy_items_missing.
Qed.

Lemma uninitialised_directory_witness :
  unlock_real (L:=Model.library) "alpha" None Model.fresh_world
    = (Raise FileNotFoundError, Model.fresh_world) ∧
  save_decoy_items (L:=Model.library) "beta" (JList []) Model.fresh_world
    = (Raise FileNotFoundError, Model.fresh_world).
Proof.
  destruct (uninitialised_directory (L:=Model.library) Model.fresh_world)
    as (Hreal & Hdecoy & _).
  split.
  - apply (Hreal eq_refl "alpha" None (JList [])).
  - apply (Hdecoy eq_refl "beta" (JList [])).
Defined.

(** X6. A real record that has lost its [wrapped_l1] field: [unlock_real]
    answers with the opaque [AuthenticationFailed] (the [KeyError] is caught),
    [save_real_items] lets [KeyError('wrapped_l1')] through and writes
    nothing. *)
Theorem missing_wrapped_l1 {L : Library} w d b l1 l2 items :
  files w !! REAL_FILENAME = Some (JDict d) →
  requires_l2_of (JDict d) = Ok b →
  d !! "wrapped_l1" = None →
  unlock_real l1 l2 w = (Raise AuthenticationFailed, w) ∧
  save_real_items l1 l2 items w = (Raise (KeyError "wrapped_l1"), w).
Proof.
  intros Hfile Hreq Hd.
  assert (unwrap_field (JDict d) "wrapped_l1" l1 = Raise (KeyError "wrapped_l1")) as He.
  { unfold unwrap_field, getitem. by rewrite Hd. }
  destruct (recover_cek_l1_fails _ _ _ l2 _ Hreq He) as [Hq Hp].
  split.
  - by rewrite (unlock_real_eq _ _ _ _ Hfile), Hq.
  - by rewrite (save_real_items_eq _ _ _ _ _ Hfile), Hp.
Qed.

Lemma missing_wrapped_l1_witness :
  unlock_real (L:=Model.library) "alpha" None Runs.no_l1
    = (Raise AuthenticationFailed, Runs.no_l1) ∧
  save_real_items (L:=Model.library) "alpha" None Scenario.note Runs.no_l1
    = (Raise (KeyError "wrapped_l1"), Runs.no_l1).
Proof.
  destruct Runs.no_l1_store as [| | | | | |d] eqn:Hstore;
    try (vm_compute in Hstore; discriminate).
  refine (missing_wrapped_l1 (L:=Model.library) Runs.no_l1 d false "alpha" None
            Scenario.note _ _ _).
  - rewrite <- Hstore. vm_compute. reflexivity.
  - rewrite <- Hstore. vm_compute. reflexivity.
  - assert (getitem Runs.no_l1_store "wrapped_l1" = Raise (KeyError "wrapped_l1")) as Hg
      by (vm_compute; reflexivity).
    rewrite Hstore in Hg. cbn [getitem] in Hg. by destruct (d !! "wrapped_l1").
Defined.

(** X7. A single-level real record that has lost its blob: [unlock_real] with
    the right password lets [KeyError('blob')] through; [save_real_items]
    with that password (a 32-byte key) succeeds all the same and writes a
    blob, after which [unlock_real] returns the saved items. *)
Theorem missing_blob {L : Library} w d l1 l2 cek items :
  files w !! REAL_FILENAME = Some (JDict d) →
  requires_l2_of (JDict d) = Ok false →
  unwrap_field (JDict d) "wrapped_l1" l1 = Ok cek →
  length cek = CEK_SIZE →
  d !! "blob" = None →
  unlock_real l1 l2 w = (Raise (KeyError "blob"), w) ∧
  ∃ w', save_real_items l1 l2 items w = (Ok (), w') ∧
        unlock_real l1 l2 w' = (Ok items, w').
Proof.
  intros Hfile Hreq Hcek Hlen Hd.
  pose proof (recover_cek_single true _ l1 l2 Hreq) as Hq.
  pose proof (recover_cek_single false _ l1 l2 Hreq) as Hp.
  cbn [guarded] in Hq, Hp. rewrite Hcek in Hq, Hp. rewrite try_except_Ok in Hq.
  split.
  - rewrite (unlock_real_eq _ _ _ _ Hfile), Hq. binds.
    unfold open_items, getitem. by rewrite Hd.
  - assert (∃ w', save_real_items l1 l2 items w = (Ok (), w')) as [w' Hsave].
    { rewrite (save_real_items_eq _ _ _ _ _ Hfile), Hp, AESGCM_accepts by done.
      cbn [setitem]. eauto. }
    exists w'. split; [done|]. by eapply save_then_unlock_real.
Qed.

Lemma missing_blob_witness :
  unlock_real (L:=Model.library) "alpha" None Runs.no_blob
    = (Raise (KeyError "blob"), Runs.no_blob) ∧
  ∃ w', save_real_items (L:=Model.library) "alpha" None Scenario.note Runs.no_blob
          = (Ok (), w') ∧
        unlock_real (L:=Model.library) "alpha" None w' = (Ok Scenario.note, w').
Proof.
  destruct Runs.no_blob_store as [| | | | | |d] eqn:Hstore;
    try (vm_compute in Hstore; discriminate).
  refine (missing_blob (L:=Model.library) Runs.no_blob d "alpha" None Scenario.cek
            Scenario.note _ _ _ _ _).
  - rewrite <- Hstore. vm_compute. reflexivity.
  - rewrite <- Hstore. vm_compute. reflexivity.
  - rewrite <- Hstore. vm_compute. reflexivity.
  - vm_compute. reflexivity.
  - assert (getitem Runs.no_blob_store "blob" = Raise (KeyError "blob")) as Hg
      by (vm_compute; reflexivity).
    rewrite Hstore in Hg. cbn [getitem] in Hg. by destruct (d !! "blob").
Defined.

(** X8. The policy is optional and not validated.  A real record without a
    [policy], or whose policy has no [requires_l2], is a single-level
    record: the L1 password alone goes on to the blob, whatever L2 is
    supplied.  A policy that is not a JSON object makes [unlock_real] and
    [save_real_items] raise [AttributeError] before any password is tried. *)
Theorem policy_absent_or_malformed {L : Library} w d l1 :
  files w !! REAL_FILENAME = Some (JDict d) →
  (d !! "policy" = None ∨ (∃ pd, d !! "policy" = Some (JDict pd) ∧ pd !! "requires_l2" = None) →
   ∀ cek l2, unwrap_field (JDict d) "wrapped_l1" l1 = Ok cek →
     unlock_real l1 l2 w = (open_items cek (JDict d), w)) ∧
  (∀ p, d !! "policy" = Some p → (∀ pd, p ≠ JDict pd) →
   ∀ l2 items,
     unlock_real l1 l2 w = (Raise AttributeError, w) ∧
     save_real_items l1 l2 items w = (Raise AttributeError, w)).
Proof.
  intros Hfile. split.
  - intros Hpol cek l2 Hcek.
    assert (requires_l2_of (JDict d) = Ok false) as Hreq.
    { unfold requires_l2_of, dict_get.
      destruct Hpol as [->|(pd & -> & Hpd)]; cbn [default]; binds; cbn [dict_get].
      - by rewrite lookup_empty.
      - change (id (JDict pd)) with (JDict pd). cbv beta iota. by rewrite Hpd. }
    rewrite (unlock_real_eq _ _ _ _ Hfile), (recover_cek_single true _ _ _ Hreq).
    cbn [guarded]. by rewrite Hcek, try_except_Ok.
  - intros p Hp Hnd l2 items.
    assert (∀ q, recover_cek q (JDict d) l1 l2 = Raise AttributeError) as Hrec.
    { intros q. unfold recover_cek, dict_get. rewrite Hp. cbn [default]. binds.
      destruct p; try done. by destruct (Hnd d0). }
    by rewrite (unlock_real_eq _ _ _ _ Hfile), (save_real_items_eq _ _ _ _ _ Hfile), !Hrec.
Qed.

Lemma policy_absent_or_malformed_witness :
  unlock_real (L:=Model.library) "alpha" (Some "anything") Runs.no_policy
    = (Ok (JList []), Runs.no_policy) ∧
  unlock_real (L:=Model.library) "alpha" None Runs.bad_policy
    = (Raise AttributeError, Runs.bad_policy).
Proof.
  split.
  - destruct Runs.no_policy_store as [| | | | | |d] eqn:Hstore;
      try (vm_compute in Hstore; discriminate).
    assert (files Runs.no_policy !! REAL_FILENAME = Some (JDict d)) as Hfile
      by (rewrite <- Hstore; vm_compute; reflexivity).
    destruct (policy_absent_or_malformed (L:=Model.library) _ _ "alpha" Hfile) as [Hab _].
    rewrite (Hab) with (cek := Scenario.cek).
    + rewrite <- Hstore. vm_compute. reflexivity.
    + left.
      assert (getitem Runs.no_policy_store "policy" = Raise (KeyError "policy")) as Hg
        by (vm_compute; reflexivity).
      rewrite Hstore in Hg. cbn [getitem] in Hg. by destruct (d !! "policy").
    + rewrite <- Hstore. vm_compute. reflexivity.
  - destruct Runs.bad_policy_store as [| | | | | |d] eqn:Hstore;
      try (vm_compute in Hstore; discriminate).
    assert (files Runs.bad_policy !! REAL_FILENAME = Some (JDict d)) as Hfile
      by (rewrite <- Hstore; vm_compute; reflexivity).
    destruct (policy_absent_or_malformed (L:=Model.library) _ _ "alpha" Hfile) as [_ Hbad].
    refine (proj1 (Hbad (JStr "strict") _ _ None (JList []))); [|done].
    assert (getitem Runs.bad_policy_store "policy" = Ok (JStr "strict")) as Hg
      by (vm_compute; reflexivity).
    rewrite Hstore in Hg. cbn [getitem] in Hg. by destruct (d !! "policy"); simplify_eq.
Defined.

(** X9. An empty L2 password is no L2 password: [init_new] with the empty
    string as L2 does exactly what it does without L2, and the vault it
    leaves opens with the L1 password alone. *)
Theorem empty_l2_is_no_l2 {L : Library} l1 decoy w :
  init_new l1 (Some EmptyString) decoy w = init_new l1 None decoy w ∧
  ∀ l2, let w' := (init_new l1 (Some EmptyString) decoy w).2 in
        unlock_real l1 l2 w' = (Ok (JList []), w').
Proof.
  split.
  - by rewrite !init_new_run.
  - intros l2. rewrite init_new_run. cbn [snd].
    by apply unlock_real_initialized_single.
Qed.

(** X10. After [init_new] with a non-empty L2 password the vault is
    two-level: the L1 and L2 passwords together return the empty list, the
    L1 password alone gets [SecondFactorRequired], and the two wrapped
    records unwrap, each under its password, to one and the same key. *)
Theorem two_level_after_init {L : Library} l1 l2 decoy w :
  l2 ≠ EmptyString →
  ∃ w' store,
    init_new l1 (Some l2) decoy w = (Ok (), w') ∧
    files w' !! REAL_FILENAME = Some store ∧
    unlock_real l1 (Some l2) w' = (Ok (JList []), w') ∧
    unlock_real l1 None w' = (Raise SecondFactorRequired, w') ∧
    ∃ cek, unwrap_field store "wrapped_l1" l1 = Ok cek ∧
           unwrap_field store "wrapped_l2" l2 = Ok cek ∧
           length cek = CEK_SIZE.
Proof.
  intros Hl2.
  exists (initialized l1 (Some l2) decoy w), (real_store_of l1 (Some l2) w).
  pose proof (real_store_lookup l1 (Some l2) decoy w) as Hfile.
  pose proof (real_store_requires_l2 l1 (Some l2) w) as Hreq.
  rewrite truthy_opt_Some in Hreq by done.
  split; [apply init_new_run|]. split; [exact Hfile|].
  split; [by apply unlock_real_initialized_two|]. split.
  - rewrite (unlock_real_eq _ _ _ _ Hfile).
    by rewrite (recover_cek_second_factor true _ l1 None (real_cek w) Hreq
                  (real_store_unwrap_l1 _ _ _)).
  - exists (real_cek w). split; [apply real_store_unwrap_l1|]. split.
    + rewrite <- (as_str_Some l2) at 2. apply real_store_unwrap_l2.
      by apply truthy_opt_Some.
    + apply window_length.
Qed.

Lemma two_level_after_init_witness :
  unlock_real (L:=Model.library) "a1" (Some "a2") Scenario.two_level
    = (Ok (JList []), Scenario.two_level).
Proof.
  destruct (two_level_after_init (L:=Model.library) "a1" "a2" "beta" Model.fresh_world)
    as (w' & store & Hinit & _ & Hu & _); [discriminate|].
  rewrite init_new_run in Hinit. injection Hinit as <-. exact Hu.
Defined.

(** X11. [init_new] writes [meta.json], [real.zvlt] and [decoy.zvlt] and no
    other file; the [two_level] flag of the meta file and the [requires_l2]
    flag of the real record both are the truth value of the L2 password; the
    decoy record unwraps under the decoy password to a key that opens its
    blob to the welcome item; it consumes 172 bytes of entropy with an L2
    password and 144 without. *)
Theorem init_new_writes_three_files {L : Library} l1 l2 decoy w w' :
  init_new l1 l2 decoy w = (Ok (), w') →
  (∀ path, path ∉ [META_FILENAME; REAL_FILENAME; DECOY_FILENAME] →
     files w' !! path = files w !! path) ∧
  (∃ meta real dec,
     files w' !! META_FILENAME = Some meta ∧
     files w' !! REAL_FILENAME = Some real ∧
     files w' !! DECOY_FILENAME = Some dec ∧
     (getitem meta "real" ≫= λ r, getitem r "two_level") = Ok (JBool (truthy_opt l2)) ∧
     requires_l2_of real = Ok (truthy_opt l2) ∧
     (∃ cek, unwrap_field dec "wrapped" decoy = Ok cek ∧ open_items cek dec = Ok decoy_items)) ∧
  entropy w' = entropy w ∧
  cursor w' = cursor w + (if truthy_opt l2 then 172 else 144).
Proof.
  rewrite init_new_run. intros [= <-]. split; [|split; [|split]].
  - intros path Hpath. unfold initialized. cbn [files].
    rewrite !lookup_insert_ne; [done|..]; intros <-; apply Hpath; set_solver.
  - exists (meta_of l2), (real_store_of l1 l2 w), (decoy_store_of l2 decoy w).
    split; [|split; [apply real_store_lookup|split; [apply decoy_store_lookup|]]].
    + unfold initialized. cbn [files]. rewrite !lookup_insert_ne by done.
      apply lookup_insert_eq.
    + split; [|split; [apply real_store_requires_l2|]].
      * unfold meta_of, getitem. lookups. binds. by lookups.
      * exists (decoy_cek l2 w). split; [apply decoy_store_unwrap|apply decoy_store_open].
  - done.
  - unfold initialized, real_draws. cbn [cursor]. by destruct (truthy_opt l2).
Qed.

Lemma init_new_writes_three_files_witness :
  cursor Scenario.two_level = 172 ∧
  files Scenario.two_level !! "notes.txt" = None.
Proof.
  destruct (init_new_writes_three_files (L:=Model.library) "a1" (Some "a2") "beta"
              Model.fresh_world Scenario.two_level) as (Hframe & _ & _ & Hcursor).
  - apply init_new_run.
  - split; [exact Hcursor|]. rewrite Hframe; [done|].
    apply (bool_decide_unpack _). vm_compute. exact I.
Defined.

(** X12. Sealing fails only when the cipher refuses the key (a key that is
    not 16, 24 or 32 bytes long), and then before any randomness is drawn:
    the world is as it was.  With an accepted key it succeeds and draws
    exactly 12 bytes. *)
Theorem sealing_fails_before_randomness {L : Library} cek body w :
  (∀ e w', create_vault_blob cek body w = (Raise e, w') →
     w' = w ∧ (length cek ∉ [16; 24; 32]) ∧
     e = ValueError "AESGCM key must be 128, 192, or 256 bits.") ∧
  (length cek ∈ [16; 24; 32] →
   ∃ blob, create_vault_blob cek body w = (Ok blob, advance w NONCE_SIZE)).
Proof.
  rewrite create_vault_blob_eq, aesgcm_encrypt_eq. unfold AESGCM. split.
  - intros e w'. case_bool_decide; [done|]. by intros [= <- <-].
  - intros Hk. rewrite bool_decide_eq_true_2 by done. cbn zeta. eauto.
Qed.

Lemma sealing_fails_before_randomness_witness :
  (create_vault_blob (L:=Model.library) Runs.short_key Scenario.sealed_payload
     Scenario.single).2 = Scenario.single.
Proof.
  destruct (sealing_fails_before_randomness (L:=Model.library) Runs.short_key
              Scenario.sealed_payload Scenario.single) as [Hfail _].
  refine (proj1 (Hfail (ValueError "AESGCM key must be 128, 192, or 256 bits.")
                   (create_vault_blob (L:=Model.library) Runs.short_key
                      Scenario.sealed_payload Scenario.single).2 _)).
  vm_compute. reflexivity.
Defined.

(** X13. The failures of the unlock functions.  On a real record with a
    readable policy, [unlock_real] fails with [AuthenticationFailed], with
    [SecondFactorRequired], or with an exception of the blob opening, which
    is none of the opaque kinds and comes after the key was recovered: the
    passwords recover a key and the blob does not open under that key.
    [unlock_decoy] fails with its own opaque error or, after the password
    has unwrapped the key, with an exception of the blob opening under that
    key. *)
Theorem unlock_failures {L : Library} w :
  (∀ store b l1 l2 e w',
     files w !! REAL_FILENAME = Some store →
     requires_l2_of store = Ok b →
     unlock_real l1 l2 w = (Raise e, w') →
     e = AuthenticationFailed ∨ e = SecondFactorRequired ∨
     (is_opaque e = false ∧
      ∃ cek, recover_cek true store l1 l2 = Ok cek ∧ open_items cek store = Raise e)) ∧
  (∀ store password e w',
     files w !! DECOY_FILENAME = Some store →
     unlock_decoy password w = (Raise e, w') →
     e = DecoyAuthenticationFailed ∨
     (is_opaque e = false ∧
      ∃ cek, unwrap_field store "wrapped" password = Ok cek ∧
             open_items cek store = Raise e)).
Proof.
  split.
  - intros store b l1 l2 e w' Hfile Hreq. rewrite (unlock_real_eq _ _ _ _ Hfile).
    destruct (recover_cek true store l1 l2) as [cek|e0] eqn:Hcek.
    + binds. intros [= He _]. right. right. split; [by eapply open_items_raises|eauto].
    + intros [= <- _].
      destruct (recover_cek_quiet_raises _ _ _ _ _ Hreq Hcek) as [->| ->]; auto.
  - intros store password e w' Hfile. rewrite (unlock_decoy_eq _ _ _ Hfile).
    destruct (unwrap_field store "wrapped" password) as [cek|e0] eqn:Hcek.
    + rewrite try_except_Ok. binds. intros [= He _]. right.
      split; [by eapply open_items_raises|eauto].
    + rewrite try_except_Raise. intros [= <- _]. by left.
Qed.

Lemma unlock_failures_witness :
  InvalidTag = AuthenticationFailed ∨ InvalidTag = SecondFactorRequired ∨
  (is_opaque InvalidTag = false ∧
   ∃ cek, recover_cek (L:=Model.library) true Scenario.tampered_store "alpha" None = Ok cek ∧
          open_items (L:=Model.library) cek Scenario.tampered_store = Raise InvalidTag).
Proof.
  refine (proj1 (unlock_failures (L:=Model.library) Scenario.tampered)
            Scenario.tampered_store false "alpha" None InvalidTag Scenario.tampered _ _ _);
    vm_compute; reflexivity.
Defined.

(** X14. On a real record whose policy requires L2, an L2 password that does
    not unwrap [wrapped_l2] gets the opaque [AuthenticationFailed] from
    [unlock_real], although L1 was right. *)
Theorem wrong_l2_is_authentication_failure {L : Library} w store l1 l2 cek e :
  files w !! REAL_FILENAME = Some store →
  requires_l2_of store = Ok true →
  l2 ≠ EmptyString →
  unwrap_field store "wrapped_l1" l1 = Ok cek →
  unwrap_field store "wrapped_l2" l2 = Raise e →
  unlock_real l1 (Some l2) w = (Raise AuthenticationFailed, w).
Proof.
  intros Hfile Hreq Hl2 Hcek He. rewrite (unlock_real_eq _ _ _ _ Hfile).
  destruct (requires_l2_of_inv _ _ Hreq) as (p & r & Hp & Hr & Ht).
  unfold recover_cek, guarded. rewrite Hp. binds. rewrite Hr. binds.
  rewrite Hcek, try_except_Ok. binds.
  rewrite Ht, truthy_opt_Some, as_str_Some by done. cbn [negb].
  by rewrite He, try_except_Raise.
Qed.

Lemma wrong_l2_is_authentication_failure_witness :
  unlock_real (L:=Model.library) "a1" (Some "wrong") Scenario.two_level
    = (Raise AuthenticationFailed, Scenario.two_level).
Proof.
  refine (wrong_l2_is_authentication_failure (L:=Model.library) Scenario.two_level
            Scenario.two_level_store "a1" "wrong" Scenario.cek InvalidTag _ _ _ _ _).
  - vm_compute. reflexivity.
  - vm_compute. reflexivity.
  - discriminate.
  - vm_compute. reflexivity.
  - vm_compute. reflexivity.
Defined.

(** X15. [save_real_items] makes the same two-level checks as [unlock_real]:
    on a record whose policy requires L2, with an L1 password that unwraps,
    it raises [SecondFactorRequired] when no L2 password is supplied and
    [AuthenticationFailed] when the L2 password unwraps to a different key;
    in both cases nothing is written. *)
Theorem save_checks_second_factor {L : Library} w store l1 cek_a items :
  files w !! REAL_FILENAME = Some store →
  requires_l2_of store = Ok true →
  unwrap_field store "wrapped_l1" l1 = Ok cek_a →
  (∀ l2, truthy_opt l2 = false →
     save_real_items l1 l2 items w = (Raise SecondFactorRequired, w)) ∧
  (∀ l2 cek_b, l2 ≠ EmptyString →
     unwrap_field store "wrapped_l2" l2 = Ok cek_b → cek_a ≠ cek_b →
     save_real_items l1 (Some l2) items w = (Raise AuthenticationFailed, w)).
Proof.
  intros Hfile Hreq Ha. split.
  - intros l2 Hl2. rewrite (save_real_items_eq _ _ _ _ _ Hfile).
    by rewrite (recover_cek_second_factor false store l1 l2 cek_a).
  - intros l2 cek_b Hl2 Hb Hne. rewrite (save_real_items_eq _ _ _ _ _ Hfile).
    by rewrite (recover_cek_mismatch false store l1 l2 cek_a cek_b).
Qed.

Lemma save_checks_second_factor_witness :
  save_real_items (L:=Model.library) "a1" None Scenario.note Scenario.two_level
    = (Raise SecondFactorRequired, Scenario.two_level) ∧
  save_real_items (L:=Model.library) "a1" (Some "a2") Scenario.note Scenario.substituted
    = (Raise AuthenticationFailed, Scenario.substituted).
Proof.
  split.
  - refine (proj1 (save_checks_second_factor (L:=Model.library) Scenario.two_level
                     Scenario.two_level_store "a1" Scenario.cek Scenario.note _ _ _) None _);
      vm_compute; reflexivity.
  - refine (proj2 (save_checks_second_factor (L:=Model.library) Scenario.substituted
                     Scenario.substituted_store "a1" Scenario.cek Scenario.note _ _ _)
              "a2" Scenario.other_cek _ _ _);
      try (vm_compute; reflexivity); [discriminate|vm_compute; discriminate].
Defined.

(** X16. A successful [save_decoy_items] rewrites the decoy record with a new
    blob and nothing else: the other fields of the record and every other
    file, the real record included, are as before. *)
Theorem save_decoy_items_frame {L : Library} w store password items w' :
  files w !! DECOY_FILENAME = Some store →
  save_decoy_items password items w = (Ok (), w') →
  ∃ d blob,
    store = JDict d ∧
    files w' = <[DECOY_FILENAME := JDict (<["blob" := blob]> d)]> (files w) ∧
    (∀ k, k ≠ "blob" → (<["blob" := blob]> d) !! k = d !! k) ∧
    files w' !! REAL_FILENAME = files w !! REAL_FILENAME ∧
    cursor w' = cursor w + NONCE_SIZE.
Proof.
  intros Hfile Hsave.
  destruct (save_decoy_items_Ok _ _ _ _ _ Hfile Hsave) as (d & cek & aes & -> & _ & _ & ->).
  eexists d, _. split; [done|]. split; [done|]. split; [|split; [|done]].
  - intros k Hk. by rewrite lookup_insert_ne.
  - cbn [with_file files advance]. by rewrite lookup_insert_ne.
Qed.

Lemma save_decoy_items_frame_witness :
  files Runs.decoy_saved !! REAL_FILENAME = files Scenario.single !! REAL_FILENAME.
Proof.
  destruct (save_decoy_items_frame (L:=Model.library) Scenario.single
              Runs.single_decoy_store "beta" Scenario.note Runs.decoy_saved)
    as (d & blob & _ & _ & _ & Hreal & _).
  - vm_compute. reflexivity.
  - vm_compute. reflexivity.
  - exact Hreal.
Defined.

(** X17. The two vaults do not interfere: whatever [save_real_items] does, the
    answer of [unlock_decoy] is the same before and after, and whatever
    [save_decoy_items] does, the answer of [unlock_real] is the same before
    and after. *)
Theorem vaults_do_not_interfere {L : Library} w :
  (∀ l1 l2 items r w' password,
     save_real_items l1 l2 items w = (r, w') →
     (unlock_decoy password w').1 = (unlock_decoy password w).1) ∧
  (∀ password items r w' l1 l2,
     save_decoy_items password items w = (r, w') →
     (unlock_real l1 l2 w').1 = (unlock_real l1 l2 w).1).
Proof.
  split.
  - intros l1 l2 items r w' password Hsave. apply unlock_decoy_same_file.
    by eapply save_real_items_other_files.
  - intros password items r w' l1 l2 Hsave. apply unlock_real_same_file.
    by eapply save_decoy_items_other_files.
Qed.

Lemma vaults_do_not_interfere_witness :
  (unlock_decoy (L:=Model.library) "beta" Scenario.saved).1
    = (unlock_decoy (L:=Model.library) "beta" Scenario.single).1 ∧
  (unlock_real (L:=Model.library) "alpha" None Runs.decoy_saved).1
    = (unlock_real (L:=Model.library) "alpha" None Scenario.single).1.
Proof.
  destruct (vaults_do_not_interfere (L:=Model.library) Scenario.single) as [Hreal Hdecoy].
  split.
  - apply (Hreal "alpha" None Scenario.note (Ok ())). vm_compute. reflexivity.
  - apply (Hdecoy "beta" Scenario.note (Ok ())). vm_compute. reflexivity.
Defined.

(** ** cli.py

    The commands talk to a terminal and to the file system around the vault.

    - What the user will type is a list of lines read at a position;
      [getpass.getpass] and [input] show their prompt and raise [EOFError]
      when the lines are used up.  What the program shows is a transcript
      of prompts and printed lines; the terminal takes every line that is
      printed.
    - The files outside the vault directory are a state [fs] of the
      platform.  [Path.exists], [Path.read_bytes], [Path.write_bytes] and
      [Path.mkdir] are fields of the class [Platform]; each of them may
      raise, and a write or a [mkdir] that raises may have changed the
      files all the same.  The paths given on the command line lie outside
      the vault directory: the files of the vault ([files] of the world) and
      the other files are kept apart.
    - The value that [unlock_real] and [unlock_decoy] return is whatever
      JSON value the body of the vault holds, a list of items or not; the
      commands treat it as Python does. *)

Inductive event : Type :=
| Asked (prompt : string)
| Printed (line : string).

Class Platform : Type := {
  fs : Type;
  (** [str(Path(p))], [Path(p).name], [str(Path(p) / q)] and [s.strip()] *)
  path_str : string → string;
  path_name : string → string;
  path_join : string → string → string;
  str_strip : string → string;
  (** [str(ZENTRY_STORE)] *)
  store_path : string;
  (** [str(v)], as [print] shows a value *)
  py_str : json → string;
  (** [Path(p).exists()], [Path(p).read_bytes()], [Path(p).write_bytes(data)]
      and [Path(p).mkdir(parents=True, exist_ok=True)] *)
  path_exists : string → fs → result bool;
  path_read_bytes : string → fs → result bytes;
  path_write_bytes : string → bytes → fs → result unit * fs;
  path_mkdir : string → fs → result unit * fs;

  py_str_str : ∀ s, py_str (JStr s) = s
}.

Section Terminal.
Context {P : Platform}.

Record session : Type := Session {
  vault : world;
  typed : list string;
  position : nat;
  screen : list event;
  disk : fs
}.

Definition C (A : Type) : Type := session → result A * session.

#[global] Instance C_ret : MRet C := λ A a s, (Ok a, s).
#[global] Instance C_bind : MBind C :=
  λ A B f m s,
    match m s with
    | (Ok a, s') => f a s'
    | (Raise e, s') => (Raise e, s')
    end.

(** [getpass.getpass(prompt)] and [input(prompt)]: the prompt is shown, then
    the next line is read. *)
Definition getpass (prompt : string) : C string :=
  λ s, match typed s !! position s with
       | Some line =>
           (Ok line, Session (vault s) (typed s) (S (position s))
                       (screen s ++ [Asked prompt]) (disk s))
       | None =>
           (Raise EOFError, Session (vault s) (typed s) (position s)
                              (screen s ++ [Asked prompt]) (disk s))
       end.

Definition input (prompt : string) : C string := getpass prompt.

Definition print (line : string) : C unit :=
  λ s, (Ok (), Session (vault s) (typed s) (position s) (screen s ++ [Printed line]) (disk s)).

(** A method of the global [vault]. *)
Definition in_vault {A} (m : M A) : C A :=
  λ s, let '(r, w) := m (vault s) in
       (r, Session w (typed s) (position s) (screen s) (disk s)).

(** [try: m except Exception: ...]: the outcome of [m] as a value. *)
Definition attempt {A} (m : C A) : C (result A) :=
  λ s, let '(r, s') := m s in (Ok r, s').

Definition raise_or_return {A} (r : result A) : C A := λ s, (r, s).

(** An operation of the platform that reads the files. *)
Definition reading {A} (f : fs → result A) : C A := λ s, (f (disk s), s).

(** An operation of the platform that changes the files. *)
Definition writing (f : fs → result unit * fs) : C unit :=
  λ s, let '(r, d) := f (disk s) in
       (r, Session (vault s) (typed s) (position s) (screen s) d).

End Terminal.

(** *** What Python does with a value that may not be a list of items *)

(** The elements that [for it in v] goes through.  The keys of an object
    come in the order of insertion, which the map does not keep, and a
    string comes character by character; every element of either is a
    string. *)
Definition py_iter (v : json) : result (list json) :=
  match v with
  | JList l => Ok l
  | JDict d => Ok (JStr <$> (map_to_list d).*1)
  | JStr s => Ok ((λ c, JStr (String c EmptyString)) <$> list_ascii_of_string s)
  | _ => Raise TypeError
  end.

(** [v.append]: the method, looked up before its argument is built. *)
Definition py_append (v : json) : result (json → json) :=
  match v with
  | JList l => Ok (λ x, JList (l ++ [x]))
  | _ => Raise AttributeError
  end.

(** [v == s] for a [str] [s]. *)
Definition py_eq_str (v : json) (s : string) : bool :=
  match v with
  | JStr t => String.eqb t s
  | _ => false
  end.

Section Cli.
Context {L : Library} {P : Platform}.

(** [for it in items: print(" -", it.get("name"))]. *)
Fixpoint print_names (items : list json) : C unit :=
  match items with
  | [] => mret ()
  | it :: rest =>
      n ← raise_or_return (dict_get it "name" JNull);
      print (" - " +:+ py_str n);;
      print_names rest
  end.

Definition cmd_list (decoy : bool) : C unit :=
  if decoy then
    decoy_pw ← getpass "Enter decoy password: ";
    r ← attempt (in_vault (unlock_decoy decoy_pw));
    match r with
    | Raise _ => print "Unable to unlock decoy."
    | Ok items =>
        print "Files in decoy vault:";;
        elements ← raise_or_return (py_iter items);
        print_names elements
    end
  else
    l1 ← getpass "Enter main password (L1): ";
    r ← attempt (in_vault (unlock_real l1 None));
    unlocked ← match r with
               | Ok items => mret (Some items)
               | Raise _ =>
                   l2_try ← getpass "Enter L2 (secondary) or press Enter to cancel: ";
                   if negb (truthy_opt (Some l2_try)) then
                     print "Unable to unlock real vault.";; mret None
                   else
                     r ← attempt (in_vault (unlock_real l1 (Some l2_try)));
                     match r with
                     | Ok items => mret (Some items)
                     | Raise _ => print "Unable to unlock real vault.";; mret None
                     end
               end;
    match unlocked with
    | None => mret ()
    | Some items =>
        print "Files in real vault:";;
        elements ← raise_or_return (py_iter items);
        print_names elements
    end.

(** The item that [cmd_add] appends for the file at [source]. *)
Definition new_item (source : string) (data : bytes) : C json :=
  encoded ← raise_or_return (_b64encode data);
  mret (item (path_name source) "file" encoded).

Definition cmd_add (source : string) (decoy : bool) : C unit :=
  present ← reading (path_exists source);
  if negb present then print ("Source file not found: " +:+ path_str source)
  else if decoy then
    decoy_pw ← getpass "Enter decoy password: ";
    r ← attempt (in_vault (unlock_decoy decoy_pw));
    match r with
    | Raise _ => print "Unable to unlock decoy. Aborting."
    | Ok items =>
        data ← reading (path_read_bytes source);
        append ← raise_or_return (py_append items);
        it ← new_item source data;
        in_vault (save_decoy_items decoy_pw (append it));;
        print ("Added '" +:+ path_name source +:+ "' to decoy vault.")
    end
  else
    l1 ← getpass "Enter main password (L1): ";
    r ← attempt (in_vault (unlock_real l1 None));
    unlocked ← match r with
               | Ok items => mret (Some (items, None))
               | Raise _ =>
                   l2_try ← getpass "Enter L2 (secondary) or press Enter to cancel: ";
                   if negb (truthy_opt (Some l2_try)) then
                     print "Unable to unlock real vault.";; mret None
                   else
                     r ← attempt (in_vault (unlock_real l1 (Some l2_try)));
                     match r with
                     | Ok items => mret (Some (items, Some l2_try))
                     | Raise _ => print "Unable to unlock real vault. Aborting.";; mret None
                     end
               end;
    match unlocked with
    | None => mret ()
    | Some (items, l2) =>
        data ← reading (path_read_bytes source);
        append ← raise_or_return (py_append items);
        it ← new_item source data;
        in_vault (save_real_items l1 l2 (append it));;
        print ("Added '" +:+ path_name source +:+ "' to real vault.")
    end.

(** The search loop of [cmd_export]: the first item named [fname] is decoded,
    written and announced, and the command returns ([true]); without such an
    item the loop ends ([false]). *)
Fixpoint export_first (fname outdir : string) (items : list json) : C bool :=
  match items with
  | [] => mret false
  | it :: rest =>
      n ← raise_or_return (dict_get it "name" JNull);
      if py_eq_str n fname then
        data ← raise_or_return (getitem it "data" ≫= _b64decode);
        writing (path_write_bytes (path_join outdir fname) data);;
        print ("Exported '" +:+ fname +:+ "' -> " +:+ path_join outdir fname);;
        mret true
      else export_first fname outdir rest
  end.

Definition cmd_export (filename out : string) : C unit :=
  let fname := filename in
  let outdir := if truthy_opt (Some out) then out else "exports" in
  writing (path_mkdir outdir);;
  l1 ← getpass "Enter main password (L1) to try real (or press Enter to skip): ";
  done ← (if truthy_opt (Some l1) then
            r ← attempt (in_vault (unlock_real l1 None));
            items ← match r with
                    | Ok items => mret items
                    | Raise _ =>
                        l2_try ← getpass "Enter L2 (secondary) or press Enter to skip: ";
                        if truthy_opt (Some l2_try) then
                          r ← attempt (in_vault (unlock_real l1 (Some l2_try)));
                          match r with
                          | Ok items => mret items
                          | Raise _ => mret JNull
                          end
                        else mret JNull
                    end;
            match items with
            | JNull => mret false
            | _ =>
                elements ← raise_or_return (py_iter items);
                export_first fname outdir elements
            end
          else mret false);
  if (done : bool) then mret ()
  else
    decoy_pw ← getpass "Enter decoy password to try decoy (or press Enter to skip): ";
    done ← (if truthy_opt (Some decoy_pw) then
              r ← attempt (items ← in_vault (unlock_decoy decoy_pw);
                           elements ← raise_or_return (py_iter items);
                           export_first fname outdir elements);
              match r with
              | Ok done => mret done
              | Raise _ => mret false
              end
            else mret false);
    if (done : bool) then mret ()
    else print "File not found or unable to decrypt.".

Definition cmd_lock : C unit :=
  print "Vault locked. (In the real implementation keys would be cleared from memory.)".

(** The second-factor dialogue of [cmd_init]: [Some l2] is the choice made,
    [None] stands for the abort after an L2 mismatch. *)
Definition choose_l2 : C (option (option string)) :=
  print "Set up second factor (L2). Choose one:";;
  print "  1) Use another password (typed now)";;
  print "  2) Use a recovery key (string) that you will save offline";;
  print "  3) No second factor (not recommended for sensitive items)";;
  answer ← input "Choose 1/2/3 [default 2]: ";
  let choice := if truthy_opt (Some (str_strip answer)) then str_strip answer else "2" in
  if String.eqb choice "1" then
    l2 ← getpass "Enter L2 password: ";
    l2_confirm ← getpass "Confirm L2 password: ";
    if negb (String.eqb l2 l2_confirm) then print "L2 mismatch. Aborting.";; mret None
    else mret (Some (Some l2))
  else if String.eqb choice "2" then
    raw ← in_vault (os_urandom 24);
    key ← raise_or_return (_b64encode raw);
    print "Recovery key (save this somewhere safe):";;
    print key;;
    mret (Some (Some key))
  else mret (Some None).

Definition cmd_init : C unit :=
  print "Zentry initialization — choose strong passwords.";;
  l1 ← getpass "Enter main password (L1): ";
  l1_confirm ← getpass "Confirm main password: ";
  if negb (String.eqb l1 l1_confirm) then print "Passwords did not match. Aborting."
  else
    chosen ← choose_l2;
    match chosen with
    | None => mret ()
    | Some l2 =>
        decoy ← getpass "Enter decoy password (for fake vault): ";
        decoy_confirm ← getpass "Confirm decoy password: ";
        if negb (String.eqb decoy decoy_confirm) then
          print "Decoy password mismatch. Aborting."
        else
          in_vault (init_new l1 l2 decoy);;
          print ("Zentry initialized. Vault files created in: " +:+ store_path)
    end.

End Cli.

(** A platform to run the commands on: paths are taken as they are, the
    files are regular files, and a path that names a file cannot be made a
    directory. *)
Module Terminal.

#[export] Instance platform : Platform := {|
  fs := gmap string bytes;
  path_str := λ p, p;
  path_name := λ p, p;
  path_join := λ dir p, dir +:+ "/" +:+ p;
  str_strip := λ s, s;
  store_path := "zentry_store";
  py_str := λ v, match v with JStr s => s | JNull => "None" | _ => "..." end;
  path_exists := λ p d, Ok (bool_decide (is_Some (d !! p)));
  path_read_bytes := λ p d, or_raise FileNotFoundError (d !! p);
  path_write_bytes := λ p b d, (Ok (), <[p := b]> d);
  path_mkdir := λ p d,
    (if bool_decide (is_Some (d !! p)) then Raise FileExistsError else Ok (), d);
  py_str_str := λ s, eq_refl
|}.

(** The session of a user who will type the lines [l]. *)
Definition start (w : world) (l : list string) (files : gmap string bytes) : session :=
  Session w l 0 [] files.

End Terminal.

(** ** Facts about cli.py *)

Section Sessions.
Context {P : Platform}.

(** The session [s] after the events [evs] were shown and [n] lines read. *)
Definition shown (s : session) (evs : list event) (n : nat) : session :=
  Session (vault s) (typed s) (position s + n) (screen s ++ evs) (disk s).

(** The session [s] with the vault in the state [w]. *)
Definition with_vault (s : session) (w : world) : session :=
  Session w (typed s) (position s) (screen s) (disk s).

(** The session [s] with the files outside the vault in the state [d]. *)
Definition with_disk (s : session) (d : fs) : session :=
  Session (vault s) (typed s) (position s) (screen s) d.

(** The outcome of a loop that showed [evs] and then ended or raised. *)
Definition ended (evs : list event) (r : option exn) (s : session)
    : result unit * session :=
  (match r with None => Ok () | Some e => Raise e end, shown s evs 0).

End Sessions.

(** The lines that [print_names] prints, and the exception that ends it if
    an element has no [get]. *)
Fixpoint names_of {P : Platform} (items : list json) : list event * option exn :=
  match items with
  | [] => ([], None)
  | it :: rest =>
      match dict_get it "name" JNull with
      | Ok n => (Printed (" - " +:+ py_str n) :: (names_of rest).1, (names_of rest).2)
      | Raise e => ([], Some e)
      end
  end.

(** What the listing loop does with the body of a vault. *)
Definition listed {P : Platform} (body : json) : list event * option exn :=
  match py_iter body with
  | Ok elements => names_of elements
  | Raise e => ([], Some e)
  end.

(** The body of a vault is a list of objects. *)
Definition is_object (v : json) : bool :=
  match v with JDict _ => true | _ => false end.

Definition is_objects (body : json) : bool :=
  match body with JList l => forallb is_object l | _ => false end.

(** The lines that the listing prints for a list of objects. *)
Definition name_lines {P : Platform} (objects : list (gmap string json)) : list event :=
  (λ d, Printed (" - " +:+ py_str (default JNull (d !! "name")))) <$> objects.

(** What the search loop of [cmd_export] comes to. *)
Inductive found : Type :=
| NotFound
| Found (content : bytes)
| Failed (e : exn).

Fixpoint search {L : Library} (fname : string) (items : list json) : found :=
  match items with
  | [] => NotFound
  | it :: rest =>
      match dict_get it "name" JNull with
      | Raise e => Failed e
      | Ok n =>
          if py_eq_str n fname then
            match getitem it "data" ≫= _b64decode with
            | Ok content => Found content
            | Raise e => Failed e
            end
          else search fname rest
      end
  end.

Definition search_in {L : Library} (fname : string) (body : json) : found :=
  match py_iter body with
  | Ok elements => search fname elements
  | Raise e => Failed e
  end.

Section CliFacts.
Context {L : Library} {P : Platform}.

Lemma C_bind_eq {A B} (m : C A) (f : A → C B) s :
  (m ≫= f) s = match m s with
               | (Ok a, s') => f a s'
               | (Raise e, s') => (Raise e, s')
               end.
Proof. done. Qed.

Lemma shown_nil s : shown s [] 0 = s.
Proof. destruct s. unfold shown. cbn. by rewrite Nat.add_0_r, app_nil_r. Qed.

Lemma shown_shown s e1 n1 e2 n2 :
  shown (shown s e1 n1) e2 n2 = shown s (e1 ++ e2) (n1 + n2).
Proof. unfold shown. cbn. by rewrite Nat.add_assoc, app_assoc. Qed.

Lemma with_vault_same s : with_vault s (vault s) = s.
Proof. by destruct s. Qed.

Lemma getpass_run prompt s :
  getpass prompt s =
    match typed s !! position s with
    | Some line => (Ok line, shown s [Asked prompt] 1)
    | None => (Raise EOFError, shown s [Asked prompt] 0)
    end.
Proof.
  unfold getpass, shown. destruct (typed s !! position s).
  - by rewrite Nat.add_1_r.
  - by rewrite Nat.add_0_r.
Qed.

Lemma print_run line s : print line s = (Ok (), shown s [Printed line] 0).
Proof. unfold print, shown. by rewrite Nat.add_0_r. Qed.

Lemma in_vault_run {A} (m : M A) s :
  in_vault m s = ((m (vault s)).1, with_vault s (m (vault s)).2).
Proof. unfold in_vault. by destruct (m (vault s)). Qed.

Lemma in_vault_shown {A} (m : M A) s evs n :
  in_vault m (shown s evs n)
  = ((m (vault s)).1, shown (with_vault s (m (vault s)).2) evs n).
Proof. unfold in_vault, shown, with_vault. cbn. by destruct (m (vault s)). Qed.

Lemma attempt_run {A} (m : C A) s : attempt m s = (Ok (m s).1, (m s).2).
Proof. unfold attempt. by destruct (m s). Qed.

Lemma attempt_unlock_real l1 l2 s :
  attempt (in_vault (unlock_real l1 l2)) s = (Ok (unlock_real l1 l2 (vault s)).1, s).
Proof.
  rewrite attempt_run, in_vault_run. cbn [fst snd].
  destruct (unlock_real l1 l2 (vault s)) as [r w'] eqn:Hu.
  rewrite (unlock_real_readonly _ _ _ _ _ Hu). cbn [fst snd]. by rewrite with_vault_same.
Qed.

Lemma attempt_unlock_decoy password s :
  attempt (in_vault (unlock_decoy password)) s = (Ok (unlock_decoy password (vault s)).1, s).
Proof.
  rewrite attempt_run, in_vault_run. cbn [fst snd].
  destruct (unlock_decoy password (vault s)) as [r w'] eqn:Hu.
  rewrite (unlock_decoy_readonly _ _ _ _ Hu). cbn [fst snd]. by rewrite with_vault_same.
Qed.

Lemma print_names_run items s :
  print_names items s = ended (names_of items).1 (names_of items).2 s.
Proof.
  unfold ended. revert s. induction items as [|it rest IH]; intros s.
  - cbn. by rewrite shown_nil.
  - cbn [print_names names_of]. rewrite C_bind_eq. unfold raise_or_return.
    destruct (dict_get it "name" JNull) as [n|e]; cbn [fst snd].
    + rewrite C_bind_eq, print_run. cbv beta iota. by rewrite IH, shown_shown.
    + by rewrite shown_nil.
Qed.

(** The listing of a body under its heading. *)
Lemma listing_run heading body s :
  (print heading;;
   elements ← raise_or_return (py_iter body);
   print_names elements) s
  = ended (Printed heading :: (listed body).1) (listed body).2 s.
Proof.
  rewrite C_bind_eq, print_run. cbv beta iota. rewrite C_bind_eq.
  unfold raise_or_return, listed, ended.
  destruct (py_iter body) as [elements|e]; cbn [fst snd].
  - rewrite print_names_run. unfold ended. by rewrite shown_shown.
  - done.
Qed.

End CliFacts.

(** Runs the next action of a command. *)
Ltac crun :=
  rewrite C_bind_eq;
  first [ rewrite print_run | rewrite attempt_unlock_real | rewrite attempt_unlock_decoy ];
  cbv beta iota; cbn [typed position vault disk screen shown with_disk with_vault];
  rewrite ?shown_shown; cbn [Nat.add app].

(** Runs a prompt: the line read, or the end of the input. *)
Ltac cask :=
  rewrite C_bind_eq, getpass_run;
  cbn [typed position vault disk screen shown with_disk with_vault];
  rewrite ?Nat.add_0_r;
  destruct (typed _ !! _);
  cbv beta iota; rewrite ?shown_shown; cbn [Nat.add app].

Section CliListFacts.
Context {L : Library} {P : Platform}.

(** The real branch of [cmd_list], by the lines typed and the outcome of the
    two attempts. *)
Lemma cmd_list_real_eq s :
  let ask1 := Asked "Enter main password (L1): " in
  let ask2 := Asked "Enter L2 (secondary) or press Enter to cancel: " in
  let unable := Printed "Unable to unlock real vault." in
  let listing body := Printed "Files in real vault:" :: (listed body).1 in
  cmd_list false s =
    match typed s !! position s with
    | None => (Raise EOFError, shown s [ask1] 0)
    | Some l1 =>
        match (unlock_real l1 None (vault s)).1 with
        | Ok body => ended (ask1 :: listing body) (listed body).2 (shown s [] 1)
        | Raise _ =>
            match typed s !! (position s + 1) with
            | None => (Raise EOFError, shown s [ask1; ask2] 1)
            | Some l2 =>
                if negb (truthy_opt (Some l2)) then (Ok (), shown s [ask1; ask2; unable] 2)
                else
                  match (unlock_real l1 (Some l2) (vault s)).1 with
                  | Ok body =>
                      ended (ask1 :: ask2 :: listing body) (listed body).2 (shown s [] 2)
                  | Raise _ => (Ok (), shown s [ask1; ask2; unable] 2)
                  end
            end
        end
    end.
Proof.
  cbn zeta. unfold cmd_list. cask; [|done]. crun.
  destruct (unlock_real _ None (vault s)).1 as [body|e].
  - rewrite C_bind_eq. cbn [mret C_ret]. cbv beta iota.
    rewrite listing_run. unfold ended. by rewrite !shown_shown.
  - rewrite C_bind_eq. cask; [|done].
    destruct (negb (truthy_opt _)).
    + by crun.
    + crun. destruct (unlock_real _ (Some _) (vault s)).1 as [body|e2].
      * cbn [mret C_ret]. cbv beta iota.
        rewrite listing_run. unfold ended. by rewrite !shown_shown.
      * by crun.
Qed.

Lemma cmd_list_decoy_eq s :
  let ask := Asked "Enter decoy password: " in
  cmd_list true s =
    match typed s !! position s with
    | None => (Raise EOFError, shown s [ask] 0)
    | Some password =>
        match (unlock_decoy password (vault s)).1 with
        | Ok body =>
            ended (ask :: Printed "Files in decoy vault:" :: (listed body).1)
              (listed body).2 (shown s [] 1)
        | Raise _ => (Ok (), shown s [ask; Printed "Unable to unlock decoy."] 1)
        end
    end.
Proof.
  cbn zeta. unfold cmd_list. cask; [|done]. crun.
  destruct (unlock_decoy _ (vault s)).1 as [body|e].
  - rewrite listing_run. unfold ended. by rewrite !shown_shown.
  - by rewrite print_run, shown_shown.
Qed.

(** The listing loop raises only on a body that is not a list of objects,
    and then [TypeError] or [AttributeError]. *)
Lemma names_of_raises items e :
  (names_of items).2 = Some e → e = AttributeError ∧ forallb is_object items = false.
Proof.
  induction items as [|it rest IH]; [done|]. cbn [names_of forallb].
  destruct it; cbn; try by intros [= <-].
  intros He. by destruct (IH He) as [-> ->].
Qed.

Lemma listed_raises body e :
  (listed body).2 = Some e →
  (e = TypeError ∨ e = AttributeError) ∧ is_objects body = false.
Proof.
  unfold listed. destruct body as [| | | |s|l|d]; cbn [py_iter snd is_objects];
    try (intros [= <-]; by auto).
  - intros He. apply names_of_raises in He as [-> _]. auto.
  - intros He. apply names_of_raises in He as [-> ?]. auto.
  - intros He. apply names_of_raises in He as [-> _]. auto.
Qed.

Lemma names_of_objects objects :
  names_of (JDict <$> objects) = (name_lines objects, None).
Proof.
  induction objects as [|d rest IH]; [done|].
  cbn [fmap list_fmap names_of dict_get]. fold (fmap (M:=list) JDict rest).
  by rewrite IH.
Qed.

Lemma listed_objects objects :
  listed (JList (JDict <$> objects)) = (name_lines objects, None).
Proof. unfold listed. cbn [py_iter]. apply names_of_objects. Qed.

End CliListFacts.

(** *** [cmd_add] *)

(** The item that [cmd_add] appends for a file named [source] holding
    [content]. *)
Definition added_item {L : Library} {P : Platform} (source : string) (content : bytes)
    : json :=
  item (path_name source) "file" (b64text content).

Section CliAddFacts.
Context {L : Library} {P : Platform}.

Lemma new_item_run source content s :
  new_item source content s = (Ok (added_item source content), s).
Proof.
  unfold new_item, raise_or_return. by rewrite C_bind_eq, b64encode_run.
Qed.

Lemma reading_run {A} (f : fs → result A) s : reading f s = (f (disk s), s).
Proof. done. Qed.

Lemma reading_shown {A} (f : fs → result A) s evs n :
  reading f (shown s evs n) = (f (disk s), shown s evs n).
Proof. done. Qed.

(** What [cmd_add] does once the vault is unlocked: it reads the file, looks
    up [append], saves. *)
Definition appending (source : string) (body : json) (save : json → M unit)
    (done : string) (s : session) (evs : list event) (n : nat)
    : result unit * session :=
  match path_read_bytes source (disk s) with
  | Raise e => (Raise e, shown s evs n)
  | Ok content =>
      match py_append body with
      | Raise e => (Raise e, shown s evs n)
      | Ok append =>
          let saved := save (append (added_item source content)) (vault s) in
          match saved.1 with
          | Raise e => (Raise e, shown (with_vault s saved.2) evs n)
          | Ok _ => (Ok (), shown (with_vault s saved.2) (evs ++ [Printed done]) n)
          end
      end
  end.

Lemma appending_run source body (save : json → M unit) done s evs n :
  (data ← reading (path_read_bytes source);
   append ← raise_or_return (py_append body);
   it ← new_item source data;
   in_vault (save (append it));;
   print done) (shown s evs n)
  = appending source body save done s evs n.
Proof.
  unfold appending. rewrite C_bind_eq, reading_shown.
  destruct (path_read_bytes source (disk s)) as [content|e]; [|done].
  cbv beta iota. rewrite C_bind_eq. unfold raise_or_return.
  destruct (py_append body) as [append|e]; [|done].
  cbv beta iota. rewrite C_bind_eq, new_item_run. cbv beta iota.
  rewrite C_bind_eq, in_vault_shown. cbn zeta.
  destruct (save _ (vault s)) as [[[]|e] w']; cbn [fst snd]; [|done].
  by rewrite print_run, shown_shown, Nat.add_0_r.
Qed.

Lemma cmd_add_missing source decoy s :
  path_exists source (disk s) = Ok false →
  cmd_add source decoy s
  = (Ok (), shown s [Printed ("Source file not found: " +:+ path_str source)] 0).
Proof.
  intros Hd. unfold cmd_add, reading. rewrite C_bind_eq, Hd. cbv beta iota. cbn [negb].
  by rewrite print_run.
Qed.

Lemma cmd_add_unseen source decoy s e :
  path_exists source (disk s) = Raise e → cmd_add source decoy s = (Raise e, s).
Proof. intros Hd. unfold cmd_add, reading. by rewrite C_bind_eq, Hd. Qed.

(** The real branch of [cmd_add], by the lines typed and the outcome of the
    two attempts. *)
Lemma cmd_add_real_eq source s :
  let ask1 := Asked "Enter main password (L1): " in
  let ask2 := Asked "Enter L2 (secondary) or press Enter to cancel: " in
  let done := "Added '" +:+ path_name source +:+ "' to real vault." in
  path_exists source (disk s) = Ok true →
  cmd_add source false s =
    match typed s !! position s with
    | None => (Raise EOFError, shown s [ask1] 0)
    | Some l1 =>
        match (unlock_real l1 None (vault s)).1 with
        | Ok body => appending source body (save_real_items l1 None) done s [ask1] 1
        | Raise _ =>
            match typed s !! (position s + 1) with
            | None => (Raise EOFError, shown s [ask1; ask2] 1)
            | Some l2 =>
                if negb (truthy_opt (Some l2)) then
                  (Ok (), shown s [ask1; ask2; Printed "Unable to unlock real vault."] 2)
                else
                  match (unlock_real l1 (Some l2) (vault s)).1 with
                  | Ok body =>
                      appending source body (save_real_items l1 (Some l2)) done s
                        [ask1; ask2] 2
                  | Raise _ =>
                      (Ok (), shown s [ask1; ask2;
                                       Printed "Unable to unlock real vault. Aborting."] 2)
                  end
            end
        end
    end.
Proof.
  cbn zeta. intros Hd. unfold cmd_add.
  rewrite C_bind_eq, reading_run, Hd. cbv beta iota. cbn [negb]. cask; [|done]. crun.
  destruct (unlock_real _ None (vault s)).1 as [body|e].
  - rewrite C_bind_eq. cbn [mret C_ret]. cbv beta iota.
    by rewrite (appending_run _ _ (save_real_items _ _)).
  - rewrite C_bind_eq. cask; [|done].
    destruct (negb (truthy_opt _)).
    + by crun.
    + crun. destruct (unlock_real _ (Some _) (vault s)).1 as [body|e2].
      * cbn [mret C_ret]. cbv beta iota.
        by rewrite (appending_run _ _ (save_real_items _ _)).
      * by crun.
Qed.

Lemma cmd_add_decoy_eq source s :
  let ask := Asked "Enter decoy password: " in
  let done := "Added '" +:+ path_name source +:+ "' to decoy vault." in
  path_exists source (disk s) = Ok true →
  cmd_add source true s =
    match typed s !! position s with
    | None => (Raise EOFError, shown s [ask] 0)
    | Some password =>
        match (unlock_decoy password (vault s)).1 with
        | Ok body => appending source body (save_decoy_items password) done s [ask] 1
        | Raise _ => (Ok (), shown s [ask; Printed "Unable to unlock decoy. Aborting."] 1)
        end
    end.
Proof.
  cbn zeta. intros Hd. unfold cmd_add.
  rewrite C_bind_eq, reading_run, Hd. cbv beta iota. cbn [negb]. cask; [|done]. crun.
  destruct (unlock_decoy _ (vault s)).1 as [body|e].
  - by rewrite (appending_run _ _ (save_decoy_items _)).
  - by rewrite print_run, shown_shown.
Qed.

End CliAddFacts.

(** *** [cmd_export] *)

Definition not_found : event := Printed "File not found or unable to decrypt.".

Section CliExportDefs.
Context {L : Library} {P : Platform}.

(** The write of [cmd_export] and its announcement. *)
Definition exporting (fname outdir : string) (content : bytes) (s : session)
    : result bool * session :=
  let target := path_join outdir fname in
  match path_write_bytes target content (disk s) with
  | (Ok _, d) =>
      (Ok true,
       shown (with_disk s d) [Printed ("Exported '" +:+ fname +:+ "' -> " +:+ target)] 0)
  | (Raise e, d) => (Raise e, with_disk s d)
  end.

(** The search loop over the body of a vault. *)
Definition searching (fname outdir : string) (body : json) (s : session)
    : result bool * session :=
  match search_in fname body with
  | NotFound => (Ok false, s)
  | Failed e => (Raise e, s)
  | Found content => exporting fname outdir content s
  end.

(** The decoy part of [cmd_export]: whatever goes wrong after the password
    was read ends in the line [not_found]. *)
Definition decoy_part (fname outdir : string) (s : session) : result unit * session :=
  let ask := Asked "Enter decoy password to try decoy (or press Enter to skip): " in
  match typed s !! position s with
  | None => (Raise EOFError, shown s [ask] 0)
  | Some password =>
      if truthy_opt (Some password) then
        match (unlock_decoy password (vault s)).1 with
        | Ok body =>
            match searching fname outdir body (shown s [ask] 1) with
            | (Ok true, s') => (Ok (), s')
            | (_, s') => (Ok (), shown s' [not_found] 0)
            end
        | Raise _ => (Ok (), shown s [ask; not_found] 1)
        end
      else (Ok (), shown s [ask; not_found] 1)
  end.

(** The real part of [cmd_export] once the vault gave [body]. *)
Definition real_part (fname outdir : string) (body : json) (s : session)
    : result unit * session :=
  match body with
  | JNull => decoy_part fname outdir s
  | _ =>
      match searching fname outdir body s with
      | (Ok true, s') => (Ok (), s')
      | (Ok false, s') => decoy_part fname outdir s'
      | (Raise e, s') => (Raise e, s')
      end
  end.

End CliExportDefs.

Section CliExportFacts.
Context {L : Library} {P : Platform}.

Lemma writing_run (f : fs → result unit * fs) s :
  writing f s = ((f (disk s)).1, with_disk s (f (disk s)).2).
Proof. unfold writing, with_disk. by destruct (f (disk s)). Qed.

Lemma export_first_run fname outdir items s :
  export_first fname outdir items s =
    match search fname items with
    | NotFound => (Ok false, s)
    | Failed e => (Raise e, s)
    | Found content => exporting fname outdir content s
    end.
Proof.
  induction items as [|it rest IH]; [done|].
  cbn [export_first search]. rewrite C_bind_eq. unfold raise_or_return.
  destruct (dict_get it "name" JNull) as [n|e]; [|done]. cbv beta iota.
  destruct (py_eq_str n fname); [|exact IH].
  rewrite C_bind_eq.
  destruct (getitem it "data" ≫= _b64decode) as [content|e]; [|done]. cbv beta iota.
  unfold exporting. cbn zeta. rewrite C_bind_eq, writing_run.
  destruct (path_write_bytes _ content (disk s)) as [[[]|e] d]; cbn [fst snd]; [|done].
  by rewrite C_bind_eq, print_run.
Qed.

Lemma searching_run fname outdir body s :
  (elements ← raise_or_return (py_iter body); export_first fname outdir elements) s
  = searching fname outdir body s.
Proof.
  unfold searching, search_in. rewrite C_bind_eq. unfold raise_or_return.
  destruct (py_iter body) as [elements|e]; [|done]. apply export_first_run.
Qed.

Lemma decoy_part_run fname outdir (s : session) :
  (decoy_pw ← getpass "Enter decoy password to try decoy (or press Enter to skip): ";
   done ← (if truthy_opt (Some decoy_pw) then
             r ← attempt (items ← in_vault (unlock_decoy decoy_pw);
                          elements ← raise_or_return (py_iter items);
                          export_first fname outdir elements);
             match r with
             | Ok done => mret done
             | Raise _ => mret false
             end
           else mret false);
   if (done : bool) then mret ()
   else print "File not found or unable to decrypt.") s
  = decoy_part fname outdir s.
Proof.
  unfold decoy_part. cbn zeta. rewrite C_bind_eq, getpass_run.
  destruct (typed s !! position s) as [password|]; [|done]. cbv beta iota.
  destruct (truthy_opt (Some password)).
  - rewrite C_bind_eq, C_bind_eq, attempt_run, C_bind_eq, in_vault_shown.
    destruct (unlock_decoy password (vault s)) as [[body|e] w1] eqn:Hu; cbn [fst snd];
      rewrite (unlock_decoy_readonly _ _ _ _ Hu), with_vault_same.
    + rewrite searching_run.
      destruct (searching fname outdir body _) as [[[]|e] s']; cbn [fst snd];
        cbn [mret C_ret]; cbv beta iota; try done; by rewrite print_run.
    + cbn [mret C_ret]. cbv beta iota. by rewrite print_run, shown_shown.
  - rewrite C_bind_eq. cbn [mret C_ret]. cbv beta iota. by rewrite print_run, shown_shown.
Qed.

Lemma real_part_run fname outdir body (s : session) :
  (done ← match body with
          | JNull => mret false
          | _ =>
              elements ← raise_or_return (py_iter body);
              export_first fname outdir elements
          end;
   if (done : bool) then mret ()
   else
     decoy_pw ← getpass "Enter decoy password to try decoy (or press Enter to skip): ";
     done ← (if truthy_opt (Some decoy_pw) then
               r ← attempt (items ← in_vault (unlock_decoy decoy_pw);
                            elements ← raise_or_return (py_iter items);
                            export_first fname outdir elements);
               match r with
               | Ok done => mret done
               | Raise _ => mret false
               end
             else mret false);
     if (done : bool) then mret ()
     else print "File not found or unable to decrypt.") s
  = real_part fname outdir body s.
Proof.
  unfold real_part. rewrite C_bind_eq.
  destruct body; try apply decoy_part_run;
    rewrite searching_run;
    (destruct (searching fname outdir _ s) as [[[]|e] s']; [done|apply decoy_part_run|done]).
Qed.

Lemma real_part_null fname outdir s :
  real_part fname outdir JNull s = decoy_part fname outdir s.
Proof. done. Qed.

(** [cmd_export], by the outcome of [mkdir], the lines typed and the
    attempts on the real vault. *)
Lemma cmd_export_eq fname out s :
  let outdir := if truthy_opt (Some out) then out else "exports" in
  let ask1 := Asked "Enter main password (L1) to try real (or press Enter to skip): " in
  let ask2 := Asked "Enter L2 (secondary) or press Enter to skip: " in
  cmd_export fname out s =
    match path_mkdir outdir (disk s) with
    | (Raise e, d) => (Raise e, with_disk s d)
    | (Ok _, d) =>
        let s0 := with_disk s d in
        match typed s !! position s with
        | None => (Raise EOFError, shown s0 [ask1] 0)
        | Some l1 =>
            if truthy_opt (Some l1) then
              match (unlock_real l1 None (vault s)).1 with
              | Ok body => real_part fname outdir body (shown s0 [ask1] 1)
              | Raise _ =>
                  match typed s !! (position s + 1) with
                  | None => (Raise EOFError, shown s0 [ask1; ask2] 1)
                  | Some l2 =>
                      if truthy_opt (Some l2) then
                        match (unlock_real l1 (Some l2) (vault s)).1 with
                        | Ok body => real_part fname outdir body (shown s0 [ask1; ask2] 2)
                        | Raise _ => decoy_part fname outdir (shown s0 [ask1; ask2] 2)
                        end
                      else decoy_part fname outdir (shown s0 [ask1; ask2] 2)
                  end
              end
            else decoy_part fname outdir (shown s0 [ask1] 1)
        end
    end.
Proof.
  cbn zeta. unfold cmd_export. cbn zeta.
  generalize (if truthy_opt (Some out) then out else "exports"). intros outdir.
  rewrite C_bind_eq, writing_run.
  destruct (path_mkdir _ (disk s)) as [[[]|e] d]; cbn [fst snd]; [|done].
  set (s0 := with_disk s d).
  change (typed s) with (typed s0). change (position s) with (position s0).
  change (vault s) with (vault s0). clearbody s0.
  cask; [|done].
  destruct (truthy_opt (Some _)).
  - rewrite C_bind_eq, C_bind_eq. rewrite attempt_unlock_real.
    cbv beta iota. cbn [typed position vault disk screen shown with_disk with_vault].
    destruct (unlock_real _ None (vault s0)).1 as [body|e].
    + cbn [mret C_ret]. cbv beta iota. rewrite <- real_part_run. by rewrite C_bind_eq.
    + rewrite C_bind_eq. cask; [|done].
      destruct (truthy_opt (Some _)).
      * crun. destruct (unlock_real _ (Some _) (vault s0)).1 as [body|e2].
        -- cbn [mret C_ret]. cbv beta iota. rewrite <- real_part_run. by rewrite C_bind_eq.
        -- cbn [mret C_ret]. cbv beta iota.
           rewrite <- real_part_null, <- real_part_run. by rewrite C_bind_eq.
      * cbn [mret C_ret]. cbv beta iota.
        rewrite <- real_part_null, <- real_part_run. by rewrite C_bind_eq.
  - rewrite C_bind_eq. cbn [mret C_ret]. cbv beta iota. apply decoy_part_run.
Qed.

End CliExportFacts.

(** *** [cmd_init] *)

(** What [cmd_init] shows before the choice of the second factor is read. *)
Definition menu : list event :=
  [Printed "Set up second factor (L2). Choose one:";
   Printed "  1) Use another password (typed now)";
   Printed "  2) Use a recovery key (string) that you will save offline";
   Printed "  3) No second factor (not recommended for sensitive items)";
   Asked "Choose 1/2/3 [default 2]: "].

(** The recovery key that [cmd_init] generates in the vault state [w]. *)
Definition recovery_key {L : Library} (w : world) : string :=
  b64text (window (entropy w) (cursor w) 24).

Section CliInitDefs.
Context {L : Library} {P : Platform}.

(** The second-factor dialogue, by the lines typed. *)
Definition choosing (s : session) : result (option (option string)) * session :=
  let ask := Asked "Enter L2 password: " in
  let confirm := Asked "Confirm L2 password: " in
  match typed s !! position s with
  | None => (Raise EOFError, shown s menu 0)
  | Some answer =>
      let choice :=
        if truthy_opt (Some (str_strip answer)) then str_strip answer else "2" in
      if String.eqb choice "1" then
        match typed s !! (position s + 1) with
        | None => (Raise EOFError, shown s (menu ++ [ask]) 1)
        | Some l2 =>
            match typed s !! (position s + 2) with
            | None => (Raise EOFError, shown s (menu ++ [ask; confirm]) 2)
            | Some l2_confirm =>
                if negb (String.eqb l2 l2_confirm) then
                  (Ok None,
                   shown s (menu ++ [ask; confirm; Printed "L2 mismatch. Aborting."]) 3)
                else (Ok (Some (Some l2)), shown s (menu ++ [ask; confirm]) 3)
            end
        end
      else if String.eqb choice "2" then
        (Ok (Some (Some (recovery_key (vault s)))),
         shown (with_vault s (advance (vault s) 24))
           (menu ++ [Printed "Recovery key (save this somewhere safe):";
                     Printed (recovery_key (vault s))]) 1)
      else (Ok (Some None), shown s menu 1)
  end.

(** The end of [cmd_init] once the second factor [l2] is chosen. *)
Definition finishing (l1 : string) (l2 : option string) (s : session)
    : result unit * session :=
  let ask := Asked "Enter decoy password (for fake vault): " in
  let confirm := Asked "Confirm decoy password: " in
  match typed s !! position s with
  | None => (Raise EOFError, shown s [ask] 0)
  | Some decoy =>
      match typed s !! (position s + 1) with
      | None => (Raise EOFError, shown s [ask; confirm] 1)
      | Some decoy_confirm =>
          if negb (String.eqb decoy decoy_confirm) then
            (Ok (), shown s [ask; confirm; Printed "Decoy password mismatch. Aborting."] 2)
          else
            (Ok (),
             shown (with_vault s (initialized l1 l2 decoy (vault s)))
               [ask; confirm;
                Printed ("Zentry initialized. Vault files created in: " +:+ store_path)] 2)
      end
  end.

End CliInitDefs.

Section CliInitFacts.
Context {L : Library} {P : Platform}.

Lemma choose_l2_run s : choose_l2 s = choosing s.
Proof.
  unfold choose_l2, choosing, input. cbn zeta. crun. crun. crun. crun.
  rewrite C_bind_eq, getpass_run.
  cbn [typed position vault disk screen shown]. rewrite ?Nat.add_0_r.
  destruct (typed s !! position s) as [answer|]; [|by rewrite shown_shown].
  cbv beta iota. rewrite shown_shown. cbn [Nat.add app].
  destruct (String.eqb _ "1").
  - rewrite C_bind_eq, getpass_run.
    cbn [typed position vault disk screen shown].
    destruct (typed s !! (position s + 1)) as [l2|]; [|by rewrite shown_shown].
    cbv beta iota. rewrite shown_shown. cbn [Nat.add app].
    rewrite C_bind_eq, getpass_run.
    cbn [typed position vault disk screen shown].
    destruct (typed s !! (position s + 2)) as [l2_confirm|]; [|by rewrite shown_shown].
    cbv beta iota. rewrite shown_shown. cbn [Nat.add app].
    destruct (negb (String.eqb l2 l2_confirm)); [by crun|done].
  - destruct (String.eqb _ "2"); [|done].
    rewrite C_bind_eq, in_vault_shown, os_urandom_run. cbn [fst snd].
    rewrite C_bind_eq. unfold raise_or_return. rewrite b64encode_run.
    crun. by crun.
Qed.

Lemma finishing_run l1 l2 s :
  (decoy ← getpass "Enter decoy password (for fake vault): ";
   decoy_confirm ← getpass "Confirm decoy password: ";
   if negb (String.eqb decoy decoy_confirm) then
     print "Decoy password mismatch. Aborting."
   else
     in_vault (init_new l1 l2 decoy);;
     print ("Zentry initialized. Vault files created in: " +:+ store_path)) s
  = finishing l1 l2 s.
Proof.
  unfold finishing. cbn zeta. rewrite C_bind_eq, getpass_run.
  destruct (typed s !! position s) as [decoy|]; [|done]. cbv beta iota.
  rewrite C_bind_eq, getpass_run. cbn [typed position vault disk screen shown].
  destruct (typed s !! (position s + 1)) as [decoy_confirm|]; [|by rewrite shown_shown].
  cbv beta iota. rewrite shown_shown. cbn [Nat.add app].
  destruct (negb (String.eqb decoy decoy_confirm)).
  - by rewrite print_run, shown_shown.
  - rewrite C_bind_eq, in_vault_shown, init_new_run. cbn [fst snd].
    by rewrite print_run, shown_shown.
Qed.

Lemma cmd_init_eq s :
  let intro := Printed "Zentry initialization — choose strong passwords." in
  let ask := Asked "Enter main password (L1): " in
  let confirm := Asked "Confirm main password: " in
  cmd_init s =
    match typed s !! position s with
    | None => (Raise EOFError, shown s [intro; ask] 0)
    | Some l1 =>
        match typed s !! (position s + 1) with
        | None => (Raise EOFError, shown s [intro; ask; confirm] 1)
        | Some l1_confirm =>
            if negb (String.eqb l1 l1_confirm) then
              (Ok (), shown s [intro; ask; confirm;
                               Printed "Passwords did not match. Aborting."] 2)
            else
              match choosing (shown s [intro; ask; confirm] 2) with
              | (Raise e, s') => (Raise e, s')
              | (Ok None, s') => (Ok (), s')
              | (Ok (Some l2), s') => finishing l1 l2 s'
              end
        end
    end.
Proof.
  cbn zeta. unfold cmd_init. crun.
  rewrite C_bind_eq, getpass_run.
  cbn [typed position vault disk screen shown]. rewrite ?Nat.add_0_r.
  destruct (typed s !! position s) as [l1|]; [|by rewrite shown_shown].
  cbv beta iota. rewrite shown_shown. cbn [Nat.add app].
  rewrite C_bind_eq, getpass_run.
  cbn [typed position vault disk screen shown].
  destruct (typed s !! (position s + 1)) as [l1_confirm|]; [|by rewrite shown_shown].
  cbv beta iota. rewrite shown_shown. cbn [Nat.add app].
  destruct (negb (String.eqb l1 l1_confirm)).
  - by rewrite print_run, shown_shown.
  - rewrite C_bind_eq, choose_l2_run.
    destruct (choosing _) as [[[l2|]|e] s']; [|done|done].
    apply finishing_run.
Qed.

(** After [init_new] with L2 the L1 password alone is told to bring L2. *)
Lemma unlock_real_initialized_l1_only l1 l2 decoy w :
  l2 ≠ EmptyString →
  let w' := initialized l1 (Some l2) decoy w in
  unlock_real l1 None w' = (Raise SecondFactorRequired, w').
Proof.
  intros Hl2. cbn zeta.
  pose proof (real_store_requires_l2 l1 (Some l2) w) as Hreq.
  rewrite truthy_opt_Some in Hreq by done.
  rewrite (unlock_real_eq _ _ _ _ (real_store_lookup l1 (Some l2) decoy w)).
  by rewrite (recover_cek_second_factor true _ l1 None (real_cek w) Hreq
                (real_store_unwrap_l1 _ _ _)).
Qed.

End CliInitFacts.

(** *** Unlocking, appending, searching *)

(** An object that the search for [fname] passes over. *)
Definition other_object (fname : string) (v : json) : Prop :=
  ∃ d, v = JDict d ∧ d !! "name" ≠ Some (JStr fname).

Definition is_list (v : json) : bool :=
  match v with JList _ => true | _ => false end.

(** The dialogue of the real vault as [cmd_add] and [cmd_export] hold it
    with the session [s]: the next line is [l1]; either it unlocks the vault
    alone ([l2] is [None]), or it does not, the line after it is not empty,
    and both together unlock the vault. *)
Definition real_opens {L : Library} {P : Platform} (s : session) (l1 : string)
    (l2 : option string) (body : json) : Prop :=
  typed s !! position s = Some l1 ∧
  match l2 with
  | None => (unlock_real l1 None (vault s)).1 = Ok body
  | Some p =>
      (∃ e, (unlock_real l1 None (vault s)).1 = Raise e) ∧
      typed s !! (position s + 1) = Some p ∧
      p ≠ EmptyString ∧
      (unlock_real l1 (Some p) (vault s)).1 = Ok body
  end.

(** Finds an element in a list that is written out. *)
Ltac among := repeat first [apply list_elem_of_here | apply list_elem_of_further].

Section CliHelpers.
Context {L : Library}.

Lemma append_then_unlock_real l1 l2 items it w :
  (unlock_real l1 l2 w).1 = Ok (JList items) →
  let saved := save_real_items l1 l2 (JList (items ++ [it])) w in
  saved.1 = Ok () ∧ unlock_real l1 l2 saved.2 = (Ok (JList (items ++ [it])), saved.2).
Proof.
  destruct (unlock_real l1 l2 w) as [r w1] eqn:Hu. cbn [fst]. intros ->. cbn zeta.
  destruct (unlock_then_save_real _ _ _ (JList (items ++ [it])) _ _ Hu) as [w' Hs].
  destruct (unlock_real_Ok _ _ _ _ _ Hu) as (_ & d & cek & Hfile & _).
  rewrite Hs. cbn [fst snd]. split; [done|]. by eapply save_then_unlock_real.
Qed.

Lemma append_then_unlock_decoy password items it w :
  (unlock_decoy password w).1 = Ok (JList items) →
  let saved := save_decoy_items password (JList (items ++ [it])) w in
  saved.1 = Ok () ∧ unlock_decoy password saved.2 = (Ok (JList (items ++ [it])), saved.2).
Proof.
  destruct (unlock_decoy password w) as [r w1] eqn:Hu. cbn [fst]. intros ->. cbn zeta.
  destruct (unlock_then_save_decoy _ _ (JList (items ++ [it])) _ _ Hu) as [w' Hs].
  destruct (unlock_decoy_Ok _ _ _ _ Hu) as (_ & d & cek & Hfile & _).
  rewrite Hs. cbn [fst snd]. split; [done|]. by eapply save_then_unlock_decoy.
Qed.

(** Who has unlocked can save, whatever the new body. *)
Lemma unlocked_saves_real l1 l2 body items w :
  (unlock_real l1 l2 w).1 = Ok body → (save_real_items l1 l2 items w).1 = Ok ().
Proof.
  destruct (unlock_real l1 l2 w) as [r w1] eqn:Hu. cbn [fst]. intros ->.
  destruct (unlock_then_save_real _ _ _ items _ _ Hu) as [w' ->]. done.
Qed.

Lemma unlocked_saves_decoy password body items w :
  (unlock_decoy password w).1 = Ok body → (save_decoy_items password items w).1 = Ok ().
Proof.
  destruct (unlock_decoy password w) as [r w1] eqn:Hu. cbn [fst]. intros ->.
  destruct (unlock_then_save_decoy _ _ items _ _ Hu) as [w' ->]. done.
Qed.

(** The key that the recovery returns is the one that L1 unwraps, whatever
    L2 is. *)
Lemma recover_cek_same_key quiet store l1 l2 l2' cek cek' :
  recover_cek quiet store l1 l2 = Ok cek →
  recover_cek quiet store l1 l2' = Ok cek' →
  cek = cek'.
Proof.
  unfold recover_cek.
  destruct (dict_get store "policy" _) as [policy|]; [binds|done].
  destruct (dict_get policy "requires_l2" _) as [r|]; [binds|done].
  destruct (guarded quiet (unwrap_field store "wrapped_l1" l1)) as [k|]; [binds|done].
  intros H1 H2.
  apply bind_Ok_inv in H1 as (_ & _ & [= <-]).
  by apply bind_Ok_inv in H2 as (_ & _ & [= <-]).
Qed.

(** A save does not make another L2 argument work. *)
Lemma unlock_real_still_fails l1 l2 l2' old items w e :
  (unlock_real l1 l2 w).1 = Ok old →
  (unlock_real l1 l2' w).1 = Raise e →
  ∃ e', (unlock_real l1 l2' (save_real_items l1 l2 items w).2).1 = Raise e'.
Proof.
  intros Hok Hfail.
  destruct (unlock_real l1 l2 w) as [r w1] eqn:Hu. cbn [fst] in Hok. subst r.
  destruct (unlock_then_save_real _ _ _ items _ _ Hu) as [w' Hs].
  destruct (unlock_real_Ok _ _ _ _ _ Hu) as (_ & d & cek & Hfile & Hcek & Hopen).
  destruct (save_real_items_Ok _ _ _ _ _ _ Hfile Hs) as (d' & k & aes & [= <-] & Hk & _ & ->).
  rewrite Hs. cbn [snd].
  rewrite (unlock_real_eq _ _ _ _ Hfile) in Hfail. cbn [fst] in Hfail.
  erewrite unlock_real_eq; last by apply lookup_insert_eq. cbn [fst].
  rewrite recover_cek_blob.
  destruct (recover_cek true (JDict d) l1 l2') as [cek'|e0] eqn:Hcek'; [|by eauto].
  rewrite (recover_cek_same_key _ _ _ _ _ _ _ Hcek' Hcek) in Hfail.
  binds. rewrite result_bind_Ok in Hfail. by rewrite Hopen in Hfail.
Qed.

Lemma other_object_skipped fname v :
  other_object fname v →
  ∃ n, dict_get v "name" JNull = Ok n ∧ py_eq_str n fname = false.
Proof.
  intros (d & -> & Hd). cbn [dict_get]. eexists. split; [done|].
  destruct (d !! "name") as [[| | | |t| |]|] eqn:Hn; cbn; try done.
  apply String.eqb_neq. intros ->. by apply Hd.
Qed.

Lemma search_others fname pre rest :
  Forall (other_object fname) pre → search fname (pre ++ rest) = search fname rest.
Proof.
  induction 1 as [|v pre Hv _ IH]; [done|].
  cbn [app search]. destruct (other_object_skipped _ _ Hv) as (n & -> & ->). exact IH.
Qed.

Lemma search_here fname d post :
  d !! "name" = Some (JStr fname) →
  search fname (JDict d :: post) =
    match getitem (JDict d) "data" ≫= _b64decode with
    | Ok content => Found content
    | Raise e => Failed e
    end.
Proof.
  intros Hd. cbn [search dict_get]. rewrite Hd.
  change (default JNull (Some (JStr fname))) with (JStr fname). cbn [py_eq_str].
  by rewrite String.eqb_refl.
Qed.

Lemma search_item name type content post :
  search name (item name type (b64text content) :: post) = Found content.
Proof.
  unfold item. rewrite search_here by (by lookups).
  unfold getitem. lookups. binds. by rewrite b64decode_run.
Qed.

(** The exceptions of the search loop. *)
Lemma search_fails fname items e :
  search fname items = Failed e →
  e ∈ [AttributeError; KeyError "data"; UnicodeError; BinasciiError].
Proof.
  induction items as [|it rest IH]; [done|]. cbn [search].
  destruct (dict_get it "name" JNull) as [n|e0] eqn:Hn.
  - destruct (py_eq_str n fname); [|exact IH].
    destruct (getitem it "data" ≫= _b64decode) as [c|e0] eqn:Hd; [done|].
    intros [= <-]. destruct it; try done. cbn [getitem] in Hd.
    destruct (d !! "data") as [v|]; [|injection Hd as <-; among].
    rewrite result_bind_Ok in Hd. destruct v; try (injection Hd as <-; among).
    cbn [_b64decode] in Hd. unfold str_encode_ascii in Hd.
    destruct (forallb _ _); [|injection Hd as <-; among].
    rewrite result_bind_Ok in Hd. destruct (urlsafe_b64decode _); [done|].
    injection Hd as <-. among.
  - intros [= <-]. destruct it; try done; injection Hn as <-; among.
Qed.

Lemma search_in_fails fname body e :
  search_in fname body = Failed e →
  e ∈ [TypeError; AttributeError; KeyError "data"; UnicodeError; BinasciiError].
Proof.
  unfold search_in. destruct (py_iter body) as [elements|e0] eqn:Hi.
  - intros He. apply elem_of_cons. right. by eapply search_fails.
  - intros [= <-]. destruct body; try done; injection Hi as <-; among.
Qed.

End CliHelpers.

(** Sessions to run the commands in. *)
Module Sessions.
Import Model Terminal.

Definition hello : bytes := list_byte_of_string "hello".

(** The two-level vault, a user who types both passwords, a file to add. *)
Definition adding : session :=
  start Scenario.two_level ["a1"; "a2"] (<["f.txt" := hello]> ∅).

Definition added : session := (cmd_add "f.txt" false adding).2.

(** The same user listing and exporting after the file was added. *)
Definition listing : session := start (vault added) ["a1"; "a2"] ∅.

Definition re_exporting : session := start (vault added) ["a1"; "a2"] ∅.

(** A user who types a wrong L1 password and some L2 password, one who types
    the right L1 password and a wrong L2 password, one who types nothing. *)
Definition wrong_l1 : session := start Scenario.two_level ["oops"; "a2"] ∅.

Definition wrong_l2 : session := start Scenario.two_level ["a1"; "oops"] ∅.

Definition silent : session := start Scenario.two_level [] ∅.

(** The single-level vault with a body of this or that shape. *)
Definition holding (body : json) : world :=
  (save_real_items "alpha" None body Scenario.single).2.

(** Two items of the same name. *)
Definition twins : json :=
  JList [item "a.txt" "file" (b64text (list_byte_of_string "first"));
         item "b.txt" "file" (b64text hello);
         item "a.txt" "file" (b64text (list_byte_of_string "second"))].

Definition exporting : session := start (holding twins) ["alpha"] ∅.

(** The same export when [exports] is a regular file. *)
Definition blocked : session :=
  start (holding twins) ["alpha"] (<["exports" := hello]> ∅).

(** An item whose data is not base64 text. *)
Definition garbled : json := JList [item "a.txt" "file" "not base64!"].

Definition garbled_exporting : session := start (holding garbled) ["alpha"] ∅.

(** A body that is a list of numbers, and a body that is an object. *)
Definition numbers_listing : session := start (holding (JList [JInt 1])) ["alpha"] ∅.

Definition object_adding : session :=
  start (holding (JDict ∅)) ["alpha"] (<["f.txt" := hello]> ∅).

(** The single-level vault, its user and a file to add; then the same user
    exporting what was added. *)
Definition single_adding : session :=
  start Scenario.single ["alpha"] (<["f.txt" := hello]> ∅).

Definition single_added : session := (cmd_add "f.txt" false single_adding).2.

Definition single_exporting : session := start (vault single_added) ["alpha"] ∅.

(** The user of the decoy vault adding the same file. *)
Definition decoy_adding : session :=
  start Scenario.single ["beta"] (<["f.txt" := hello]> ∅).

(** Users of [cmd_init]: one takes the default second factor, one chooses a
    typed L2 password and leaves it empty, one mistypes the confirmation of
    L1, one that of the decoy password. *)
Definition default_init : session :=
  start fresh_world ["p"; "p"; EmptyString; "d"; "d"] ∅.

Definition typed_init : session :=
  start fresh_world ["p"; "p"; "1"; EmptyString; EmptyString; "d"; "d"] ∅.

Definition mistyped_init : session := start fresh_world ["p"; "q"] ∅.

Definition mistyped_decoy : session := start fresh_world ["p"; "p"; "2"; "d"; "e"] ∅.

End Sessions.

(** ** Properties of cli.py *)

(** X18. [cmd_list] only reads: whatever is typed, whatever the vault
    directory holds and whatever the outcome, the vault and the files
    around it are as they were.  It lets two kinds of exception through:
    [EOFError] when the input ends at a prompt, and, after an unlock has
    returned a body that is not a list of objects, the [TypeError] or
    [AttributeError] of the listing loop. *)
Theorem cmd_list_is_read_only {L : Library} {P : Platform} decoy s :
  vault (cmd_list decoy s).2 = vault s ∧
  disk (cmd_list decoy s).2 = disk s ∧
  typed (cmd_list decoy s).2 = typed s ∧
  ∀ e, (cmd_list decoy s).1 = Raise e →
       e = EOFError ∨
       ((e = TypeError ∨ e = AttributeError) ∧
        ∃ password body,
          typed s !! position s = Some password ∧
          is_objects body = false ∧
          if decoy then (unlock_decoy password (vault s)).1 = Ok body
          else ∃ l2, (unlock_real password l2 (vault s)).1 = Ok body).
Proof.
  destruct decoy.
  - rewrite cmd_list_decoy_eq. cbn zeta.
    destruct (typed s !! position s) as [password|].
    2: { repeat (split; [done|]). intros ? [= <-]. by left. }
    destruct (unlock_decoy _ _).1 as [body|] eqn:Hu.
    2: { by repeat (split; [done|]). }
    unfold ended. cbn [fst snd]. repeat (split; [done|]). intros err He. right.
    destruct (listed body).2 as [err'|] eqn:Hl; [|done]. injection He as ->.
    destruct (listed_raises _ _ Hl) as [? ?]. split; [done|]. by exists password, body.
  - rewrite cmd_list_real_eq. cbn zeta.
    destruct (typed s !! position s) as [l1|].
    2: { repeat (split; [done|]). intros ? [= <-]. by left. }
    destruct (unlock_real _ None _).1 as [body|] eqn:H1.
    + unfold ended. cbn [fst snd]. repeat (split; [done|]). intros err He. right.
      destruct (listed body).2 as [err'|] eqn:Hl; [|done]. injection He as ->.
      destruct (listed_raises _ _ Hl) as [? ?]. split; [done|]. exists l1, body. eauto.
    + destruct (typed s !! (position s + 1)) as [l2|].
      2: { repeat (split; [done|]). intros ? [= <-]. by left. }
      destruct (negb _); [by repeat (split; [done|])|].
      destruct (unlock_real _ (Some _) _).1 as [body|] eqn:H2.
      2: { by repeat (split; [done|]). }
      unfold ended. cbn [fst snd]. repeat (split; [done|]). intros err He. right.
      destruct (listed body).2 as [err'|] eqn:Hl; [|done]. injection He as ->.
      destruct (listed_raises _ _ Hl) as [? ?]. split; [done|]. exists l1, body. eauto.
Qed.

Lemma cmd_list_is_read_only_witness :
  (cmd_list (L:=Model.library) (P:=Terminal.platform) false Sessions.numbers_listing).1
  = Raise AttributeError ∧
  ∃ body, is_objects body = false ∧
          ∃ l2, (unlock_real (L:=Model.library) "alpha" l2
                   (vault Sessions.numbers_listing)).1 = Ok body.
Proof.
  split; [vm_compute; reflexivity|].
  destruct (cmd_list_is_read_only (L:=Model.library) (P:=Terminal.platform) false
              Sessions.numbers_listing) as (_ & _ & _ & Hraise).
  destruct (Hraise AttributeError) as [He|[_ (password & body & Hp & Hb & Hu)]].
  - vm_compute. reflexivity.
  - discriminate He.
  - injection Hp as <-. by exists body.
Defined.

(** X19. A failed listing of the real vault looks the same whatever went
    wrong.  When the first attempt (L1 alone) fails, for any reason, the L2
    prompt follows; when the L2 line is empty or the second attempt fails,
    for any reason, the transcript is the two prompts and "Unable to unlock
    real vault.". *)
Theorem cmd_list_failure_is_uniform {L : Library} {P : Platform} s l1 l2 e1 :
  typed s !! position s = Some l1 →
  typed s !! (position s + 1) = Some l2 →
  (unlock_real l1 None (vault s)).1 = Raise e1 →
  l2 = EmptyString ∨ (∃ e2, (unlock_real l1 (Some l2) (vault s)).1 = Raise e2) →
  cmd_list false s =
    (Ok (), shown s [Asked "Enter main password (L1): ";
                     Asked "Enter L2 (secondary) or press Enter to cancel: ";
                     Printed "Unable to unlock real vault."] 2).
Proof.
  intros Hl1 Hl2 H1 H2. rewrite cmd_list_real_eq. cbn zeta. rewrite Hl1, H1, Hl2.
  destruct H2 as [->|[e2 ->]]; [done|]. by destruct (negb _).
Qed.

Lemma cmd_list_failure_is_uniform_witness :
  cmd_list (L:=Model.library) (P:=Terminal.platform) false Sessions.wrong_l1
  = (Ok (), shown Sessions.wrong_l1
              [Asked "Enter main password (L1): ";
               Asked "Enter L2 (secondary) or press Enter to cancel: ";
               Printed "Unable to unlock real vault."] 2) ∧
  screen (cmd_list (L:=Model.library) (P:=Terminal.platform) false Sessions.wrong_l2).2
  = screen (cmd_list (L:=Model.library) (P:=Terminal.platform) false Sessions.wrong_l1).2.
Proof.
  assert (cmd_list (L:=Model.library) (P:=Terminal.platform) false Sessions.wrong_l1
          = (Ok (), shown Sessions.wrong_l1
                      [Asked "Enter main password (L1): ";
                       Asked "Enter L2 (secondary) or press Enter to cancel: ";
                       Printed "Unable to unlock real vault."] 2)) as H1.
  { apply (cmd_list_failure_is_uniform _ "oops" "a2" AuthenticationFailed).
    - reflexivity.
    - reflexivity.
    - vm_compute. reflexivity.
    - right. exists AuthenticationFailed. vm_compute. reflexivity. }
  split; [exact H1|]. rewrite H1.
  rewrite (cmd_list_failure_is_uniform (L:=Model.library) (P:=Terminal.platform)
             Sessions.wrong_l2 "a1" "oops" SecondFactorRequired).
  - reflexivity.
  - reflexivity.
  - reflexivity.
  - vm_compute. reflexivity.
  - right. exists AuthenticationFailed. vm_compute. reflexivity.
Defined.

(** X20. A successful listing of a body that is a list of objects prints one
    line per object, in the order of the list, after the heading; the line
    shows the value under ["name"], and the name itself when that is a
    string.  This holds at the first attempt when L1 alone unlocks, at the
    second when L1 alone fails and L1 with the typed L2 unlocks, and for the
    decoy vault when the typed password unlocks it. *)
Theorem cmd_list_prints_names {L : Library} {P : Platform} s objects l1 :
  typed s !! position s = Some l1 →
  ((unlock_real l1 None (vault s)).1 = Ok (JList (JDict <$> objects)) →
   cmd_list false s =
     (Ok (), shown s (Asked "Enter main password (L1): "
                      :: Printed "Files in real vault:" :: name_lines objects) 1)) ∧
  (∀ e l2, (unlock_real l1 None (vault s)).1 = Raise e →
   typed s !! (position s + 1) = Some l2 →
   l2 ≠ EmptyString →
   (unlock_real l1 (Some l2) (vault s)).1 = Ok (JList (JDict <$> objects)) →
   cmd_list false s =
     (Ok (), shown s (Asked "Enter main password (L1): "
                      :: Asked "Enter L2 (secondary) or press Enter to cancel: "
                      :: Printed "Files in real vault:" :: name_lines objects) 2)) ∧
  ((unlock_decoy l1 (vault s)).1 = Ok (JList (JDict <$> objects)) →
   cmd_list true s =
     (Ok (), shown s (Asked "Enter decoy password: "
                      :: Printed "Files in decoy vault:" :: name_lines objects) 1)) ∧
  (∀ name type data, name_lines [<["name" := JStr name]> (<["type" := type]> data)]
                     = [Printed (" - " +:+ name)]).
Proof.
  intros Hl1. split; [|split; [|split]].
  - intros H1. rewrite cmd_list_real_eq. cbn zeta. rewrite Hl1, H1.
    unfold ended. rewrite listed_objects. cbn [fst snd].
    by rewrite shown_shown.
  - intros e l2 H1 Hl2 Hne H2. rewrite cmd_list_real_eq. cbn zeta.
    rewrite Hl1, H1, Hl2, H2, truthy_opt_Some by done. cbn [negb].
    unfold ended. rewrite listed_objects. cbn [fst snd].
    by rewrite shown_shown.
  - intros H1. rewrite cmd_list_decoy_eq. cbn zeta. rewrite Hl1, H1.
    unfold ended. rewrite listed_objects. cbn [fst snd].
    by rewrite shown_shown.
  - intros name type data. unfold name_lines. cbn [fmap list_fmap].
    rewrite lookup_insert_eq. change (default JNull (Some (JStr name))) with (JStr name).
    by rewrite py_str_str.
Qed.

Lemma cmd_list_prints_names_witness :
  screen (cmd_list (L:=Model.library) (P:=Terminal.platform) false Sessions.listing).2
  = [Asked "Enter main password (L1): ";
     Asked "Enter L2 (secondary) or press Enter to cancel: ";
     Printed "Files in real vault:"; Printed " - f.txt"].
Proof.
  destruct (cmd_list_prints_names (L:=Model.library) (P:=Terminal.platform)
              Sessions.listing
              [<["name" := JStr "f.txt"]>
                 (<["type" := JStr "file"]>
                    (<["data" := JStr (b64text (L:=Model.library) Sessions.hello)]> ∅))]
              "a1") as (_ & Hretry & _ & _).
  - reflexivity.
  - rewrite (Hretry SecondFactorRequired "a2").
    + reflexivity.
    + vm_compute. reflexivity.
    + reflexivity.
    + discriminate.
    + vm_compute. reflexivity.
Defined.

Section CliAddHelpers.
Context {L : Library} {P : Platform}.

(** Appending to a list that the passwords have unlocked. *)
Lemma appending_list source content items (save : json → M unit) done s evs n :
  path_read_bytes source (disk s) = Ok content →
  (save (JList (items ++ [added_item source content])) (vault s)).1 = Ok () →
  appending source (JList items) save done s evs n
  = (Ok (), shown (with_vault s (save (JList (items ++ [added_item source content]))
                                   (vault s)).2)
              (evs ++ [Printed done]) n).
Proof.
  intros Hread Hsave. unfold appending. rewrite Hread. cbn [py_append]. cbn zeta.
  by rewrite Hsave.
Qed.

(** What the appending leaves and how it can fail, for a save that writes
    the file [target] only and succeeds. *)
Lemma appending_facts source body (save : json → M unit) done s evs n target :
  (∀ items path, path ≠ target →
     files (save items (vault s)).2 !! path = files (vault s) !! path) →
  (∀ items, (save items (vault s)).1 = Ok ()) →
  disk (appending source body save done s evs n).2 = disk s ∧
  typed (appending source body save done s evs n).2 = typed s ∧
  (∀ path, path ≠ target →
     files (vault (appending source body save done s evs n).2) !! path
     = files (vault s) !! path) ∧
  ∀ e, (appending source body save done s evs n).1 = Raise e →
       vault (appending source body save done s evs n).2 = vault s ∧
       (path_read_bytes source (disk s) = Raise e ∨
        (e = AttributeError ∧ is_list body = false)).
Proof.
  intros Hframe Hsave. unfold appending.
  destruct (path_read_bytes source (disk s)) as [content|e0].
  2: { do 3 (split; [done|]). intros ? [= <-]. auto. }
  destruct (py_append body) as [append|e0] eqn:Happ.
  2: { do 3 (split; [done|]). intros ? [= <-]. split; [done|]. right.
       destruct body; try done; by injection Happ as <-. }
  cbn zeta. rewrite Hsave. cbn [fst snd vault shown with_vault disk typed].
  split; [done|]. split; [done|]. split; [|done]. intros path Hpath. by apply Hframe.
Qed.

End CliAddHelpers.

(** X21. [cmd_add] appends to the real vault.  When the source can be read,
    the body of the vault is a list, and the typed L1 password alone
    unlocks the vault, or it does not and the typed L1 and L2 passwords
    together do, the command returns normally and the next [unlock_real]
    with the same passwords returns the old elements followed by one new
    item: the name of the source file, the type "file", the base64 text of
    its bytes. *)
Theorem cmd_add_appends {L : Library} {P : Platform} source content s items l1 :
  let it := added_item source content in
  path_exists source (disk s) = Ok true →
  path_read_bytes source (disk s) = Ok content →
  typed s !! position s = Some l1 →
  ((unlock_real l1 None (vault s)).1 = Ok (JList items) →
   ∃ s', cmd_add source false s = (Ok (), s') ∧
         unlock_real l1 None (vault s') = (Ok (JList (items ++ [it])), vault s') ∧
         position s' = position s + 1) ∧
  (∀ e l2, (unlock_real l1 None (vault s)).1 = Raise e →
   typed s !! (position s + 1) = Some l2 →
   l2 ≠ EmptyString →
   (unlock_real l1 (Some l2) (vault s)).1 = Ok (JList items) →
   ∃ s', cmd_add source false s = (Ok (), s') ∧
         unlock_real l1 (Some l2) (vault s') = (Ok (JList (items ++ [it])), vault s') ∧
         position s' = position s + 2).
Proof.
  cbn zeta. intros Hd Hread Hl1. split.
  - intros Hu. rewrite (cmd_add_real_eq _ _ Hd). cbn zeta. rewrite Hl1, Hu.
    destruct (append_then_unlock_real _ _ _ (added_item source content) _ Hu)
      as [Hsave Hnext].
    rewrite (appending_list _ _ _ (save_real_items l1 None) _ _ _ _ Hread Hsave).
    eexists. split; [done|]. split; [|done]. exact Hnext.
  - intros e l2 H1 Hl2 Hne H2. rewrite (cmd_add_real_eq _ _ Hd). cbn zeta.
    rewrite Hl1, H1, Hl2, truthy_opt_Some by done. cbn [negb]. rewrite H2.
    destruct (append_then_unlock_real _ _ _ (added_item source content) _ H2)
      as [Hsave Hnext].
    rewrite (appending_list _ _ _ (save_real_items l1 (Some l2)) _ _ _ _ Hread Hsave).
    eexists. split; [done|]. split; [|done]. exact Hnext.
Qed.

Lemma cmd_add_appends_witness :
  unlock_real (L:=Model.library) "a1" (Some "a2") (vault Sessions.added)
  = (Ok (JList [added_item (L:=Model.library) (P:=Terminal.platform) "f.txt" Sessions.hello]),
     vault Sessions.added).
Proof.
  destruct (cmd_add_appends (L:=Model.library) (P:=Terminal.platform)
              "f.txt" Sessions.hello Sessions.adding [] "a1") as [_ Hretry].
  - reflexivity.
  - reflexivity.
  - reflexivity.
  - destruct (Hretry SecondFactorRequired "a2") as (s' & Hadd & Hu & _).
    + vm_compute. reflexivity.
    + reflexivity.
    + discriminate.
    + vm_compute. reflexivity.
    + unfold Sessions.added. rewrite Hadd. exact Hu.
Defined.

(** X22. What [cmd_add] leaves and how it fails.  Whatever the outcome, the
    files outside the vault are as they were and no vault file is written
    but the one added to.  An exception leaves the command only from
    [Path.exists], at a prompt when the input has ended ([EOFError]), from
    [Path.read_bytes], or as the [AttributeError] of [append] when the
    unlocked body is not a list; in each of these cases the vault is as it
    was. *)
Theorem cmd_add_failures {L : Library} {P : Platform} source decoy s :
  disk (cmd_add source decoy s).2 = disk s ∧
  typed (cmd_add source decoy s).2 = typed s ∧
  (∀ path, path ≠ (if decoy then DECOY_FILENAME else REAL_FILENAME) →
     files (vault (cmd_add source decoy s).2) !! path = files (vault s) !! path) ∧
  ∀ e, (cmd_add source decoy s).1 = Raise e →
       vault (cmd_add source decoy s).2 = vault s ∧
       (path_exists source (disk s) = Raise e ∨
        e = EOFError ∨
        path_read_bytes source (disk s) = Raise e ∨
        (e = AttributeError ∧
         ∃ password body,
           typed s !! position s = Some password ∧
           is_list body = false ∧
           if decoy then (unlock_decoy password (vault s)).1 = Ok body
           else ∃ l2, (unlock_real password l2 (vault s)).1 = Ok body)).
Proof.
  destruct (path_exists source (disk s)) as [[|]|e0] eqn:Hd.
  - destruct decoy.
    + rewrite (cmd_add_decoy_eq _ _ Hd). cbn zeta.
      destruct (typed s !! position s) as [password|].
      2: { do 3 (split; [done|]). intros ? [= <-]. auto. }
      destruct (unlock_decoy _ _).1 as [body|] eqn:Hu.
      2: { by repeat (split; [done|]). }
      destruct (appending_facts source body (save_decoy_items password)
                  ("Added '" +:+ path_name source +:+ "' to decoy vault.") s
                  [Asked "Enter decoy password: "] 1 DECOY_FILENAME)
        as (? & ? & ? & Hr).
      { intros items path Hpath.
        by eapply save_decoy_items_other_files; [apply surjective_pairing|]. }
      { intros items. by eapply unlocked_saves_decoy. }
      do 3 (split; [done|]). intros err He. destruct (Hr err He) as [? [?|[-> ?]]].
      * auto.
      * split; [done|]. right. right. right. split; [done|]. by exists password, body.
    + rewrite (cmd_add_real_eq _ _ Hd). cbn zeta.
      destruct (typed s !! position s) as [l1|].
      2: { do 3 (split; [done|]). intros ? [= <-]. auto. }
      destruct (unlock_real _ None _).1 as [body|] eqn:H1.
      * destruct (appending_facts source body (save_real_items l1 None)
                    ("Added '" +:+ path_name source +:+ "' to real vault.") s
                    [Asked "Enter main password (L1): "] 1 REAL_FILENAME)
          as (? & ? & ? & Hr).
        { intros items path Hpath.
          by eapply save_real_items_other_files; [apply surjective_pairing|]. }
        { intros items. by eapply unlocked_saves_real. }
        do 3 (split; [done|]). intros err He. destruct (Hr err He) as [? [?|[-> ?]]].
        -- auto.
        -- split; [done|]. right. right. right. split; [done|]. exists l1, body. eauto.
      * destruct (typed s !! (position s + 1)) as [l2|].
        2: { do 3 (split; [done|]). intros ? [= <-]. auto. }
        destruct (negb _); [by repeat (split; [done|])|].
        destruct (unlock_real _ (Some _) _).1 as [body|] eqn:H2.
        2: { by repeat (split; [done|]). }
        destruct (appending_facts source body (save_real_items l1 (Some l2))
                    ("Added '" +:+ path_name source +:+ "' to real vault.") s
                    [Asked "Enter main password (L1): ";
                     Asked "Enter L2 (secondary) or press Enter to cancel: "] 2
                    REAL_FILENAME)
          as (? & ? & ? & Hr).
        { intros items path Hpath.
          by eapply save_real_items_other_files; [apply surjective_pairing|]. }
        { intros items. by eapply unlocked_saves_real. }
        do 3 (split; [done|]). intros err He. destruct (Hr err He) as [? [?|[-> ?]]].
        -- auto.
        -- split; [done|]. right. right. right. split; [done|]. exists l1, body. eauto.
  - rewrite (cmd_add_missing _ _ _ Hd). by repeat (split; [done|]).
  - rewrite (cmd_add_unseen _ _ _ _ Hd). do 3 (split; [done|]).
    intros ? [= <-]. auto.
Qed.

Lemma cmd_add_failures_witness :
  (cmd_add (L:=Model.library) (P:=Terminal.platform) "f.txt" false Sessions.object_adding).1
  = Raise AttributeError ∧
  vault (cmd_add (L:=Model.library) (P:=Terminal.platform) "f.txt" false
           Sessions.object_adding).2
  = vault Sessions.object_adding.
Proof.
  split; [vm_compute; reflexivity|].
  destruct (cmd_add_failures (L:=Model.library) (P:=Terminal.platform) "f.txt" false
              Sessions.object_adding) as (_ & _ & _ & Hraise).
  destruct (Hraise AttributeError) as [Hvault _]; [vm_compute; reflexivity|].
  exact Hvault.
Defined.

(** X23. [cmd_add --decoy] appends to the decoy vault and leaves the real
    vault alone: when the source can be read, the body of the decoy vault is
    a list and the typed password unlocks it, the next [unlock_decoy]
    returns the old elements followed by the new item, and [unlock_real]
    answers every pair of passwords as it did before. *)
Theorem cmd_add_decoy_appends {L : Library} {P : Platform}
    source content s items password :
  path_exists source (disk s) = Ok true →
  path_read_bytes source (disk s) = Ok content →
  typed s !! position s = Some password →
  (unlock_decoy password (vault s)).1 = Ok (JList items) →
  ∃ s', cmd_add source true s = (Ok (), s') ∧
        unlock_decoy password (vault s')
        = (Ok (JList (items ++ [added_item source content])), vault s') ∧
        ∀ l1 l2, (unlock_real l1 l2 (vault s')).1 = (unlock_real l1 l2 (vault s)).1.
Proof.
  intros Hd Hread Hp Hu. rewrite (cmd_add_decoy_eq _ _ Hd). cbn zeta. rewrite Hp, Hu.
  destruct (append_then_unlock_decoy _ _ (added_item source content) _ Hu)
    as [Hsave Hnext].
  rewrite (appending_list _ _ _ (save_decoy_items password) _ _ _ _ Hread Hsave).
  eexists. split; [done|]. cbn [vault shown with_vault]. split; [exact Hnext|].
  intros l1 l2. apply unlock_real_same_file.
  by eapply save_decoy_items_other_files; [apply surjective_pairing|].
Qed.

Lemma cmd_add_decoy_appends_witness :
  (unlock_real (L:=Model.library) "alpha" None
     (vault (cmd_add (L:=Model.library) (P:=Terminal.platform)
               "f.txt" true Sessions.decoy_adding).2)).1 = Ok (JList []).
Proof.
  destruct (cmd_add_decoy_appends (L:=Model.library) (P:=Terminal.platform)
              "f.txt" Sessions.hello Sessions.decoy_adding
              [item "decoy_welcome.txt" "file" (b64text (L:=Model.library) decoy_welcome)]
              "beta")
    as (s' & Hadd & _ & Hreal).
  - reflexivity.
  - reflexivity.
  - reflexivity.
  - vm_compute. reflexivity.
  - rewrite Hadd. cbn [snd]. rewrite Hreal. vm_compute. reflexivity.
Defined.

Section CliExportHelpers.
Context {L : Library} {P : Platform}.

(** The prompts of the real vault and the lines read at them, by the way the
    vault opens. *)
Definition real_asks (ask2 : string) (l2 : option string) : list event * nat :=
  match l2 with
  | None => ([Asked "Enter main password (L1) to try real (or press Enter to skip): "], 1)
  | Some _ =>
      ([Asked "Enter main password (L1) to try real (or press Enter to skip): ";
        Asked ask2], 2)
  end.

(** [cmd_export] in a session whose lines open the real vault. *)
Lemma cmd_export_opened fname out s l1 l2 body d1 :
  let outdir := if truthy_opt (Some out) then out else "exports" in
  path_mkdir outdir (disk s) = (Ok (), d1) →
  l1 ≠ EmptyString →
  real_opens s l1 l2 body →
  cmd_export fname out s
  = real_part fname outdir body
      (shown (with_disk s d1)
         (real_asks "Enter L2 (secondary) or press Enter to skip: " l2).1
         (real_asks "Enter L2 (secondary) or press Enter to skip: " l2).2).
Proof.
  cbn zeta. intros Hmk Hne [Hl1 Hopen]. rewrite cmd_export_eq. cbn zeta.
  rewrite Hmk, Hl1, truthy_opt_Some by done.
  destruct l2 as [p|].
  - destruct Hopen as ([e He] & Hl2 & Hp & Hu).
    by rewrite He, Hl2, truthy_opt_Some, Hu by done.
  - by rewrite Hopen.
Qed.

Lemma truthy_opt_Some_inv p : truthy_opt (Some p) = true → p ≠ EmptyString.
Proof. cbn. intros H. by apply String.eqb_neq, negb_true_iff. Qed.

(** The search through a list reaches the first object of the name. *)
Lemma real_part_found fname outdir pre it post content s d2 :
  Forall (other_object fname) pre →
  it !! "name" = Some (JStr fname) →
  (getitem (JDict it) "data" ≫= _b64decode) = Ok content →
  path_write_bytes (path_join outdir fname) content (disk s) = (Ok (), d2) →
  real_part fname outdir (JList (pre ++ JDict it :: post)) s
  = (Ok (),
     shown (with_disk s d2)
       [Printed ("Exported '" +:+ fname +:+ "' -> " +:+ path_join outdir fname)] 0).
Proof.
  intros Hpre Hname Hdata Hwrite. unfold real_part, searching, search_in.
  cbn [py_iter]. rewrite (search_others _ _ _ Hpre), (search_here _ _ _ Hname), Hdata.
  unfold exporting. cbn zeta. by rewrite Hwrite.
Qed.

(** How the search and the write fail. *)
Lemma searching_raises fname outdir body s e :
  (searching fname outdir body s).1 = Raise e →
  (search_in fname body = Failed e ∧ (searching fname outdir body s).2 = s) ∨
  ∃ content, search_in fname body = Found content ∧
             (path_write_bytes (path_join outdir fname) content (disk s)).1 = Raise e.
Proof.
  unfold searching. destruct (search_in fname body) as [|content|e0]; [done| |].
  - unfold exporting. cbn zeta.
    destruct (path_write_bytes _ content (disk s)) as [[[]|e0] d] eqn:Hw; cbn [fst];
      [done|].
    intros [= <-]. right. exists content. by rewrite Hw.
  - intros [= <-]. by left.
Qed.

(** The decoy part lets no exception out but the end of the input. *)
Lemma decoy_part_raises fname outdir s e :
  (decoy_part fname outdir s).1 = Raise e → e = EOFError.
Proof.
  unfold decoy_part. cbn zeta.
  destruct (typed s !! position s) as [password|]; [|by intros [= <-]].
  destruct (truthy_opt (Some password)); [|done].
  destruct (unlock_decoy password (vault s)).1 as [body|]; [|done].
  by destruct (searching fname outdir body _) as [[[]|e0] s'].
Qed.

Lemma real_part_raises fname outdir body s e :
  (real_part fname outdir body s).1 = Raise e →
  e = EOFError ∨
  (body ≠ JNull ∧
   (search_in fname body = Failed e ∨
    ∃ content, search_in fname body = Found content ∧
               (path_write_bytes (path_join outdir fname) content (disk s)).1 = Raise e)).
Proof.
  assert (∀ r : result unit * session,
            r = match searching fname outdir body s with
                | (Ok true, s') => (Ok (), s')
                | (Ok false, s') => decoy_part fname outdir s'
                | (Raise e, s') => (Raise e, s')
                end →
            body ≠ JNull →
            r.1 = Raise e →
            e = EOFError ∨
            (body ≠ JNull ∧
             (search_in fname body = Failed e ∨
              ∃ content, search_in fname body = Found content ∧
                (path_write_bytes (path_join outdir fname) content (disk s)).1 = Raise e)))
    as Hsearch.
  { intros r -> Hbody.
    destruct (searching fname outdir body s) as [[[]|e0] s'] eqn:Hs; cbn [fst].
    - done.
    - intros He. left. by eapply decoy_part_raises.
    - intros [= <-]. right. split; [done|].
      destruct (searching_raises fname outdir body s e0) as [[? _]|?];
        [by rewrite Hs|by left|by right]. }
  unfold real_part.
  destruct body; try (by apply Hsearch).
  intros He. left. by eapply decoy_part_raises.
Qed.

(** [cmd_add] in a session whose lines open the real vault on a list. *)
Lemma cmd_add_opened source content s l1 l2 old :
  path_exists source (disk s) = Ok true →
  path_read_bytes source (disk s) = Ok content →
  real_opens s l1 l2 (JList old) →
  (cmd_add source false s).1 = Ok () ∧
  vault (cmd_add source false s).2
  = (save_real_items l1 l2 (JList (old ++ [added_item source content])) (vault s)).2.
Proof.
  intros Hd Hread [Hl1 Hopen]. rewrite (cmd_add_real_eq _ _ Hd). cbn zeta. rewrite Hl1.
  destruct l2 as [p|].
  - destruct Hopen as ([e He] & Hl2 & Hp & Hu).
    rewrite He, Hl2, truthy_opt_Some by done. cbn [negb]. rewrite Hu.
    destruct (append_then_unlock_real _ _ _ (added_item source content) _ Hu)
      as [Hsave _].
    by rewrite (appending_list _ _ _ (save_real_items l1 (Some p)) _ _ _ _ Hread Hsave).
  - rewrite Hopen.
    destruct (append_then_unlock_real _ _ _ (added_item source content) _ Hopen)
      as [Hsave _].
    by rewrite (appending_list _ _ _ (save_real_items l1 None) _ _ _ _ Hread Hsave).
Qed.

(** The lines that opened the vault open it after the save, on the new
    body. *)
Lemma real_opens_saved s s2 l1 l2 old it :
  real_opens s l1 l2 (JList old) →
  vault s2 = (save_real_items l1 l2 (JList (old ++ [it])) (vault s)).2 →
  typed s2 !! position s2 = Some l1 →
  (∀ p, l2 = Some p → typed s2 !! (position s2 + 1) = Some p) →
  real_opens s2 l1 l2 (JList (old ++ [it])).
Proof.
  intros [Hl1 Hopen] Hv Ht1 Ht2. split; [done|]. rewrite Hv.
  destruct l2 as [p|].
  - destruct Hopen as ([e He] & Hl2 & Hp & Hu).
    split; [by eapply unlock_real_still_fails|]. split; [by apply Ht2|]. split; [done|].
    by rewrite (proj2 (append_then_unlock_real _ _ _ it _ Hu)).
  - by rewrite (proj2 (append_then_unlock_real _ _ _ it _ Hopen)).
Qed.

End CliExportHelpers.

(** X24. [cmd_export] exports the first item of that name.  When the output
    directory can be made, the typed L1 password is not empty and alone
    unlocks the real vault, the body is a list whose first element named as
    asked is an object that holds base64 text, the elements before it being
    objects, and the file can be written, then the decoded bytes are written
    to the file of that name in the output directory ("exports" when none is
    given), one line is printed, the decoy password is not asked for, and
    later items of the same name are not looked at. *)
Theorem cmd_export_first_match {L : Library} {P : Platform}
    fname out s l1 pre it post content d1 d2 :
  let outdir := if truthy_opt (Some out) then out else "exports" in
  path_mkdir outdir (disk s) = (Ok (), d1) →
  typed s !! position s = Some l1 →
  l1 ≠ EmptyString →
  (unlock_real l1 None (vault s)).1 = Ok (JList (pre ++ JDict it :: post)) →
  Forall (other_object fname) pre →
  it !! "name" = Some (JStr fname) →
  (getitem (JDict it) "data" ≫= _b64decode) = Ok content →
  path_write_bytes (path_join outdir fname) content d1 = (Ok (), d2) →
  ∃ s', cmd_export fname out s = (Ok (), s') ∧
        disk s' = d2 ∧
        vault s' = vault s ∧
        position s' = position s + 1 ∧
        screen s' = (screen s ++
          [Asked "Enter main password (L1) to try real (or press Enter to skip): ";
           Printed ("Exported '" +:+ fname +:+ "' -> " +:+ path_join outdir fname)])%list.
Proof.
  cbn zeta. intros Hmk Hl1 Hne Hu Hpre Hname Hdata Hwrite.
  rewrite (cmd_export_opened fname out s l1 None _ d1 Hmk Hne (conj Hl1 Hu)).
  cbn [real_asks fst snd].
  rewrite (real_part_found _ _ _ _ _ content _ d2 Hpre Hname Hdata) by exact Hwrite.
  eexists. split; [done|]. unfold shown, with_disk. cbn.
  by rewrite Nat.add_0_r, <- app_assoc.
Qed.

Lemma cmd_export_first_match_witness :
  disk (cmd_export (L:=Model.library) (P:=Terminal.platform)
          "a.txt" EmptyString Sessions.exporting).2
  = <["exports/a.txt" := list_byte_of_string "first"]> ∅.
Proof.
  destruct (cmd_export_first_match (L:=Model.library) (P:=Terminal.platform)
              "a.txt" EmptyString Sessions.exporting "alpha" []
              (<["name" := JStr "a.txt"]>
                 (<["type" := JStr "file"]>
                    (<["data" := JStr (b64text (L:=Model.library)
                                         (list_byte_of_string "first"))]> ∅)))
              [item "b.txt" "file" (b64text (L:=Model.library) Sessions.hello);
               item "a.txt" "file" (b64text (L:=Model.library) (list_byte_of_string "second"))]
              (list_byte_of_string "first") ∅
              (<["exports/a.txt" := list_byte_of_string "first"]> ∅))
    as (s' & Hexp & Hdisk & _).
  - reflexivity.
  - reflexivity.
  - discriminate.
  - vm_compute. reflexivity.
  - constructor.
  - reflexivity.
  - vm_compute. reflexivity.
  - reflexivity.
  - rewrite Hexp. exact Hdisk.
Defined.

(** X25. How [cmd_export] fails.  An exception leaves the command only from
    [mkdir] of the output directory, at a prompt when the input has ended
    ([EOFError]), or from the search of the real vault after the typed L1
    password (not empty; alone, or with the typed L2) has unlocked it on a
    body other than null: either the loop fails before any match is written
    ([TypeError] of a body that cannot be iterated, [AttributeError] of an
    element without [get] or of data without [encode], [KeyError] of a
    matching item without data, or a failure to decode its data), or the
    write of the first match fails.  What goes wrong in the decoy vault ends
    in a printed line. *)
Theorem cmd_export_failures {L : Library} {P : Platform} fname out s e :
  let outdir := if truthy_opt (Some out) then out else "exports" in
  (cmd_export fname out s).1 = Raise e →
  (path_mkdir outdir (disk s)).1 = Raise e ∨
  e = EOFError ∨
  ∃ l1 key body,
    typed s !! position s = Some l1 ∧
    l1 ≠ EmptyString ∧
    (key = None ∨ ∃ l2, key = Some l2 ∧ typed s !! (position s + 1) = Some l2) ∧
    (unlock_real l1 key (vault s)).1 = Ok body ∧
    body ≠ JNull ∧
    ((search_in fname body = Failed e ∧
      e ∈ [TypeError; AttributeError; KeyError "data"; UnicodeError; BinasciiError]) ∨
     ∃ content,
       search_in fname body = Found content ∧
       (path_write_bytes (path_join outdir fname) content
          (path_mkdir outdir (disk s)).2).1 = Raise e).
Proof.
  cbn zeta. rewrite cmd_export_eq. cbn zeta.
  destruct (path_mkdir _ (disk s)) as [[[]|e0] d1]; [|by left].
  cbn [fst snd]. set (outdir := if truthy_opt (Some out) then out else "exports").
  assert (∀ l1 key body evs n,
            typed s !! position s = Some l1 →
            l1 ≠ EmptyString →
            (key = None ∨ ∃ l2, key = Some l2 ∧ typed s !! (position s + 1) = Some l2) →
            (unlock_real l1 key (vault s)).1 = Ok body →
            (real_part fname outdir body (shown (with_disk s d1) evs n)).1 = Raise e →
            e = EOFError ∨
            ∃ l1 key body,
              typed s !! position s = Some l1 ∧
              l1 ≠ EmptyString ∧
              (key = None ∨
               ∃ l2, key = Some l2 ∧ typed s !! (position s + 1) = Some l2) ∧
              (unlock_real l1 key (vault s)).1 = Ok body ∧
              body ≠ JNull ∧
              ((search_in fname body = Failed e ∧
                e ∈ [TypeError; AttributeError; KeyError "data"; UnicodeError;
                     BinasciiError]) ∨
               ∃ content,
                 search_in fname body = Found content ∧
                 (path_write_bytes (path_join outdir fname) content d1).1 = Raise e))
    as Hreal.
  { intros l1 key body evs n Hl1 Hne Hkey Hu He.
    destruct (real_part_raises _ _ _ _ _ He) as [->|[Hbody Hcase]]; [by left|].
    right. exists l1, key, body. repeat (split; [done|]).
    destruct Hcase as [Hfail|Hwrite]; [|by right].
    left. split; [done|]. by eapply search_in_fails. }
  destruct (typed s !! position s) as [l1|] eqn:Hl1; [|intros [= <-]; by right; left].
  destruct (truthy_opt (Some l1)) eqn:Hne.
  2: { intros He. right. left. by eapply decoy_part_raises. }
  apply truthy_opt_Some_inv in Hne.
  destruct (unlock_real l1 None (vault s)).1 as [body|e1] eqn:H1.
  { intros He. right.
    exact (Hreal l1 None body _ _ eq_refl Hne (or_introl eq_refl) H1 He). }
  destruct (typed s !! (position s + 1)) as [l2|] eqn:Hl2;
    [|intros [= <-]; by right; left].
  destruct (truthy_opt (Some l2)).
  2: { intros He. right. left. by eapply decoy_part_raises. }
  destruct (unlock_real l1 (Some l2) (vault s)).1 as [body|e2] eqn:H2.
  2: { intros He. right. left. by eapply decoy_part_raises. }
  intros He. right.
  exact (Hreal l1 (Some l2) body _ _ eq_refl Hne
           (or_intror (ex_intro _ l2 (conj eq_refl eq_refl))) H2 He).
Qed.

Lemma cmd_export_failures_witness :
  (cmd_export (L:=Model.library) (P:=Terminal.platform)
     "a.txt" EmptyString Sessions.blocked).1 = Raise FileExistsError ∧
  ((path_mkdir (Platform:=Terminal.platform) "exports" (disk Sessions.blocked)).1
   = Raise FileExistsError ∨
   FileExistsError = EOFError ∨
   ∃ l1 key body,
     typed Sessions.blocked !! position Sessions.blocked = Some l1 ∧
     l1 ≠ EmptyString ∧
     (key = None ∨
      ∃ l2, key = Some l2 ∧
            typed Sessions.blocked !! (position Sessions.blocked + 1) = Some l2) ∧
     (unlock_real (L:=Model.library) l1 key (vault Sessions.blocked)).1 = Ok body ∧
     body ≠ JNull ∧
     ((search_in (L:=Model.library) "a.txt" body = Failed FileExistsError ∧
       FileExistsError ∈ [TypeError; AttributeError; KeyError "data"; UnicodeError;
                          BinasciiError]) ∨
      ∃ content,
        search_in (L:=Model.library) "a.txt" body = Found content ∧
        (path_write_bytes (Platform:=Terminal.platform)
           (path_join (Platform:=Terminal.platform) "exports" "a.txt") content
           (path_mkdir (Platform:=Terminal.platform) "exports"
              (disk Sessions.blocked)).2).1 = Raise FileExistsError)).
Proof.
  split; [vm_compute; reflexivity|].
  apply (cmd_export_failures (L:=Model.library) (P:=Terminal.platform)
           "a.txt" EmptyString Sessions.blocked FileExistsError).
  vm_compute. reflexivity.
Defined.

(** X26. Adding then exporting returns the file only under a new name.
    After [cmd_add] has added a readable file to the real vault, whose body
    was a list and which the typed L1 password unlocked, alone or with the
    typed L2 password, [cmd_export] of the name of the file with the same
    passwords writes the bytes of that file when the older elements are
    objects of other names; when an older object has the name, the export
    writes the bytes that this older item holds, for [cmd_add] appends and
    [cmd_export] takes the first match.  The output directory and the file
    in it are supposed to be writable. *)
Theorem add_then_export {L : Library} {P : Platform}
    source content out s l1 l2 old s2 d1 :
  let fname := path_name source in
  let outdir := if truthy_opt (Some out) then out else "exports" in
  path_exists source (disk s) = Ok true →
  path_read_bytes source (disk s) = Ok content →
  l1 ≠ EmptyString →
  real_opens s l1 l2 (JList old) →
  vault s2 = vault (cmd_add source false s).2 →
  typed s2 !! position s2 = Some l1 →
  (∀ p, l2 = Some p → typed s2 !! (position s2 + 1) = Some p) →
  path_mkdir outdir (disk s2) = (Ok (), d1) →
  (∀ d2, Forall (other_object fname) old →
   path_write_bytes (path_join outdir fname) content d1 = (Ok (), d2) →
   ∃ s3, cmd_export fname out s2 = (Ok (), s3) ∧ disk s3 = d2) ∧
  (∀ pre it post older d2,
   old = (pre ++ JDict it :: post)%list →
   Forall (other_object fname) pre →
   it !! "name" = Some (JStr fname) →
   (getitem (JDict it) "data" ≫= _b64decode) = Ok older →
   path_write_bytes (path_join outdir fname) older d1 = (Ok (), d2) →
   ∃ s3, cmd_export fname out s2 = (Ok (), s3) ∧ disk s3 = d2).
Proof.
  cbn zeta. intros Hd Hread Hne Hopen Hv Ht1 Ht2 Hmk.
  destruct (cmd_add_opened _ _ _ _ _ _ Hd Hread Hopen) as [_ Hsaved].
  rewrite Hsaved in Hv.
  pose proof (real_opens_saved _ _ _ _ _ _ Hopen Hv Ht1 Ht2) as Hopen2.
  rewrite (cmd_export_opened _ out s2 l1 l2 _ d1 Hmk Hne Hopen2).
  split.
  - intros d2 Hold Hwrite. unfold added_item, item.
    rewrite (real_part_found _ _ old _ [] content _ d2 Hold); [by eexists|by lookups| |done].
    unfold getitem. lookups. binds. by rewrite b64decode_run.
  - intros pre it post older d2 -> Hpre Hname Hdata Hwrite. rewrite <- app_assoc.
    cbn [app].
    rewrite (real_part_found _ _ pre it _ older _ d2 Hpre Hname Hdata); [by eexists|done].
Qed.

Lemma add_then_export_witness :
  disk (cmd_export (L:=Model.library) (P:=Terminal.platform)
          "f.txt" "out" Sessions.re_exporting).2
  = <["out/f.txt" := Sessions.hello]> ∅.
Proof.
  destruct (add_then_export (L:=Model.library) (P:=Terminal.platform)
              "f.txt" Sessions.hello "out" Sessions.adding "a1" (Some "a2") []
              Sessions.re_exporting ∅) as [Hnew _].
  - reflexivity.
  - reflexivity.
  - discriminate.
  - split; [reflexivity|]. split; [eexists; vm_compute; reflexivity|].
    split; [reflexivity|]. split; [discriminate|]. vm_compute. reflexivity.
  - reflexivity.
  - reflexivity.
  - intros p [= <-]. reflexivity.
  - reflexivity.
  - destruct (Hnew (<["out/f.txt" := Sessions.hello]> ∅)) as (s3 & Hexp & Hdisk).
    + constructor.
    + reflexivity.
    + change (path_name "f.txt") with "f.txt" in Hexp. rewrite Hexp. exact Hdisk.
Defined.

Section CliInitHelpers.
Context {L : Library} {P : Platform}.

(** The dialogues of [cmd_init] leave the files outside the vault and the
    lines typed as they are. *)
Lemma choosing_frame s :
  disk (choosing s).2 = disk s ∧ typed (choosing s).2 = typed s.
Proof.
  unfold choosing. cbn zeta.
  destruct (typed s !! position s) as [answer|]; [|done].
  destruct (String.eqb _ "1").
  - destruct (typed s !! (position s + 1)) as [l2|]; [|done].
    destruct (typed s !! (position s + 2)) as [l2_confirm|]; [|done].
    by destruct (negb _).
  - by destruct (String.eqb _ "2").
Qed.

Lemma finishing_frame l1 l2 s :
  disk (finishing l1 l2 s).2 = disk s ∧ typed (finishing l1 l2 s).2 = typed s.
Proof.
  unfold finishing. cbn zeta.
  destruct (typed s !! position s) as [decoy|]; [|done].
  destruct (typed s !! (position s + 1)) as [decoy_confirm|]; [|done].
  by destruct (negb _).
Qed.

(** [cmd_init] once the L1 password is typed and confirmed. *)
Lemma cmd_init_confirmed s l1 :
  typed s !! position s = Some l1 →
  typed s !! (position s + 1) = Some l1 →
  cmd_init s =
    match choosing (shown s [Printed "Zentry initialization — choose strong passwords.";
                             Asked "Enter main password (L1): ";
                             Asked "Confirm main password: "] 2) with
    | (Raise e, s') => (Raise e, s')
    | (Ok None, s') => (Ok (), s')
    | (Ok (Some l2), s') => finishing l1 l2 s'
    end.
Proof.
  intros H0 H1. rewrite cmd_init_eq. cbn zeta.
  by rewrite H0, H1, String.eqb_refl.
Qed.

(** The choice of the second factor, by the answer. *)
Lemma choosing_typed s answer l2 l2_confirm :
  typed s !! position s = Some answer →
  str_strip answer = "1" →
  typed s !! (position s + 1) = Some l2 →
  typed s !! (position s + 2) = Some l2_confirm →
  choosing s =
    if negb (String.eqb l2 l2_confirm) then
      (Ok None,
       shown s (menu ++ [Asked "Enter L2 password: "; Asked "Confirm L2 password: ";
                         Printed "L2 mismatch. Aborting."]) 3)
    else (Ok (Some (Some l2)),
          shown s (menu ++ [Asked "Enter L2 password: "; Asked "Confirm L2 password: "]) 3).
Proof.
  intros H0 Ha H1 H2. unfold choosing. cbn zeta. rewrite H0, Ha.
  cbn [truthy_opt String.eqb Ascii.eqb Bool.eqb negb]. by rewrite H1, H2.
Qed.

Lemma choosing_default s answer :
  typed s !! position s = Some answer →
  str_strip answer = EmptyString ∨ str_strip answer = "2" →
  choosing s =
    (Ok (Some (Some (recovery_key (vault s)))),
     shown (with_vault s (advance (vault s) 24))
       (menu ++ [Printed "Recovery key (save this somewhere safe):";
                 Printed (recovery_key (vault s))]) 1).
Proof.
  intros H0 Ha. unfold choosing. cbn zeta. rewrite H0.
  assert ((if truthy_opt (Some (str_strip answer)) then str_strip answer else "2") = "2")
    as ->; [|done].
  destruct Ha as [Ha | Ha]; by rewrite Ha.
Qed.

Lemma choosing_none s answer :
  typed s !! position s = Some answer →
  str_strip answer ≠ EmptyString →
  str_strip answer ≠ "1" →
  str_strip answer ≠ "2" →
  choosing s = (Ok (Some None), shown s menu 1).
Proof.
  intros H0 Ha0 Ha1 Ha2. unfold choosing. cbn zeta.
  rewrite H0, truthy_opt_Some by done.
  by rewrite (proj2 (String.eqb_neq _ _) Ha1), (proj2 (String.eqb_neq _ _) Ha2).
Qed.

(** Any answer but "1" leads to the decoy dialogue after one line, with the
    vault files untouched. *)
Lemma choosing_untyped s answer :
  typed s !! position s = Some answer →
  str_strip answer ≠ "1" →
  ∃ l2 s', choosing s = (Ok (Some l2), s') ∧
           files (vault s') = files (vault s) ∧
           typed s' = typed s ∧
           position s' = position s + 1.
Proof.
  intros H0 Ha. unfold choosing. cbn zeta. rewrite H0.
  destruct (truthy_opt (Some (str_strip answer))).
  - rewrite (proj2 (String.eqb_neq _ _) Ha).
    destruct (String.eqb _ "2"); by do 2 eexists.
  - cbn [String.eqb Ascii.eqb Bool.eqb]. by do 2 eexists.
Qed.

Lemma finishing_mismatch l1 l2 s decoy decoy_confirm :
  typed s !! position s = Some decoy →
  typed s !! (position s + 1) = Some decoy_confirm →
  decoy ≠ decoy_confirm →
  finishing l1 l2 s =
    (Ok (), shown s [Asked "Enter decoy password (for fake vault): ";
                     Asked "Confirm decoy password: ";
                     Printed "Decoy password mismatch. Aborting."] 2).
Proof.
  intros H0 H1 Hne. unfold finishing. cbn zeta.
  by rewrite H0, H1, (proj2 (String.eqb_neq _ _) Hne).
Qed.

Lemma finishing_confirmed l1 l2 s decoy :
  typed s !! position s = Some decoy →
  typed s !! (position s + 1) = Some decoy →
  finishing l1 l2 s =
    (Ok (),
     shown (with_vault s (initialized l1 l2 decoy (vault s)))
       [Asked "Enter decoy password (for fake vault): ";
        Asked "Confirm decoy password: ";
        Printed ("Zentry initialized. Vault files created in: " +:+ store_path)] 2).
Proof.
  intros H0 H1. unfold finishing. cbn zeta. by rewrite H0, H1, String.eqb_refl.
Qed.

End CliInitHelpers.

(** X27. Where [cmd_init] stops without a vault.  Whatever the outcome, the
    files outside the vault are as they were.  When the confirmation of the
    L1 password differs, the command returns after these two lines and the
    vault is as it was; so it is when, by choice 1, the confirmation of the
    L2 password differs.  When the answer to the choice is another one and
    the confirmation of the decoy password differs, the command returns and
    no vault file has been written. *)
Theorem cmd_init_aborts {L : Library} {P : Platform} s l1 l1_confirm :
  typed s !! position s = Some l1 →
  typed s !! (position s + 1) = Some l1_confirm →
  disk (cmd_init s).2 = disk s ∧
  typed (cmd_init s).2 = typed s ∧
  (l1 ≠ l1_confirm →
   (cmd_init s).1 = Ok () ∧
   vault (cmd_init s).2 = vault s ∧
   position (cmd_init s).2 = position s + 2) ∧
  (∀ answer l2 l2_confirm,
   l1 = l1_confirm →
   typed s !! (position s + 2) = Some answer →
   str_strip answer = "1" →
   typed s !! (position s + 3) = Some l2 →
   typed s !! (position s + 4) = Some l2_confirm →
   l2 ≠ l2_confirm →
   (cmd_init s).1 = Ok () ∧
   vault (cmd_init s).2 = vault s ∧
   position (cmd_init s).2 = position s + 5) ∧
  (∀ answer decoy decoy_confirm,
   l1 = l1_confirm →
   typed s !! (position s + 2) = Some answer →
   str_strip answer ≠ "1" →
   typed s !! (position s + 3) = Some decoy →
   typed s !! (position s + 4) = Some decoy_confirm →
   decoy ≠ decoy_confirm →
   (cmd_init s).1 = Ok () ∧
   files (vault (cmd_init s).2) = files (vault s) ∧
   position (cmd_init s).2 = position s + 5).
Proof.
  intros H0 H1. split; [|split; [|split; [|split]]].
  - rewrite cmd_init_eq. cbn zeta. rewrite H0, H1.
    destruct (negb _); [done|].
    pose proof (choosing_frame
                  (shown s [Printed "Zentry initialization — choose strong passwords.";
                            Asked "Enter main password (L1): ";
                            Asked "Confirm main password: "] 2)) as [Hd _].
    destruct (choosing _) as [[[l2|]|e] s']; cbn [fst snd] in *; [|done|done].
    by rewrite (proj1 (finishing_frame _ _ _)).
  - rewrite cmd_init_eq. cbn zeta. rewrite H0, H1.
    destruct (negb _); [done|].
    pose proof (choosing_frame
                  (shown s [Printed "Zentry initialization — choose strong passwords.";
                            Asked "Enter main password (L1): ";
                            Asked "Confirm main password: "] 2)) as [_ Ht].
    destruct (choosing _) as [[[l2|]|e] s']; cbn [fst snd] in *; [|done|done].
    by rewrite (proj2 (finishing_frame _ _ _)).
  - intros Hne. rewrite cmd_init_eq. cbn zeta.
    by rewrite H0, H1, (proj2 (String.eqb_neq _ _) Hne).
  - intros answer l2 l2_confirm <- H2 Ha H3 H4 Hne.
    rewrite (cmd_init_confirmed _ _ H0 H1).
    erewrite choosing_typed; [| exact H2 | exact Ha | |].
    + rewrite (proj2 (String.eqb_neq _ _) Hne). cbn [negb fst snd shown vault position].
      split; [done|]. split; [done|]. lia.
    + cbn [shown typed position]. by rewrite <- Nat.add_assoc.
    + cbn [shown typed position]. by rewrite <- Nat.add_assoc.
  - intros answer decoy decoy_confirm <- H2 Ha H3 H4 Hne.
    rewrite (cmd_init_confirmed _ _ H0 H1).
    destruct (choosing_untyped
                (shown s [Printed "Zentry initialization — choose strong passwords.";
                          Asked "Enter main password (L1): ";
                          Asked "Confirm main password: "] 2) answer H2 Ha)
      as (l2 & s' & -> & Hfiles & Htyped & Hpos).
    cbn [shown typed position vault] in Hfiles, Htyped, Hpos.
    erewrite finishing_mismatch; [| | |exact Hne].
    + cbn [fst snd shown vault position]. split; [done|]. split; [done|]. lia.
    + rewrite Htyped, Hpos, <- H3. f_equal. lia.
    + rewrite Htyped, Hpos, <- H4. f_equal. lia.
Qed.

Lemma cmd_init_aborts_witness :
  vault (cmd_init (L:=Model.library) (P:=Terminal.platform) Sessions.mistyped_init).2
  = Model.fresh_world ∧
  files (vault (cmd_init (L:=Model.library) (P:=Terminal.platform)
                  Sessions.mistyped_decoy).2) = ∅.
Proof.
  split.
  - destruct (cmd_init_aborts (L:=Model.library) (P:=Terminal.platform)
                Sessions.mistyped_init "p" "q") as (_ & _ & Habort & _).
    + reflexivity.
    + reflexivity.
    + destruct Habort as (_ & Hvault & _); [discriminate|]. exact Hvault.
  - destruct (cmd_init_aborts (L:=Model.library) (P:=Terminal.platform)
                Sessions.mistyped_decoy "p" "p") as (_ & _ & _ & _ & Habort).
    + reflexivity.
    + reflexivity.
    + destruct (Habort "2" "d" "e") as (_ & Hfiles & _);
        [reflexivity|reflexivity|discriminate|reflexivity|reflexivity|discriminate|].
      exact Hfiles.
Defined.

(** X28. The default of [cmd_init] is a generated recovery key.  When both
    confirmations agree and the answer to the choice, once stripped, is
    empty or "2", the command draws 24 bytes, prints their base64 text as
    the recovery key and initialises a two-level vault with it: L1 and the
    key together open the empty vault, L1 alone is asked for the second
    factor, and the decoy password opens the decoy vault. *)
Theorem cmd_init_recovery_key {L : Library} {P : Platform} s l1 answer decoy :
  let key := recovery_key (vault s) in
  typed s !! position s = Some l1 →
  typed s !! (position s + 1) = Some l1 →
  typed s !! (position s + 2) = Some answer →
  str_strip answer = EmptyString ∨ str_strip answer = "2" →
  typed s !! (position s + 3) = Some decoy →
  typed s !! (position s + 4) = Some decoy →
  key ≠ EmptyString →
  ∃ s', cmd_init s = (Ok (), s') ∧
        Printed key ∈ screen s' ∧
        unlock_real l1 (Some key) (vault s') = (Ok (JList []), vault s') ∧
        unlock_real l1 None (vault s') = (Raise SecondFactorRequired, vault s') ∧
        unlock_decoy decoy (vault s') = (Ok decoy_items, vault s').
Proof.
  cbn zeta. intros H0 H1 H2 Hanswer H3 H4 Hkey.
  rewrite (cmd_init_confirmed _ _ H0 H1).
  rewrite (choosing_default _ answer) by done.
  cbn [shown with_vault vault typed position screen].
  erewrite finishing_confirmed.
  - eexists. split; [done|]. cbn [screen vault shown with_vault]. split; [|split; [|split]].
    + rewrite !elem_of_app, !elem_of_cons. left. right. right. right. by left.
    + by apply unlock_real_initialized_two.
    + by apply unlock_real_initialized_l1_only.
    + apply unlock_decoy_initialized.
  - cbn [shown with_vault typed position]. rewrite <- H3. f_equal. lia.
  - cbn [shown with_vault typed position]. rewrite <- H4. f_equal. lia.
Qed.

Lemma cmd_init_recovery_key_witness :
  let w := vault (cmd_init (L:=Model.library) (P:=Terminal.platform)
                    Sessions.default_init).2 in
  unlock_real (L:=Model.library) "p"
    (Some "AAABACADAEAFAGAHAIAJAKALAMANAOAPBABBBCBDBEBFBGBH") w = (Ok (JList []), w).
Proof.
  cbn zeta.
  destruct (cmd_init_recovery_key (L:=Model.library) (P:=Terminal.platform)
              Sessions.default_init "p" EmptyString "d") as (s' & Hinit & _ & Hu & _).
  - reflexivity.
  - reflexivity.
  - reflexivity.
  - left. reflexivity.
  - reflexivity.
  - reflexivity.
  - vm_compute. discriminate.
  - rewrite Hinit. exact Hu.
Defined.

(** X29. [cmd_init] can leave a vault without second factor in two ways
    that its menu does not announce: by choice 1 with an empty L2 password
    typed twice, and by any answer other than "1" and "2" (not only "3").
    In both cases, the confirmations agreeing, the vault it initialises
    opens with the L1 password alone, whatever is given as L2. *)
Theorem cmd_init_without_second_factor {L : Library} {P : Platform} s l1 answer decoy :
  typed s !! position s = Some l1 →
  typed s !! (position s + 1) = Some l1 →
  typed s !! (position s + 2) = Some answer →
  (str_strip answer = "1" ∧
   typed s !! (position s + 3) = Some EmptyString ∧
   typed s !! (position s + 4) = Some EmptyString ∧
   typed s !! (position s + 5) = Some decoy ∧
   typed s !! (position s + 6) = Some decoy) ∨
  (str_strip answer ≠ EmptyString ∧ str_strip answer ≠ "1" ∧ str_strip answer ≠ "2" ∧
   typed s !! (position s + 3) = Some decoy ∧
   typed s !! (position s + 4) = Some decoy) →
  ∃ s', cmd_init s = (Ok (), s') ∧
        ∀ l2, unlock_real l1 l2 (vault s') = (Ok (JList []), vault s').
Proof.
  intros H0 H1 H2 Hcase. rewrite (cmd_init_confirmed _ _ H0 H1).
  destruct Hcase as [(Ha & H3 & H4 & H5 & H6) | (Ha0 & Ha1 & Ha2 & H3 & H4)].
  - rewrite (choosing_typed _ answer EmptyString EmptyString); [| exact H2 | exact Ha | |].
    + cbn [String.eqb negb]. erewrite finishing_confirmed.
      * eexists. split; [done|]. intros l2. cbn [vault shown with_vault].
        by apply unlock_real_initialized_single.
      * cbn [shown typed position]. rewrite <- H5. f_equal. lia.
      * cbn [shown typed position]. rewrite <- H6. f_equal. lia.
    + cbn [shown typed position]. rewrite <- H3. f_equal. lia.
    + cbn [shown typed position]. rewrite <- H4. f_equal. lia.
  - rewrite (choosing_none _ answer) by done. erewrite finishing_confirmed.
    + eexists. split; [done|]. intros l2. cbn [vault shown with_vault].
      by apply unlock_real_initialized_single.
    + cbn [shown typed position]. rewrite <- H3. f_equal. lia.
    + cbn [shown typed position]. rewrite <- H4. f_equal. lia.
Qed.

Lemma cmd_init_without_second_factor_witness :
  let w := vault (cmd_init (L:=Model.library) (P:=Terminal.platform)
                    Sessions.typed_init).2 in
  unlock_real (L:=Model.library) "p" None w = (Ok (JList []), w).
Proof.
  cbn zeta.
  destruct (cmd_init_without_second_factor (L:=Model.library) (P:=Terminal.platform)
              Sessions.typed_init "p" "1" "d") as (s' & Hinit & Hu).
  - reflexivity.
  - reflexivity.
  - reflexivity.
  - left. by repeat split.
  - rewrite Hinit. apply Hu.
Defined.
